(** * orangecontrib.text.nyt : a shallow embedding and its properties

    The module fetches article records from the New York Times article
    search API page by page, keeps the raw responses in a shelve cache on
    disk and flattens the JSON records into rows of text columns.

    Python values that come out of [json.loads] are embedded as the
    inductive type [json]; a [dict] is an association list in insertion
    order (the order [dict.values()] yields), and a [str] is a Rocq
    [string] read as a sequence of Latin-1 code points.  Exceptions are
    explicit: every operation that can raise returns a [result]. *)

From Stdlib Require Import ZArith Lia ZifyNat Bool Ascii String.
From Stdlib Require Import DecimalString DecimalNat.
From stdpp Require Import base option list strings gmap.

Set Warnings "-register-all".

(* stdpp switches [simpl] off for string concatenation; the proofs below
   compute with it. *)
#[local] Arguments String.append !s1 s2 : simpl nomatch.

Local Open Scope string_scope.
Local Open Scope list_scope.
Local Open Scope Z_scope.

(** ** Exceptions and the error monad *)

(** The exception classes the module can run into.  [TypeError] also
    stands for the [TypeError] Python raises when a value is subscripted,
    iterated or searched although its type does not allow it. *)
Inductive exn : Type :=
| KeyError
| TypeError
| AttributeError
| ValueError
| IndexError
| HTTPError
| URLError.

Inductive result (A : Type) : Type :=
| Ok (a : A)
| Raise (e : exn).
Arguments Ok {A} a.
Arguments Raise {A} e.

Definition rbind {A B : Type} (m : result A) (k : A -> result B) : result B :=
  match m with
  | Ok a => k a
  | Raise e => Raise e
  end.

Declare Scope result_scope.
Delimit Scope result_scope with result.
Notation "x <~ m ; k" := (rbind m (fun x => k))
  (at level 100, m at next level, right associativity) : result_scope.
Local Open Scope result_scope.

Definition raises {A : Type} (m : result A) : Prop :=
  exists e, m = Raise e.

Fixpoint rmap {A B : Type} (f : A -> result B) (l : list A) : result (list B) :=
  match l with
  | [] => Ok []
  | a :: l' => b <~ f a; bs <~ rmap f l'; Ok (b :: bs)
  end.

(** ** JSON values as Python sees them *)

(** What [json.loads] returns.  Numbers are the integers; floats are not
    part of the embedding.  The keys of a dict are distinct, so the first
    entry under a key is the entry under that key. *)

Inductive json : Type :=
| JNull                                   (* None *)
| JBool (b : bool)
| JNum (z : Z)
| JStr (s : string)
| JList (l : list json)
| JDict (d : list (string * json)).

(** The absent-value marker. *)
Definition None_ : json := JNull.

Fixpoint dict_get (k : string) (d : list (string * json)) : option json :=
  match d with
  | [] => None
  | (k', v) :: d' => if String.eqb k k' then Some v else dict_get k d'
  end.

(** Python truth value: [if v]. *)
Definition truthy (v : json) : bool :=
  match v with
  | JNull => false
  | JBool b => b
  | JNum z => negb (z =? 0)
  | JStr s => negb (String.eqb s "")
  | JList l => match l with [] => false | _ => true end
  | JDict d => match d with [] => false | _ => true end
  end.

(** [v == s] for a string literal [s]. *)
Definition py_eq_str (v : json) (s : string) : bool :=
  match v with
  | JStr s' => String.eqb s' s
  | _ => false
  end.

Fixpoint is_substring (k s : string) : bool :=
  String.prefix k s ||
  match s with
  | EmptyString => false
  | String _ s' => is_substring k s'
  end.

(** [k in c]: key test on a dict, element test on a list, substring test
    on a str; other values are not containers. *)
Definition py_in (k : string) (c : json) : result bool :=
  match c with
  | JDict d => Ok (match dict_get k d with Some _ => true | None => false end)
  | JList l => Ok (existsb (fun x => py_eq_str x k) l)
  | JStr s => Ok (is_substring k s)
  | _ => Raise TypeError
  end.

(** [c[k]] for a string key [k]. *)
Definition py_getitem (c : json) (k : string) : result json :=
  match c with
  | JDict d => match dict_get k d with Some v => Ok v | None => Raise KeyError end
  | _ => Raise TypeError
  end.

(** [c.get(k, dflt)]: only a dict has the method. *)
Definition py_get (c : json) (k : string) (dflt : json) : result json :=
  match c with
  | JDict d => Ok (default dflt (dict_get k d))
  | _ => Raise AttributeError
  end.

(** The elements a [for] loop over [c] visits. *)
Definition py_iter (c : json) : result (list json) :=
  match c with
  | JList l => Ok l
  | JDict d => Ok (map (fun kv => JStr (fst kv)) d)
  | JStr s => Ok (map (fun a => JStr (String a EmptyString)) (list_ascii_of_string s))
  | _ => Raise TypeError
  end.

Fixpoint join (sep : string) (l : list string) : string :=
  match l with
  | [] => ""
  | [x] => x
  | x :: l' => x +:+ sep +:+ join sep l'
  end.

Definition as_str (v : json) : result string :=
  match v with
  | JStr s => Ok s
  | _ => Raise TypeError
  end.

(** [sep.join(vals)]: every item has to be a str. *)
Definition py_join (sep : string) (vals : list json) : result json :=
  ss <~ rmap as_str vals; Ok (JStr (join sep ss)).

(** ** _parse_record_json *)

Definition NYT_TEXT_FIELDS : list string :=
  ["headline"; "lead_paragraph"; "snippet"; "abstract"; "keywords"].

(** Lines 33-40: the value appended for a field that the record has. *)
Definition field_value (v : json) : result json :=
  match v with
  | JDict d => py_join " " (filter (fun val => truthy val = true) (map snd d))
  | JList l =>
      vals <~ rmap (fun kw => py_getitem kw "value")
                   (filter (fun kw => truthy kw = true) l);
      py_join " " vals
  | _ => Ok (if truthy v then v else JStr "")
  end.

(** Lines 31-41: the loop over the configured fields.  The append is inside
    [if field in doc], so an absent field adds no entry. *)
Fixpoint text_fields (doc : json) (includes_metadata : list string)
  : result (list json) :=
  match includes_metadata with
  | [] => Ok []
  | field :: fields =>
      present <~ py_in field doc;
      if (present : bool) then
        v <~ py_getitem doc field;
        fv <~ field_value v;
        rest <~ text_fields doc fields;
        Ok (fv :: rest)
      else text_fields doc fields
  end.

(** Line 45: [[kw["value"] for kw in doc["keywords"] if kw["name"] == "glocations"]]. *)
Fixpoint glocation_values (kws : list json) : result (list json) :=
  match kws with
  | [] => Ok []
  | kw :: kws' =>
      name <~ py_getitem kw "name";
      if py_eq_str name "glocations" then
        v <~ py_getitem kw "value";
        rest <~ glocation_values kws';
        Ok (v :: rest)
      else glocation_values kws'
  end.

Definition glocation (doc : json) : result json :=
  kws <~ py_getitem doc "keywords";
  items <~ py_iter kws;
  vals <~ glocation_values items;
  py_join "," vals.

(** Line 50: [None if v is "" else v].  The empty str is a single object in
    CPython, so the identity test is the test for the empty string. *)
Definition empty_to_None (v : json) : json :=
  if py_eq_str v "" then None_ else v.

(** Lines 30-50 for one record: the row and the class value. *)
Definition parse_doc (doc : json) (includes_metadata : list string)
  : result (list json * json) :=
  metas_row <~ text_fields doc includes_metadata;
  pub_date <~ py_get doc "pub_date" (JStr "");
  loc <~ glocation doc;
  section <~ py_get doc "section_name" None_;
  Ok (map empty_to_None (metas_row ++ [pub_date; loc]), section).

(** [np.vstack((metadata, np.array(metas_row)))] on a table of [ncols]
    columns: the new row has to have as many entries.  The row is kept as
    the list of Python values it was built from.  What [np.array] makes of
    the entries is not modelled: in a row without [None] it turns a number
    into its text and drops NUL characters at the end of a str.  Statements
    about the entries of the table are made for the entries numpy keeps
    ([kept_entry] below). *)
Definition vstack (ncols : nat) (metadata : list (list json)) (row : list json)
  : result (list (list json)) :=
  if (length row =? ncols)%nat then Ok (metadata ++ [row]) else Raise ValueError.

Fixpoint parse_loop (ncols : nat) (records : list json) (includes_metadata : list string)
    (metadata : list (list json)) (class_values : list json)
  : result (list (list json) * list json) :=
  match records with
  | [] => Ok (metadata, class_values)
  | doc :: records' =>
      parsed <~ parse_doc doc includes_metadata;
      metadata' <~ vstack ncols metadata (fst parsed);
      parse_loop ncols records' includes_metadata metadata' (class_values ++ [snd parsed])
  end.

Definition _parse_record_json (records : list json) (includes_metadata : list string)
  : result (list (list json) * list json) :=
  parse_loop (length includes_metadata + 2) records includes_metadata [] [].


(** [_generate_corpus] hands the rows and the class values to numpy and
    Orange, which build the document strings, the domain and the table
    from them.  The embedding stops at line 77, at the two lists the table
    is built from: lines 78-90 are not embedded, neither the corpus they
    build nor what they raise (the join of line 80 raises [TypeError] on
    an entry that is neither [None] nor a str).  [Done] for a run
    therefore says that nothing was raised up to line 77. *)
Record Corpus : Type := {
  metas : list (list json);
  class_values : list json
}.

Definition _generate_corpus (records : list json) (required_text_fields : list string)
  : result Corpus :=
  parsed <~ _parse_record_json records required_text_fields;
  Ok {| metas := fst parsed; class_values := snd parsed |}.

(** ** Strings *)

Definition chr (n : nat) : ascii := ascii_of_nat n.

(** [str.isspace] on a Latin-1 code point. *)
Definition is_space (c : ascii) : bool :=
  let n := nat_of_ascii c in
  ((9 <=? n) && (n <=? 13) || (28 <=? n) && (n <=? 32) || (n =? 133) || (n =? 160))%nat.

(** [str.isdigit] on a Latin-1 code point: the decimal digits and the
    superscripts one, two and three. *)
Definition is_digit (c : ascii) : bool :=
  let n := nat_of_ascii c in
  ((48 <=? n) && (n <=? 57) || (n =? 178) || (n =? 179) || (n =? 185))%nat.

Fixpoint all_chars (p : ascii -> bool) (s : string) : bool :=
  match s with
  | EmptyString => true
  | String c s' => p c && all_chars p s'
  end.

(** [s.isdigit()]: false on the empty string. *)
Definition isdigit (s : string) : bool :=
  negb (String.eqb s "") && all_chars is_digit s.

Fixpoint lstrip (s : string) : string :=
  match s with
  | EmptyString => EmptyString
  | String c s' => if is_space c then lstrip s' else s
  end.

Fixpoint rstrip (s : string) : string :=
  match s with
  | EmptyString => EmptyString
  | String c s' =>
      match rstrip s' with
      | EmptyString => if is_space c then EmptyString else String c EmptyString
      | r => String c r
      end
  end.

Definition strip (s : string) : string := rstrip (lstrip s).

(** [s.split(sep)] for a separator of one character. *)
Fixpoint split (sep : ascii) (s : string) : list string :=
  match s with
  | EmptyString => [EmptyString]
  | String c s' =>
      if Ascii.eqb c sep then EmptyString :: split sep s'
      else match split sep s' with
           | [] => [String c EmptyString]
           | w :: ws => String c w :: ws
           end
  end.

(** [l[i]] *)
Definition index {A : Type} (l : list A) (i : nat) : result A :=
  match nth_error l i with
  | Some a => Ok a
  | None => Raise IndexError
  end.

(** [str(n)] for a page number. *)
Definition str (n : nat) : string := NilZero.string_of_uint (Nat.to_uint n).

(** ** Dates *)

(** A [datetime.date]; the class holds years 1 to 9999 only. *)
Record date : Type := { year : nat; month : nat; day : nat }.

Definition valid_date (d : date) : Prop :=
  1 <= Z.of_nat (year d) <= 9999 /\
  1 <= Z.of_nat (month d) <= 12 /\
  1 <= Z.of_nat (day d) <= 31.

Definition digit (n : nat) : ascii := chr (48 + n mod 10).

Definition digits2 (n : nat) : string :=
  String (digit (n / 10)) (String (digit n) EmptyString).

Definition digits4 (n : nat) : string :=
  digits2 (n / 100) +:+ digits2 n.

(** [date.isoformat()]: YYYY-MM-DD *)
Definition isoformat (d : date) : string :=
  digits4 (year d) +:+ "-" +:+ digits2 (month d) +:+ "-" +:+ digits2 (day d).

Definition _date_to_str (input_date : date) : result string :=
  let iso := isoformat input_date in
  first_part <~ index (split "T" (strip iso)) 0;
  let date_part := split "-" first_part in
  p0 <~ index date_part 0;
  p1 <~ index date_part 1;
  p2 <~ index date_part 2;
  Ok (p0 +:+ p1 +:+ p2).

(** ** The state: the object, the cache on disk, the network log *)

(** What [request.urlopen] does: it answers with a status code and a body,
    or raises [HTTPError] or [URLError]. *)
Inductive net_response : Type :=
| NetOk (code : Z) (body : string)
| NetHTTPError
| NetURLError.

(** The fields of the [NYT] object, the shelve file, the urls handed to
    [urlopen] so far (oldest first) and the warnings emitted so far. *)
Record state : Type := {
  _api_key : string;
  _query_url : option string;
  query_key : option string;
  includes_fields : option (list string);
  query_cache : gmap string string;
  requests : list string;
  warnings : list string
}.

Inductive outcome (A : Type) : Type :=
| Done (a : A) (s : state)
| Fail (e : exn) (s : state).
Arguments Done {A} a s.
Arguments Fail {A} e s.

Definition M (A : Type) : Type := state -> outcome A.

Definition ret {A : Type} (a : A) : M A := fun s => Done a s.

Definition bind {A B : Type} (m : M A) (k : A -> M B) : M B :=
  fun s => match m s with
           | Done a s' => k a s'
           | Fail e s' => Fail e s'
           end.

Definition lift {A : Type} (r : result A) : M A :=
  fun s => match r with
           | Ok a => Done a s
           | Raise e => Fail e s
           end.

Declare Scope nyt_scope.
Delimit Scope nyt_scope with nyt.
Notation "x <- m ;; k" := (bind m (fun x => k))
  (at level 100, m at next level, right associativity) : nyt_scope.
Notation "m ;; k" := (bind m (fun _ => k))
  (at level 100, right associativity) : nyt_scope.
Local Open Scope nyt_scope.

Definition final_state {A : Type} (o : outcome A) : state :=
  match o with
  | Done _ s => s
  | Fail _ s => s
  end.

Definition add_warning (msg : string) (s : state) : state :=
  {| _api_key := _api_key s; _query_url := _query_url s; query_key := query_key s;
     includes_fields := includes_fields s; query_cache := query_cache s;
     requests := requests s; warnings := warnings s ++ [msg] |}.

Definition store_response (key response : string) (s : state) : state :=
  {| _api_key := _api_key s; _query_url := _query_url s; query_key := query_key s;
     includes_fields := includes_fields s;
     query_cache := <[key := response]> (query_cache s);
     requests := requests s; warnings := warnings s |}.

Definition log_request (url : string) (s : state) : state :=
  {| _api_key := _api_key s; _query_url := _query_url s; query_key := query_key s;
     includes_fields := includes_fields s; query_cache := query_cache s;
     requests := requests s ++ [url]; warnings := warnings s |}.

(** The assignments of [_set_endpoint_url] to the object. *)
Definition set_query (query_url key : string) (text_includes : list string) (s : state)
  : state :=
  {| _api_key := _api_key s;
     _query_url := Some query_url;
     query_key := Some key;
     includes_fields := match text_includes with
                        | [] => includes_fields s
                        | _ => Some text_includes
                        end;
     query_cache := query_cache s; requests := requests s; warnings := warnings s |}.

(** [warnings.warn(msg, ...)] *)
Definition warn (msg : string) : M unit := fun s => Done tt (add_warning msg s).

Definition when (b : bool) (m : M unit) : M unit := if b then m else ret tt.

(** [query_cache[key] = response] *)
Definition cache_store (key response : string) : M unit :=
  fun s => Done tt (store_response key response s).

(** [NYT(api_key)] over the cache file found on disk. *)
Definition __init__ (api_key : string) (cache : gmap string string) : state :=
  {| _api_key := strip api_key; _query_url := None; query_key := None;
     includes_fields := None; query_cache := cache; requests := []; warnings := [] |}.

Definition _base_url : string :=
  "http://api.nytimes.com/svc/search/v2/articlesearch.json".

(** [year and year.isdigit()] *)
Definition year_given (y : option string) : bool :=
  match y with
  | Some s => negb (String.eqb s "") && isdigit s
  | None => false
  end.

(** [math.ceil(max_records/10)].  Python divides as floats; the quotient of
    an int by ten is rounded correctly, so its ceiling is the exact one
    whenever the quotient is a finite float. *)
Definition ceil_tenth (max_records : Z) : Z := - ((- max_records) / 10).

Definition num_steps (max_records : Z) : Z := Z.min (ceil_tenth max_records) 100.

(** [range(0, n)] *)
Definition range (n : Z) : list nat := seq 0 (Z.to_nat n).

(** [l[:stop]] with Python's reading of a negative [stop]. *)
Definition slice_to {A : Type} (l : list A) (stop : Z) : list A :=
  let n := Z.of_nat (length l) in
  let stop' := if stop <? 0 then Z.max (stop + n) 0 else Z.min stop n in
  firstn (Z.to_nat stop') l.

(** Lines 168-169 of [run_query]. *)
Definition trim (records : list json) (max_records : Z) : list json :=
  if Z.of_nat (length records) >? max_records
  then slice_to records (max_records - Z.of_nat (length records))
  else records.

(** Line 162: [(data is None) or ('response' not in data) or
    ('docs' not in data['response'])]. *)
Definition failure (data : json) : result bool :=
  match data with
  | JNull => Ok true
  | _ =>
      has_response <~ py_in "response" data;
      if negb has_response then Ok true
      else
        response <~ py_getitem data "response";
        has_docs <~ py_in "docs" response;
        Ok (negb has_docs)
  end.

(** The items [records.extend(data["response"]["docs"])] appends. *)
Definition docs_of (data : json) : result (list json) :=
  response <~ py_getitem data "response";
  docs <~ py_getitem response "docs";
  py_iter docs.

Section NYT.

(** [urllib.parse.quote_plus] and [json.loads] ([None] when it raises
    [ValueError]) are the libraries'; the answer of the network to a
    request depends on the url and on how many requests came before. *)
Variable quote_plus : string -> string.
Variable json_loads : string -> option json.
Variable urlopen : nat -> string -> net_response.

Definition loads (response : string) : M json :=
  lift (match json_loads response with
        | Some data => Ok data
        | None => Raise ValueError
        end).

Definition request (url : string) : M net_response :=
  fun s => Done (urlopen (length (requests s)) url) (log_request url s).

(** [parse.urlencode([("q", query), ("fq", "The New York Times"),
    ("api-key", self._api_key)])] *)
Definition urlencode_query (api_key query : string) : string :=
  "q=" +:+ quote_plus query +:+ "&fq=" +:+ quote_plus "The New York Times"
  +:+ "&api-key=" +:+ quote_plus api_key.

Definition _encode_base_url (query : string) : M string :=
  fun s => Done (urlencode_query (_api_key s) query) s.

(** The url [check_api_key] opens. *)
Definition probe_url (api_key : string) : string :=
  _base_url +:+ "?" +:+ urlencode_query api_key "test" +:+ "&page=0".

(** Returns [True], [False] or, when the status is not 200, falls off the
    end with [None].  Only [HTTPError] is caught. *)
Definition check_api_key : M json :=
  query_url <- _encode_base_url "test";;
  response <- request (_base_url +:+ "?" +:+ query_url +:+ "&page=0");;
  match response with
  | NetOk code _ => ret (if code =? 200 then JBool true else JNull)
  | NetHTTPError => ret (JBool false)
  | NetURLError => lift (Raise URLError)
  end.

(** The locals of [_set_endpoint_url]: the endpoint it stores in
    [self._query_url] and the key it stores in [self.query_key]. *)
Definition endpoint_and_key (api_key : string) (today : date) (query : string)
    (year_from year_to : option string) (text_includes : list string)
  : result (string * string) :=
  let query_url := urlencode_query api_key query in
  sdate0 <~ _date_to_str {| year := 1851; month := 1; day := 1 |};
  edate0 <~ _date_to_str today;
  let query_key_sdate :=
    if year_given year_from then default "" year_from +:+ "0101" else sdate0 in
  let query_url :=
    if year_given year_from then query_url +:+ "&begin_date=" +:+ query_key_sdate
    else query_url in
  let query_key_edate :=
    if year_given year_to then default "" year_to +:+ "1231" else edate0 in
  let query_url :=
    if year_given year_to then query_url +:+ "&end_date=" +:+ query_key_edate
    else query_url in
  let query_key := [query_key_sdate; query_key_edate] in
  let query_url :=
    match text_includes with
    | [] => query_url
    | _ => query_url +:+ "&fl=" +:+ join "," text_includes
    end in
  let query_url := query_url +:+ ",pub_date" in
  let query_url := query_url +:+ ",section_name" in
  let query_url :=
    if existsb (String.eqb "keywords") text_includes then query_url
    else query_url +:+ ",keywords" in
  let query_key := query_key ++ split " " query ++ text_includes in
  Ok (_base_url +:+ "?" +:+ query_url, join "_" query_key).

Definition _set_endpoint_url (today : date) (query : string)
    (year_from year_to : option string) (text_includes : list string) : M unit :=
  fun s =>
    match endpoint_and_key (_api_key s) today query year_from year_to text_includes with
    | Ok (query_url, key) => Done tt (set_query query_url key text_includes s)
    | Raise e => Fail e s
    end.

Definition page_url (query_url : string) (page : nat) : string :=
  query_url +:+ "&page=" +:+ str page.

Definition page_key (key : string) (page : nat) : string :=
  key +:+ "_" +:+ str page.

Definition page_warning (page : nat) : string :=
  "Warning: could not retrieve page " +:+ str page +:+ " of specified query.".

(** [s + t] where [s] may be [None]. *)
Definition concat_to (s : option string) (t : string) : result string :=
  match s with
  | Some s => Ok (s +:+ t)
  | None => Raise TypeError
  end.

(** The triple [_execute_query] returns: the data, the cached flag and
    the transport error, if any. *)
Definition _execute_query (page : nat) : M (json * bool * option exn) :=
  url <- (fun s => Done (_query_url s) s);;
  when (match url with Some u => String.eqb u "" | None => true end)
       (warn "Could not find any specified queries.");;
  current_query <- lift (concat_to url ("&page=" +:+ str page));;
  key <- (fun s => Done (query_key s) s);;
  current_query_key <- lift (concat_to key ("_" +:+ str page));;
  cache <- (fun s => Done (query_cache s) s);;
  match cache !! current_query_key with
  | Some response =>
      response_data <- loads response;;
      ret (response_data, true, None)
  | None =>
      connection <- request current_query;;
      match connection with
      | NetOk _ response =>
          cache_store current_query_key response;;
          response_data <- loads response;;
          ret (response_data, false, None)
      | NetHTTPError => ret (JStr "", false, Some HTTPError)
      | NetURLError => ret (JStr "", false, Some URLError)
      end
  end.

(** What [_execute_query] does for [page] once the endpoint [u] and
    the key [k] are read off the object. *)
Definition page_outcome (u k : string) (page : nat) (s : state)
  : outcome (json * bool * option exn) :=
  match query_cache s !! page_key k page with
  | Some response =>
      match json_loads response with
      | Some data => Done (data, true, None) s
      | None => Fail ValueError s
      end
  | None =>
      match urlopen (length (requests s)) (page_url u page) with
      | NetOk _ response =>
          let s' := store_response (page_key k page) response
                                   (log_request (page_url u page) s) in
          match json_loads response with
          | Some data => Done (data, false, None) s'
          | None => Fail ValueError s'
          end
      | NetHTTPError =>
          Done (JStr "", false, Some HTTPError) (log_request (page_url u page) s)
      | NetURLError =>
          Done (JStr "", false, Some URLError) (log_request (page_url u page) s)
      end
  end.

(** Lines 160-166: the loop over the pages. *)
Fixpoint fetch_pages (pages : list nat) (records : list json) : M (list json) :=
  match pages with
  | [] => ret records
  | i :: pages' =>
      r <- _execute_query i;;
      let data := fst (fst r) in
      failed <- lift (failure data);;
      if (failed : bool) then
        warn (page_warning i);;
        fetch_pages pages' records
      else
        docs <- lift (docs_of data);;
        fetch_pages pages' (records ++ docs)
  end.

(** Lines 148-169: everything before the corpus is generated. *)
Definition collect_records (today : date) (query : string)
    (year_from year_to : option string) (max_records : Z) : M (list json) :=
  valid <- check_api_key;;
  when (negb (truthy valid))
       (warn "Cannot execute query. The specified API key is not valid.");;
  _set_endpoint_url today query year_from year_to NYT_TEXT_FIELDS;;
  when (max_records >? 1000)
       (warn "Cannot retrieve more than 1000 records for a particular query.");;
  records <- fetch_pages (range (num_steps max_records)) [];;
  ret (trim records max_records).

Definition run_query (today : date) (query : string)
    (year_from year_to : option string) (max_records : Z) : M Corpus :=
  records <- collect_records today query year_from year_to max_records;;
  lift (_generate_corpus records NYT_TEXT_FIELDS).

End NYT.

(** ** Shapes of well-formed values *)

Definition scalar (v : json) : bool :=
  match v with
  | JDict _ | JList _ => false
  | _ => true
  end.

(** A keyword object that carries the str [v] under "value". *)
Definition has_value (kw : json) (v : string) : Prop :=
  exists dk, kw = JDict dk /\ dict_get "value" dk = Some (JStr v).

(** A keyword object of category [fst e] and value [snd e]. *)
Definition has_keyword (kw : json) (e : string * string) : Prop :=
  exists dk, kw = JDict dk /\
             dict_get "name" dk = Some (JStr (fst e)) /\
             dict_get "value" dk = Some (JStr (snd e)).

Definition glocations_of (entries : list (string * string)) : list string :=
  map snd (filter (fun e => fst e = "glocations") entries).

(** ** Sample records *)

Definition keyword (name value : string) : json :=
  JDict [("rank", JNum 1); ("name", JStr name); ("value", JStr value)].

(** A record as the API sends it when the article has no abstract. *)
Definition record_without_abstract : json :=
  JDict [("headline", JDict [("main", JStr "Budget Talks"); ("kicker", JStr "")]);
         ("lead_paragraph", JStr "The talks resumed.");
         ("snippet", JStr "The talks resumed.");
         ("keywords", JList [keyword "glocations" "Ohio"; keyword "subject" "Budgets"]);
         ("pub_date", JStr "2015-06-01T00:00:00Z");
         ("section_name", JStr "U.S.")].

Definition record_with_zero : json :=
  JDict [("word_count", JNum 0); ("keywords", JList [])].

(** ** Predicates and closed forms used in the statements *)

(** A character that is no white space, no "T" and no "-". *)
Definition plain (c : ascii) : bool :=
  negb (is_space c) && negb (Ascii.eqb c "T") && negb (Ascii.eqb c "-").

(** The digits of a date, without the dashes. *)
Definition date_digits (d : date) : string :=
  digits4 (year d) +:+ digits2 (month d) +:+ digits2 (day d).

(** The object has a query set: an endpoint that is not empty and a key. *)
Definition ready (s : state) (u k : string) : Prop :=
  _query_url s = Some u /\ String.eqb u "" = false /\ query_key s = Some k.

Definition transport_error (r : net_response) : bool :=
  match r with
  | NetOk _ _ => false
  | NetHTTPError | NetURLError => true
  end.

(** The state after a page that failed in transport: the request is
    logged, the warning is added, the cache is as before. *)
Definition skip_page (u : string) (s : state) (i : nat) : state :=
  add_warning (page_warning i) (log_request (page_url u i) s).

(** The two date components of the key, and the key, in closed form. *)
Definition start_key (year_from : option string) : string :=
  if year_given year_from then default "" year_from +:+ "0101" else "18510101".

Definition end_key (today : date) (year_to : option string) : string :=
  if year_given year_to then default "" year_to +:+ "1231" else date_digits today.

Definition query_key_of (today : date) (query : string)
    (year_from year_to : option string) (text_includes : list string) : string :=
  join "_" ([start_key year_from; end_key today year_to]
            ++ split " " query ++ text_includes).

Definition key_warning : string :=
  "Cannot execute query. The specified API key is not valid.".

Definition limit_warning : string :=
  "Cannot retrieve more than 1000 records for a particular query.".

(** The exceptions of [urlopen]. *)
Definition transport (e : exn) : bool :=
  match e with
  | HTTPError | URLError => true
  | _ => false
  end.

(** A computation that raises no transport error. *)
Definition quiet {A : Type} (r : result A) : Prop :=
  match r with
  | Ok _ => True
  | Raise e => transport e = false
  end.

Definition calm {A : Type} (o : outcome A) : Prop :=
  match o with
  | Done _ _ => True
  | Fail e _ => transport e = false
  end.

(** [s'] is [s] up to the log of requests and the warnings. *)
Definition same_store (s s' : state) : Prop :=
  _api_key s' = _api_key s /\ _query_url s' = _query_url s /\
  query_key s' = query_key s /\ query_cache s' = query_cache s.

(** From [s] to [s'] the query stays as it is and the cache only gains
    entries, each of them under the key of one of the [pages]. *)
Definition grows (pages : list nat) (s s' : state) : Prop :=
  _api_key s' = _api_key s /\ _query_url s' = _query_url s /\
  query_key s' = query_key s /\
  query_cache s ⊆ query_cache s' /\
  (forall key, query_cache s !! key = None -> is_Some (query_cache s' !! key) ->
     exists k i, query_key s = Some k /\ In i pages /\ key = page_key k i).

(** ** Sample worlds *)

(** [quote_plus] on text made of letters, digits and spaces. *)
Definition sample_quote_plus (s : string) : string :=
  string_of_list_ascii
    (map (fun c => if Ascii.eqb c " " then "+"%char else c) (list_ascii_of_string s)).

Definition article (headline place : string) : json :=
  JDict [("headline", JDict [("main", JStr headline); ("kicker", JNull)]);
         ("lead_paragraph", JStr "The talks resumed.");
         ("snippet", JStr "The talks resumed.");
         ("abstract", JNull);
         ("keywords", JList [keyword "glocations" place; keyword "subject" "Budgets"]);
         ("pub_date", JStr "2015-06-01T00:00:00Z");
         ("section_name", JStr "U.S.")].

Definition record_without_keywords : json :=
  JDict [("headline", JDict [("main", JStr "Budget Talks")]);
         ("lead_paragraph", JStr "The talks resumed.");
         ("snippet", JStr "The talks resumed.");
         ("abstract", JNull);
         ("pub_date", JStr "2015-06-01T00:00:00Z");
         ("section_name", JStr "U.S.")].

Definition page_of (docs : list json) : json :=
  JDict [("status", JStr "OK"); ("response", JDict [("docs", JList docs)])].

(** [json.loads] on the bodies the sample networks send.  A body is named
    by what it holds instead of being spelled out. *)
Definition sample_loads (body : string) : option json :=
  if String.eqb body "two articles"
  then Some (page_of [article "Budget Talks" "Ohio"; article "Floods" "Iowa"])
  else if String.eqb body "an article without keywords"
  then Some (page_of [record_without_keywords])
  else None.

(** The API answers every request with a page of two articles. *)
Definition sample_net (n : nat) (url : string) : net_response :=
  NetOk 200 "two articles".

(** The API answers every request with a page whose article has no
    "keywords". *)
Definition no_keywords_net (n : nat) (url : string) : net_response :=
  NetOk 200 "an article without keywords".

(** The probe of the key is answered, every request for a page fails. *)
Definition pages_down_net (n : nat) (url : string) : net_response :=
  if String.prefix "http://api.nytimes.com/svc/search/v2/articlesearch.json?q=test&" url
  then NetOk 200 "" else NetURLError.

Definition sample_day : date := {| year := 2015; month := 6; day := 1 |}.
Definition next_day : date := {| year := 2015; month := 6; day := 2 |}.

Definition fresh : state := __init__ "key" ∅.

(** The object once the query "obama" of the sample day is set. *)
Definition prepared : state :=
  final_state (_set_endpoint_url sample_quote_plus sample_day "obama" None None
                                 NYT_TEXT_FIELDS fresh).

Definition sample_endpoint : string := default "" (_query_url prepared).
Definition sample_key : string := default "" (query_key prepared).

(** The table of the two sample articles. *)
Definition sample_corpus : Corpus :=
  {| metas :=
       [[JStr "Budget Talks"; JStr "The talks resumed."; JStr "The talks resumed.";
         None_; JStr "Ohio Budgets"; JStr "2015-06-01T00:00:00Z"; JStr "Ohio"];
        [JStr "Floods"; JStr "The talks resumed."; JStr "The talks resumed.";
         None_; JStr "Iowa Budgets"; JStr "2015-06-01T00:00:00Z"; JStr "Iowa"]];
     class_values := [JStr "U.S."; JStr "U.S."] |}.

(** A first run of ten records against the sample network, and a first
    and a second run while the pages cannot be reached. *)
Definition first_run : outcome Corpus :=
  run_query sample_quote_plus sample_loads sample_net sample_day "obama" None None 10 fresh.

Definition first_run_down : outcome Corpus :=
  run_query sample_quote_plus sample_loads pages_down_net sample_day "obama" None None 10
            fresh.

Definition second_run_down : outcome Corpus :=
  run_query sample_quote_plus sample_loads pages_down_net sample_day "obama" None None 10
            (final_state first_run_down).

(** ** Further shapes and sample worlds *)

(** The query with every space turned into an underscore: what the words
    of the query look like once they are joined into the key. *)
Fixpoint underscore (s : string) : string :=
  match s with
  | EmptyString => EmptyString
  | String c s' => String (if Ascii.eqb c " " then "_"%char else c) (underscore s')
  end.

(** A row of the table: as many entries as the table has columns, none of
    them the empty string. *)
Definition table_row (ncols : nat) (row : list json) : Prop :=
  length row = ncols /\ List.Forall (fun v => v <> JStr "") row.

(** A gateway answers every request with a page that is not JSON. *)
Definition html_net (n : nat) (url : string) : net_response :=
  NetOk 200 "<html>Service Unavailable</html>".

(** No network at all. *)
Definition unreachable_net (n : nat) (url : string) : net_response :=
  NetURLError.

(** The key is refused with an HTTPError, the pages are served. *)
Definition denied_net (n : nat) (url : string) : net_response :=
  if String.prefix "http://api.nytimes.com/svc/search/v2/articlesearch.json?q=test&" url
  then NetHTTPError else NetOk 200 "two articles".

(** [json.loads] on the bodies above and on a message of the API that
    carries no "response". *)
Definition fault_loads (body : string) : option json :=
  if String.eqb body "a fault message"
  then Some (JDict [("message", JStr "API rate limit exceeded")])
  else sample_loads body.

Definition fault_net (n : nat) (url : string) : net_response :=
  NetOk 200 "a fault message".

(** The object over a cache that holds page 0 of the query "new york" of
    the sample day. *)
Definition york_state : state :=
  __init__ "key"
    {[ page_key (query_key_of sample_day "new york" None None NYT_TEXT_FIELDS) 0
       := "two articles" ]}.

(** A value the flattener can turn into text: a scalar, a dict whose
    truthy values are strings, or a list of keyword objects. *)
Definition flat_text (v : json) : Prop :=
  scalar v = true \/
  (exists dv, v = JDict dv /\
     List.Forall (fun val => truthy val = true -> exists t, val = JStr t) (map snd dv)) \/
  (exists l vs, v = JList l /\ Forall2 has_value l vs).

(** A record that has every configured field as such a value, and a list
    of keyword objects under "keywords". *)
Definition well_formed (fields : list string) (doc : json) : Prop :=
  exists d kws entries,
    doc = JDict d /\
    (forall f, In f fields -> exists v, dict_get f d = Some v /\ flat_text v) /\
    dict_get "keywords" d = Some (JList kws) /\
    Forall2 has_keyword kws entries.

(** A page the run can digest: null, or an object without "response", or
    one whose "response" is an object without "docs" or with a list of
    well-formed records under "docs". *)
Definition good_page (data : json) : Prop :=
  data = JNull \/
  exists d, data = JDict d /\
    (dict_get "response" d = None \/
     exists r, dict_get "response" d = Some (JDict r) /\
       (dict_get "docs" r = None \/
        exists docs, dict_get "docs" r = Some (JList docs) /\
                     List.Forall (well_formed NYT_TEXT_FIELDS) docs)).

(** A body that parses to a good page. *)
Definition good_body (json_loads : string -> option json) (body : string) : Prop :=
  exists data, json_loads body = Some data /\ good_page data.

(** What a page adds to the records, read off the cache a pass leaves
    behind: the docs of the body stored for the page, and nothing for a
    page without a body (its fetch failed in transport) or with a body
    that fails the check of line 162. *)
Definition page_docs (json_loads : string -> option json) (cache : gmap string string)
    (key : string) (page : nat) : list json :=
  match cache !! page_key key page with
  | Some body =>
      match json_loads body with
      | Some data =>
          match failure data with
          | Ok false => match docs_of data with Ok docs => docs | Raise _ => [] end
          | _ => []
          end
      | None => []
      end
  | None => []
  end.

(** ** The query builder in closed form, and as it can be called *)

(** What lines 198-208 add to the endpoint behind the dates: the field
    list, the two fields that are always asked for, and "keywords" unless
    the list has it. *)
Definition fields_suffix (text_includes : list string) : string :=
  match text_includes with
  | [] => ""
  | _ => "&fl=" +:+ join "," text_includes
  end
  +:+ ",pub_date" +:+ ",section_name"
  +:+ (if existsb (String.eqb "keywords") text_includes then "" else ",keywords").

(** What a caller can hand over as a year.  The parameter defaults to
    [None], the docstring of [run_query] types it as an int, and the code
    calls [isdigit] on it, which only a str has. *)
Inductive year_arg : Type :=
| YNone
| YStr (s : string)
| YInt (z : Z).

(** [year and year.isdigit()] on such an argument: a falsy value ends the
    [and] before the method is looked up, an int other than 0 has no
    [isdigit]. *)
Definition year_of (y : year_arg) : result (option string) :=
  match y with
  | YNone => Ok None
  | YStr s => Ok (Some s)
  | YInt z => if z =? 0 then Ok None else Raise AttributeError
  end.

(** [_set_endpoint_url] over the arguments its signature and the
    docstrings name: years of either type, and the default
    [text_includes=None], on which ["keywords" not in text_includes]
    (line 207) raises [TypeError].  The years are read at lines 187 and
    190, before anything is assigned to the object; line 207 comes behind
    the assignment of line 199, which is skipped for [None]. *)
Definition _set_endpoint_url_call (quote_plus : string -> string) (today : date)
    (query : string) (year_from year_to : year_arg) (text_includes : option (list string))
  : M unit :=
  yf <- lift (year_of year_from);;
  yt <- lift (year_of year_to);;
  match text_includes with
  | Some fields => _set_endpoint_url quote_plus today query yf yt fields
  | None => lift (Raise TypeError)
  end.

(** ** Entries that numpy keeps *)

(** [np.array(metas_row)] makes fixed-width strings of a row without
    [None], which turns a number into its text and drops NUL characters at
    the end of a str.  An entry that is [None] or a str without a NUL at
    its end comes back from the table as it went in. *)
Fixpoint ends_in_nul (s : string) : bool :=
  match s with
  | EmptyString => false
  | String c EmptyString => Ascii.eqb c zero
  | String _ s' => ends_in_nul s'
  end.

Definition kept_entry (v : json) : Prop :=
  v = None_ \/ exists s, v = JStr s /\ ends_in_nul s = false.

(** A record with keywords of two categories, in a page of its own. *)
Definition two_places : json :=
  JDict [("headline", JDict [("main", JStr "Floods")]);
         ("lead_paragraph", JStr "The river rose.");
         ("snippet", JStr "The river rose.");
         ("abstract", JStr "Floods in two states.");
         ("keywords", JList [keyword "glocations" "Iowa"; keyword "subject" "Floods";
                             keyword "glocations" "Ohio"; keyword "persons" "Smith"]);
         ("pub_date", JStr "2015-06-01T00:00:00Z");
         ("section_name", JStr "U.S.")].

(** ** Properties of the error monad and of the Python primitives *)

Lemma rmap_as_str_strs (vs : list string) : rmap as_str (map JStr vs) = Ok vs.
Proof.
  induction vs as [|v vs IH]; simpl; [reflexivity|].
  rewrite IH. reflexivity.
Qed.

Lemma py_join_strs (sep : string) (vs : list string) :
  py_join sep (map JStr vs) = Ok (JStr (join sep vs)).
Proof. unfold py_join. rewrite rmap_as_str_strs. reflexivity. Qed.

Lemma truthy_JStr (s : string) : truthy (JStr s) = true <-> s <> "".
Proof.
  simpl. destruct (String.eqb_spec s ""); simpl; split; congruence.
Qed.

Lemma filter_truthy_strs (vs : list string) :
  filter (fun val => truthy val = true) (map JStr vs)
  = map JStr (filter (fun s => s <> "") vs).
Proof.
  induction vs as [|v vs IH]; [reflexivity|].
  cbn [map]. rewrite !filter_cons, IH.
  destruct (decide (truthy (JStr v) = true)) as [Ht|Ht];
    destruct (decide (v <> "")) as [Hv|Hv]; try reflexivity.
  - apply truthy_JStr in Ht. contradiction.
  - exfalso. apply Ht. apply truthy_JStr. exact Hv.
Qed.

Lemma has_value_truthy (kw : json) (v : string) : has_value kw v -> truthy kw = true.
Proof.
  intros (dk & -> & Hv). destruct dk; [discriminate|reflexivity].
Qed.

Lemma keyword_values (l : list json) (vs : list string) :
  Forall2 has_value l vs ->
  rmap (fun kw => py_getitem kw "value") (filter (fun kw => truthy kw = true) l)
  = Ok (map JStr vs).
Proof.
  induction 1 as [|kw v l vs Hkw _ IH]; [reflexivity|].
  rewrite filter_cons.
  destruct (decide (truthy kw = true)) as [_|Hn].
  - destruct Hkw as (dk & -> & Hv). cbn [rmap py_getitem rbind].
    rewrite Hv. cbn [rbind]. rewrite IH. reflexivity.
  - exfalso. apply Hn. eapply has_value_truthy. exact Hkw.
Qed.

Lemma glocation_values_keywords (kws : list json) (entries : list (string * string)) :
  Forall2 has_keyword kws entries ->
  glocation_values kws = Ok (map JStr (glocations_of entries)).
Proof.
  unfold glocations_of.
  induction 1 as [|kw e kws entries Hkw _ IH]; [reflexivity|].
  destruct Hkw as (dk & -> & Hn & Hv).
  cbn [glocation_values py_getitem rbind]. rewrite Hn. cbn [rbind py_eq_str].
  rewrite filter_cons.
  destruct (String.eqb_spec (fst e) "glocations") as [He|He];
    destruct (decide (fst e = "glocations")) as [Hd|Hd]; try contradiction.
  - rewrite Hv. cbn [rbind]. rewrite IH. reflexivity.
  - exact IH.
Qed.

(** The text columns of a record: one entry for each configured field the
    record has, none for the others. *)
Lemma text_fields_length (d : list (string * json)) (fields : list string) (row : list json) :
  text_fields (JDict d) fields = Ok row ->
  length row = length (filter (fun f => is_Some (dict_get f d)) fields).
Proof.
  revert row. induction fields as [|f fields IH]; intros row H.
  - injection H as <-. reflexivity.
  - cbn [text_fields py_in rbind] in H. rewrite filter_cons.
    destruct (dict_get f d) as [v|] eqn:Hf.
    + cbn [py_getitem rbind] in H. rewrite Hf in H. cbn [rbind] in H.
      destruct (field_value v) as [fv|]; [|discriminate]. cbn [rbind] in H.
      destruct (text_fields (JDict d) fields) as [rest|]; [|discriminate].
      injection H as <-.
      destruct (decide (is_Some (Some v))) as [_|Hn]; [|exfalso; apply Hn; eauto].
      cbn [length]. f_equal. apply IH. reflexivity.
    + destruct (decide (is_Some (@None json))) as [Hs|_]; [destruct Hs; discriminate|].
      apply IH. exact H.
Qed.

Lemma filter_length_absent (d : list (string * json)) (fields : list string) (f : string) :
  In f fields -> dict_get f d = None ->
  (length (filter (fun f => is_Some (dict_get f d)) fields) < length fields)%nat.
Proof.
  induction fields as [|g fields IH]; intros Hin Hf; [destruct Hin|].
  rewrite filter_cons. cbn [length].
  pose proof (length_filter (fun f => is_Some (dict_get f d)) fields) as Hle.
  destruct Hin as [->|Hin].
  - destruct (decide (is_Some (dict_get f d))) as [Hs|_].
    + rewrite Hf in Hs. destruct Hs; discriminate.
    + lia.
  - specialize (IH Hin Hf).
    destruct (decide (is_Some (dict_get g d))); cbn [length]; lia.
Qed.

(** A record that lacks a configured field never makes it into the table:
    its row is too short for [np.vstack]. *)
Lemma absent_field_raises (d : list (string * json)) (records : list json)
    (fields : list string) (f : string) :
  In f fields -> dict_get f d = None ->
  raises (_parse_record_json (JDict d :: records) fields).
Proof.
  intros Hin Hf. unfold _parse_record_json. cbn [parse_loop].
  destruct (parse_doc (JDict d) fields) as [[row label]|e] eqn:Hp;
    [|exists e; reflexivity].
  cbn [rbind fst snd]. unfold vstack.
  destruct (Nat.eqb_spec (length row) (length fields + 2)) as [Hlen|_];
    [|exists ValueError; reflexivity].
  exfalso. unfold parse_doc in Hp.
  destruct (text_fields (JDict d) fields) as [texts|] eqn:Ht; [|discriminate].
  cbn [rbind] in Hp.
  destruct (py_get (JDict d) "pub_date" (JStr "")); [|discriminate]. cbn [rbind] in Hp.
  destruct (glocation (JDict d)); [|discriminate]. cbn [rbind] in Hp.
  destruct (py_get (JDict d) "section_name" None_); [|discriminate]. cbn [rbind] in Hp.
  injection Hp as <- _.
  rewrite length_map, length_app in Hlen. cbn [length] in Hlen.
  apply text_fields_length in Ht.
  pose proof (filter_length_absent d fields f Hin Hf). lia.
Qed.

(** ** The record flattener *)

(** C2. The row of a record that lacks a configured field ("abstract" here)
    gets no entry for that field: four text entries instead of five, and
    [np.vstack] refuses the short row, so [_parse_record_json] raises
    [ValueError] where the table was declared with one column for each
    configured field and two derived ones. *)
Theorem absent_field_shortens_row :
  dict_get "abstract"
    (match record_without_abstract with JDict d => d | _ => [] end) = None /\
  text_fields record_without_abstract NYT_TEXT_FIELDS
  = Ok [JStr "Budget Talks"; JStr "The talks resumed."; JStr "The talks resumed.";
        JStr "Ohio Budgets"] /\
  _parse_record_json [record_without_abstract] NYT_TEXT_FIELDS = Raise ValueError.
Proof. repeat split; vm_compute; reflexivity. Qed.

(** An empty string in a row is replaced by the absent-value marker, and
    nothing else is. *)
Lemma empty_to_None_spec (v : json) :
  (v = JStr "" -> empty_to_None v = None_) /\
  (v <> JStr "" -> empty_to_None v = v).
Proof.
  split.
  - intros ->. reflexivity.
  - intros Hv. unfold empty_to_None.
    destruct v as [| | |s| |]; try reflexivity.
    cbn [py_eq_str]. destruct (String.eqb_spec s ""); [subst; contradiction|reflexivity].
Qed.

(** C8, as the code has it.  For a record that has the field: a dict value
    whose values are strings flattens to its non-empty values joined by
    spaces; a list of keyword objects flattens to their "value" entries
    joined by spaces; a scalar passes through unchanged when it is truthy,
    and becomes the absent-value marker when it is falsy. *)
Theorem field_flattening (d : list (string * json)) (field : string) (v : json)
    (Hfield : dict_get field d = Some v) :
  (forall dv vs, v = JDict dv -> map snd dv = map JStr vs ->
     text_fields (JDict d) [field]
     = Ok [JStr (join " " (filter (fun s => s <> "") vs))]) /\
  (forall l vs, v = JList l -> Forall2 has_value l vs ->
     text_fields (JDict d) [field] = Ok [JStr (join " " vs)]) /\
  (scalar v = true -> truthy v = true ->
     text_fields (JDict d) [field] = Ok [v] /\ empty_to_None v = v) /\
  (scalar v = true -> truthy v = false ->
     text_fields (JDict d) [field] = Ok [JStr ""] /\ empty_to_None (JStr "") = None_).
Proof.
  assert (Hrow : forall fv, field_value v = Ok fv ->
                            text_fields (JDict d) [field] = Ok [fv]).
  { intros fv Hfv. cbn [text_fields py_in py_getitem rbind].
    rewrite Hfield. cbn [rbind].
    rewrite Hfv. reflexivity. }
  repeat split.
  - intros dv vs -> Hvs. apply Hrow. cbn [field_value].
    rewrite Hvs, filter_truthy_strs. apply py_join_strs.
  - intros l vs -> Hl. apply Hrow. cbn [field_value].
    rewrite (keyword_values l vs Hl). cbn [rbind]. apply py_join_strs.
  - apply Hrow. destruct v; try discriminate; cbn [field_value]; rewrite ?H0; cbn in *;
      rewrite ?H0; reflexivity.
  - apply empty_to_None_spec. intros ->. discriminate.
  - apply Hrow. destruct v; try discriminate; cbn [field_value]; cbn in *;
      rewrite ?H0; reflexivity.
Qed.

Lemma field_flattening_witness :
  text_fields (JDict [("headline", JDict [("a", JStr "x"); ("b", JStr "y")])]) ["headline"]
  = Ok [JStr "x y"] /\
  text_fields (JDict [("keywords", JList [JDict [("value", JStr "p")];
                                          JDict [("value", JStr "q")]])]) ["keywords"]
  = Ok [JStr "p q"] /\
  text_fields (JDict [("snippet", JStr "text")]) ["snippet"] = Ok [JStr "text"].
Proof.
  split; [|split].
  - refine (proj1 (field_flattening
                     [("headline", JDict [("a", JStr "x"); ("b", JStr "y")])]
                     "headline" _ eq_refl) _ ["x"; "y"] eq_refl eq_refl).
  - refine (proj1 (proj2 (field_flattening
                     [("keywords", JList [JDict [("value", JStr "p")];
                                          JDict [("value", JStr "q")]])]
                     "keywords" _ eq_refl)) _ ["p"; "q"] eq_refl _).
    repeat constructor; eexists; (split; [reflexivity|reflexivity]).
  - refine (proj1 (proj1 (proj2 (proj2 (field_flattening
                     [("snippet", JStr "text")] "snippet" _ eq_refl)))
                     eq_refl eq_refl)).
Defined.

(** The claim as the spec words it fails on a falsy scalar: the number 0
    under "word_count" does not pass through, the row holds [None]. *)
Lemma scalar_zero_not_passed_through :
  py_getitem record_with_zero "word_count" = Ok (JNum 0) /\
  scalar (JNum 0) = true /\
  _parse_record_json [record_with_zero] ["word_count"]
  = Ok ([[None_; None_; None_]], [None_]) /\
  None_ <> JNum 0.
Proof. repeat split; try reflexivity. discriminate. Qed.

(** ** Strings and dates *)

Lemma append_assoc (a b c : string) : (a +:+ b) +:+ c = a +:+ (b +:+ c).
Proof. induction a as [|x a IH]; cbn [String.append]; [reflexivity|]. f_equal. exact IH. Qed.

Lemma append_length (a b : string) :
  String.length (a +:+ b) = (String.length a + String.length b)%nat.
Proof.
  induction a as [|x a IH]; cbn [String.append String.length]; [reflexivity|].
  rewrite IH. reflexivity.
Qed.

Lemma append_cancel_l (a b c : string) : a +:+ b = a +:+ c -> b = c.
Proof.
  induction a as [|x a IH]; cbn [String.append]; intros H; [exact H|].
  injection H. exact IH.
Qed.

Lemma append_same_length (a b c d : string) :
  String.length a = String.length b -> a +:+ c = b +:+ d -> a = b /\ c = d.
Proof.
  revert b. induction a as [|x a IH]; intros [|y b] Hlen H; try discriminate.
  - split; [reflexivity|exact H].
  - simpl in *. injection Hlen as Hlen. injection H as -> H.
    destruct (IH b Hlen H) as [-> ->]. split; reflexivity.
Qed.

Lemma append_cancel_r (a b c : string) :
  String.length a = String.length b -> a +:+ c = b +:+ c -> a = b.
Proof. intros Hlen H. apply (append_same_length a b c c Hlen H). Qed.

Lemma join_two_more (sep a b : string) (rest : list string) :
  join sep (a :: b :: rest)
  = a +:+ sep +:+ b +:+ match rest with [] => "" | _ => sep +:+ join sep rest end.
Proof.
  destruct rest as [|c rest]; cbn [join].
  - f_equal. f_equal. induction b as [|x b IH]; simpl; [reflexivity|]. rewrite <- IH. reflexivity.
  - reflexivity.
Qed.


Lemma digit_plain (n : nat) : plain (digit n) = true.
Proof.
  unfold digit, chr.
  assert (Hlt : (n mod 10 < 10)%nat) by (apply Nat.mod_upper_bound; discriminate).
  remember (n mod 10)%nat as k eqn:Hk. clear Hk.
  do 10 (destruct k as [|k]; [reflexivity|]). lia.
Qed.

Lemma plain_spec (c : ascii) :
  plain c = true -> is_space c = false /\ Ascii.eqb c "T" = false /\ Ascii.eqb c "-" = false.
Proof.
  unfold plain. intros H. apply andb_prop in H as [H H3]. apply andb_prop in H as [H1 H2].
  repeat split; apply negb_true_iff; assumption.
Qed.

Lemma digit_of_nat (n : nat) : nat_of_ascii (digit n) = (48 + n mod 10)%nat.
Proof.
  unfold digit, chr. apply nat_ascii_embedding.
  assert ((n mod 10 < 10)%nat) by (apply Nat.mod_upper_bound; discriminate). lia.
Qed.

Lemma digit_inj (a b : nat) : digit a = digit b -> (a mod 10 = b mod 10)%nat.
Proof.
  intros H. apply (f_equal nat_of_ascii) in H. rewrite !digit_of_nat in H. lia.
Qed.

Lemma rstrip_no_space (s : string) :
  all_chars (fun c => negb (is_space c)) s = true -> rstrip s = s.
Proof.
  induction s as [|c s IH]; [reflexivity|].
  cbn [all_chars rstrip]. intros H. apply andb_prop in H as [Hc Hs].
  rewrite (IH Hs). apply negb_true_iff in Hc. rewrite Hc.
  destruct s; reflexivity.
Qed.

Lemma split_no_sep (sep : ascii) (s : string) :
  all_chars (fun c => negb (Ascii.eqb c sep)) s = true -> split sep s = [s].
Proof.
  induction s as [|c s IH]; [reflexivity|].
  cbn [all_chars split]. intros H. apply andb_prop in H as [Hc Hs].
  apply negb_true_iff in Hc. rewrite Hc, (IH Hs). reflexivity.
Qed.


Lemma _date_to_str_digits (d : date) : _date_to_str d = Ok (date_digits d).
Proof.
  unfold _date_to_str, date_digits, isoformat, digits4, digits2.
  set (a1 := digit (year d / 100 / 10)). set (a2 := digit (year d / 100)).
  set (a3 := digit (year d / 10)). set (a4 := digit (year d)).
  set (b1 := digit (month d / 10)). set (b2 := digit (month d)).
  set (c1 := digit (day d / 10)). set (c2 := digit (day d)).
  destruct (plain_spec a1 (digit_plain _)) as (Sa1 & Ta1 & Da1).
  destruct (plain_spec a2 (digit_plain _)) as (Sa2 & Ta2 & Da2).
  destruct (plain_spec a3 (digit_plain _)) as (Sa3 & Ta3 & Da3).
  destruct (plain_spec a4 (digit_plain _)) as (Sa4 & Ta4 & Da4).
  destruct (plain_spec b1 (digit_plain _)) as (Sb1 & Tb1 & Db1).
  destruct (plain_spec b2 (digit_plain _)) as (Sb2 & Tb2 & Db2).
  destruct (plain_spec c1 (digit_plain _)) as (Sc1 & Tc1 & Dc1).
  destruct (plain_spec c2 (digit_plain _)) as (Sc2 & Tc2 & Dc2).
  cbn [String.append]. unfold strip. cbn [lstrip]. rewrite Sa1.
  rewrite rstrip_no_space
    by (cbn [all_chars]; rewrite Sa1, Sa2, Sa3, Sa4, Sb1, Sb2, Sc1, Sc2; reflexivity).
  rewrite split_no_sep
    by (cbn [all_chars]; rewrite Ta1, Ta2, Ta3, Ta4, Tb1, Tb2, Tc1, Tc2; reflexivity).
  cbn [index nth_error rbind split].
  rewrite Da1, Da2, Da3, Da4, Db1, Db2, Dc1, Dc2.
  reflexivity.
Qed.

Lemma date_digits_length (d : date) : String.length (date_digits d) = 8%nat.
Proof. reflexivity. Qed.

Lemma four_digits (y : nat) :
  Z.of_nat y <= 9999 ->
  y = (1000 * ((y / 100 / 10) mod 10) + 100 * ((y / 100) mod 10)
       + 10 * ((y / 10) mod 10) + y mod 10)%nat.
Proof. intros Hy. zify. Z.div_mod_to_equations. lia. Qed.

Lemma two_digits (m : nat) :
  Z.of_nat m <= 99 -> m = (10 * ((m / 10) mod 10) + m mod 10)%nat.
Proof. intros Hm. zify. Z.div_mod_to_equations. lia. Qed.

Lemma string_cons_inj (a b : ascii) (s t : string) :
  String a s = String b t -> a = b /\ s = t.
Proof. intros H. injection H as -> ->. split; reflexivity. Qed.

(** Different days have different digits. *)
Lemma date_digits_inj (d1 d2 : date) :
  valid_date d1 -> valid_date d2 -> date_digits d1 = date_digits d2 -> d1 = d2.
Proof.
  destruct d1 as [y1 m1 a1], d2 as [y2 m2 a2].
  intros (Hy1 & Hm1 & Hd1) (Hy2 & Hm2 & Hd2) H.
  cbv [year month day] in Hy1, Hm1, Hd1, Hy2, Hm2, Hd2.
  cbv [date_digits digits4 digits2 year month day String.append] in H.
  apply string_cons_inj in H as [E1 H]. apply string_cons_inj in H as [E2 H].
  apply string_cons_inj in H as [E3 H]. apply string_cons_inj in H as [E4 H].
  apply string_cons_inj in H as [E5 H]. apply string_cons_inj in H as [E6 H].
  apply string_cons_inj in H as [E7 H]. apply string_cons_inj in H as [E8 _].
  apply digit_inj in E1, E2, E3, E4, E5, E6, E7, E8.
  pose proof (four_digits y1 ltac:(lia)) as Fy1.
  pose proof (four_digits y2 ltac:(lia)) as Fy2.
  pose proof (two_digits m1 ltac:(lia)) as Fm1.
  pose proof (two_digits m2 ltac:(lia)) as Fm2.
  pose proof (two_digits a1 ltac:(lia)) as Fa1.
  pose proof (two_digits a2 ltac:(lia)) as Fa2.
  assert (y1 = y2) by (rewrite Fy1, Fy2, E1, E2, E3, E4; reflexivity).
  assert (m1 = m2) by (rewrite Fm1, Fm2, E5, E6; reflexivity).
  assert (a1 = a2) by (rewrite Fa1, Fa2, E7, E8; reflexivity).
  congruence.
Qed.

Lemma to_uint_nonnil (n : nat) : Nat.to_uint n <> Decimal.Nil.
Proof.
  intros H. pose proof (Unsigned.to_of (Nat.to_uint n)) as E.
  rewrite Unsigned.of_to, H in E. discriminate E.
Qed.

Lemma str_inj (i j : nat) : str i = str j -> i = j.
Proof.
  unfold str. intros H.
  apply (f_equal NilZero.uint_of_string) in H.
  rewrite !NilZero.usu in H by apply to_uint_nonnil.
  injection H as H. apply Unsigned.to_uint_inj in H. exact H.
Qed.

(** ** The fetch loop *)


Section Fetch.

Variable json_loads : string -> option json.
Variable urlopen : nat -> string -> net_response.

(** [_execute_query] once a query is set, case by case. *)
Lemma _execute_query_set (s : state) (u k : string) (i : nat) :
  _query_url s = Some u -> query_key s = Some k ->
  _execute_query json_loads urlopen i s
  = page_outcome json_loads urlopen u k i
      (if String.eqb u "" then add_warning "Could not find any specified queries." s
       else s).
Proof.
  intros Hu Hk.
  set (s0 := if String.eqb u ""
             then add_warning "Could not find any specified queries." s else s).
  assert (Hk0 : query_key s0 = Some k) by (unfold s0; destruct (String.eqb u ""); exact Hk).
  assert (Hstart : when (String.eqb u "") (warn "Could not find any specified queries.") s
                   = Done tt s0).
  { unfold s0. destruct (String.eqb u ""); reflexivity. }
  unfold _execute_query. unfold bind at 1. rewrite Hu. unfold bind at 1.
  rewrite Hstart. clearbody s0. clear Hstart.
  unfold page_outcome, bind, lift, concat_to, loads, request, cache_store, ret.
  rewrite Hk0. fold (page_url u i). fold (page_key k i).
  destruct (query_cache s0 !! page_key k i) as [response|].
  - destruct (json_loads response); reflexivity.
  - destruct (urlopen (length (requests s0)) (page_url u i)) as [code response| |];
      try reflexivity.
    cbn zeta. destruct (json_loads response); reflexivity.
Qed.

Lemma _execute_query_ready (s : state) (u k : string) (i : nat) :
  ready s u k ->
  _execute_query json_loads urlopen i s = page_outcome json_loads urlopen u k i s.
Proof.
  intros (Hu & Hne & Hk). rewrite (_execute_query_set s u k i Hu Hk), Hne.
  reflexivity.
Qed.

Lemma ready_skip_page (s : state) (u k : string) (i : nat) :
  ready s u k -> ready (skip_page u s i) u k.
Proof. intros H. exact H. Qed.

(** A page that fails in transport: the error is caught, the warning is
    emitted, the records are as before and the loop goes on. *)
Lemma fetch_pages_transport_error (s : state) (u k : string) (i : nat)
    (pages : list nat) (records : list json) :
  ready s u k ->
  query_cache s !! page_key k i = None ->
  transport_error (urlopen (length (requests s)) (page_url u i)) = true ->
  fetch_pages json_loads urlopen (i :: pages) records s
  = fetch_pages json_loads urlopen pages records (skip_page u s i).
Proof.
  intros Hready Hmiss Herr. cbn [fetch_pages]. unfold bind at 1.
  rewrite (_execute_query_ready s u k i Hready). unfold page_outcome. rewrite Hmiss.
  destruct (urlopen (length (requests s)) (page_url u i)); try discriminate; reflexivity.
Qed.

(** When every page fails, the loop ends with the records it started
    with and one warning for each page. *)
Lemma fetch_pages_all_fail (u k : string) (pages : list nat) :
  forall (s : state) (records : list json),
  ready s u k ->
  (forall i, In i pages -> query_cache s !! page_key k i = None) ->
  (forall n i, In i pages -> transport_error (urlopen n (page_url u i)) = true) ->
  fetch_pages json_loads urlopen pages records s
  = Done records (fold_left (skip_page u) pages s).
Proof.
  induction pages as [|i pages IH]; intros s records Hready Hmiss Herr; [reflexivity|].
  rewrite (fetch_pages_transport_error s u k i pages records Hready).
  - cbn [fold_left]. apply IH.
    + apply (ready_skip_page s u k i Hready).
    + intros j Hj. apply (Hmiss j). right. exact Hj.
    + intros n j Hj. apply Herr. right. exact Hj.
  - apply Hmiss. left. reflexivity.
  - apply Herr. left. reflexivity.
Qed.

Lemma fold_skip_page (u : string) (pages : list nat) (s : state) :
  let s' := fold_left (skip_page u) pages s in
  query_cache s' = query_cache s /\
  warnings s' = warnings s ++ map page_warning pages /\
  requests s' = requests s ++ map (page_url u) pages.
Proof.
  revert s. induction pages as [|i pages IH]; intros s; cbn [fold_left map].
  - rewrite !app_nil_r. repeat split.
  - destruct (IH (skip_page u s i)) as (Hc & Hw & Hr).
    cbn zeta. rewrite Hc, Hw, Hr. cbn [skip_page add_warning log_request
      query_cache warnings requests]. rewrite <- !app_assoc. repeat split.
Qed.

(** C7. A page whose fetch fails with a transport error is skipped with a
    warning: the loop continues with the next page from a state that
    differs only by the logged request and the warning, and with the
    same records.  If every page fails so, the record set is empty and
    there is one warning for each page. *)
Theorem transport_error_skips_page (s : state) (u k : string)
    (Hready : ready s u k) :
  (forall i pages records,
     query_cache s !! page_key k i = None ->
     transport_error (urlopen (length (requests s)) (page_url u i)) = true ->
     _execute_query json_loads urlopen i s
     = Done (JStr "", false,
             match urlopen (length (requests s)) (page_url u i) with
             | NetURLError => Some URLError
             | _ => Some HTTPError
             end) (log_request (page_url u i) s) /\
     fetch_pages json_loads urlopen (i :: pages) records s
     = fetch_pages json_loads urlopen pages records (skip_page u s i) /\
     warnings (skip_page u s i) = warnings s ++ [page_warning i]) /\
  (forall pages,
     (forall i, In i pages -> query_cache s !! page_key k i = None) ->
     (forall n i, In i pages -> transport_error (urlopen n (page_url u i)) = true) ->
     exists s',
       fetch_pages json_loads urlopen pages [] s = Done [] s' /\
       warnings s' = warnings s ++ map page_warning pages /\
       query_cache s' = query_cache s).
Proof.
  split.
  - intros i pages records Hmiss Herr. split; [|split].
    + rewrite (_execute_query_ready s u k i Hready). unfold page_outcome.
      rewrite Hmiss. destruct (urlopen (length (requests s)) (page_url u i));
        try discriminate; reflexivity.
    + apply (fetch_pages_transport_error s u k i pages records Hready Hmiss Herr).
    + reflexivity.
  - intros pages Hmiss Herr. exists (fold_left (skip_page u) pages s).
    destruct (fold_skip_page u pages s) as (Hc & Hw & _).
    split; [|split]; [|exact Hw|exact Hc].
    apply (fetch_pages_all_fail u k pages s [] Hready Hmiss Herr).
Qed.

End Fetch.

(** ** The query builder and the run as a whole *)


Section Run.

Variable quote_plus : string -> string.
Variable json_loads : string -> option json.
Variable urlopen : nat -> string -> net_response.

Lemma endpoint_and_key_ok (api_key : string) (today : date) (query : string)
    (year_from year_to : option string) (text_includes : list string) :
  exists u,
    endpoint_and_key quote_plus api_key today query year_from year_to text_includes
    = Ok (u, query_key_of today query year_from year_to text_includes) /\
    String.eqb u "" = false.
Proof.
  unfold endpoint_and_key. rewrite !_date_to_str_digits. cbn [rbind].
  eexists. split; [reflexivity|]. reflexivity.
Qed.

Lemma _set_endpoint_url_done (today : date) (query : string)
    (year_from year_to : option string) (text_includes : list string) (s : state) :
  exists u,
    endpoint_and_key quote_plus (_api_key s) today query year_from year_to text_includes
    = Ok (u, query_key_of today query year_from year_to text_includes) /\
    _set_endpoint_url quote_plus today query year_from year_to text_includes s
    = Done tt (set_query u (query_key_of today query year_from year_to text_includes)
                         text_includes s) /\
    ready (set_query u (query_key_of today query year_from year_to text_includes)
                     text_includes s)
          u (query_key_of today query year_from year_to text_includes).
Proof.
  destruct (endpoint_and_key_ok (_api_key s) today query year_from year_to text_includes)
    as (u & Hu & Hne).
  exists u. split; [exact Hu|]. split.
  - unfold _set_endpoint_url. rewrite Hu. reflexivity.
  - repeat split. exact Hne.
Qed.

Lemma check_api_key_eq (s : state) :
  check_api_key quote_plus urlopen s =
  let url := probe_url quote_plus (_api_key s) in
  match urlopen (length (requests s)) url with
  | NetOk code _ => Done (if code =? 200 then JBool true else JNull) (log_request url s)
  | NetHTTPError => Done (JBool false) (log_request url s)
  | NetURLError => Fail URLError (log_request url s)
  end.
Proof.
  unfold check_api_key, bind, _encode_base_url, request, probe_url, ret, lift.
  cbn zeta.
  destruct (urlopen (length (requests s))
              (_base_url +:+ "?" +:+ urlencode_query quote_plus (_api_key s) "test"
               +:+ "&page=0")); reflexivity.
Qed.

(** What [run_query] has done when it enters the loop over the pages. *)
Lemma collect_records_prepare (today : date) (query : string)
    (year_from year_to : option string) (max_records : Z) (s : state) :
  urlopen (length (requests s)) (probe_url quote_plus (_api_key s)) <> NetURLError ->
  exists s0 u valid,
    collect_records quote_plus json_loads urlopen today query year_from year_to
                    max_records s
    = bind (fetch_pages json_loads urlopen (range (num_steps max_records)) [])
           (fun records => ret (trim records max_records)) s0 /\
    endpoint_and_key quote_plus (_api_key s) today query year_from year_to NYT_TEXT_FIELDS
    = Ok (u, query_key_of today query year_from year_to NYT_TEXT_FIELDS) /\
    ready s0 u (query_key_of today query year_from year_to NYT_TEXT_FIELDS) /\
    _api_key s0 = _api_key s /\
    query_cache s0 = query_cache s /\
    requests s0 = requests s ++ [probe_url quote_plus (_api_key s)] /\
    check_api_key quote_plus urlopen s
    = Done valid (log_request (probe_url quote_plus (_api_key s)) s) /\
    warnings s0 = warnings s ++ (if truthy valid then [] else [key_warning])
                             ++ (if max_records >? 1000 then [limit_warning] else []).
Proof.
  intros Hprobe.
  pose proof (check_api_key_eq s) as Hcheck. cbn zeta in Hcheck.
  set (purl := probe_url quote_plus (_api_key s)) in *.
  assert (Hvalid : exists valid, check_api_key quote_plus urlopen s
                                 = Done valid (log_request purl s)).
  { rewrite Hcheck. destruct (urlopen (length (requests s)) purl); eauto.
    contradiction. }
  destruct Hvalid as (valid & Hvalid). clear Hcheck.
  set (s1 := if truthy valid then log_request purl s
             else add_warning key_warning (log_request purl s)).
  destruct (_set_endpoint_url_done today query year_from year_to NYT_TEXT_FIELDS s1)
    as (u & Hu & Hset & Hready).
  set (key := query_key_of today query year_from year_to NYT_TEXT_FIELDS) in *.
  set (s2 := set_query u key NYT_TEXT_FIELDS s1) in *.
  exists (if max_records >? 1000 then add_warning limit_warning s2 else s2), u, valid.
  assert (Hkey1 : _api_key s1 = _api_key s) by (unfold s1; destruct (truthy valid); reflexivity).
  split; [|split; [|split; [|split; [|split; [|split; [|split]]]]]].
  - unfold collect_records. unfold bind at 1. rewrite Hvalid.
    unfold bind at 1.
    assert (Hw : when (negb (truthy valid)) (warn key_warning) (log_request purl s)
                 = Done tt s1).
    { unfold s1. destruct (truthy valid); reflexivity. }
    fold key_warning. rewrite Hw.
    unfold bind at 1. rewrite Hset. fold s2.
    unfold bind at 1. fold limit_warning.
    destruct (max_records >? 1000); reflexivity.
  - rewrite <- Hkey1. exact Hu.
  - destruct (max_records >? 1000); exact Hready.
  - destruct (max_records >? 1000); exact Hkey1.
  - unfold s2, s1. destruct (max_records >? 1000), (truthy valid); reflexivity.
  - unfold s2, s1. destruct (max_records >? 1000), (truthy valid); reflexivity.
  - exact Hvalid.
  - unfold s2, s1.
    destruct (max_records >? 1000), (truthy valid);
      cbn [warnings add_warning set_query log_request];
      rewrite <- ?app_assoc; cbn [app]; rewrite ?app_nil_r; reflexivity.
Qed.

Lemma collect_records_done (today : date) (query : string)
    (year_from year_to : option string) (max_records : Z) (s s' : state)
    (records : list json) :
  collect_records quote_plus json_loads urlopen today query year_from year_to
                  max_records s = Done records s' ->
  exists fetched s0,
    fetch_pages json_loads urlopen (range (num_steps max_records)) [] s0
    = Done fetched s' /\
    records = trim fetched max_records.
Proof.
  intros H.
  assert (Hprobe : urlopen (length (requests s)) (probe_url quote_plus (_api_key s))
                   <> NetURLError).
  { intros Hp. unfold collect_records in H. unfold bind at 1 in H.
    rewrite check_api_key_eq in H. cbn zeta in H. rewrite Hp in H. discriminate H. }
  destruct (collect_records_prepare today query year_from year_to max_records s Hprobe)
    as (s0 & u & valid & Heq & _).
  rewrite Heq in H. unfold bind, ret in H.
  destruct (fetch_pages json_loads urlopen (range (num_steps max_records)) [] s0)
    as [fetched s1|e s1] eqn:Hf; [|discriminate].
  injection H as <- <-. exists fetched, s0. split; [exact Hf|reflexivity].
Qed.

Lemma trim_spec (records : list json) (max_records : Z) :
  (Z.of_nat (length records) > max_records ->
     trim records max_records = firstn (Z.to_nat max_records) records /\
     (0 <= max_records ->
      Z.of_nat (length (trim records max_records)) = max_records)) /\
  (Z.of_nat (length records) <= max_records -> trim records max_records = records).
Proof.
  unfold trim, slice_to. split.
  - intros Hgt.
    destruct (Z.gtb_spec (Z.of_nat (length records)) max_records) as [_|Hle]; [|lia].
    destruct (Z.ltb_spec (max_records - Z.of_nat (length records)) 0) as [_|Hge]; [|lia].
    replace (Z.to_nat (Z.max (max_records - Z.of_nat (length records)
                              + Z.of_nat (length records)) 0))
      with (Z.to_nat max_records) by lia.
    split; [reflexivity|]. intros Hpos. rewrite length_take. lia.
  - intros Hle.
    destruct (Z.gtb_spec (Z.of_nat (length records)) max_records) as [Hgt|_]; [lia|].
    reflexivity.
Qed.

End Run.


(** ** The claims about the run *)

(** C1. In every run that gets as far as the trimming step, the records
    handed on are the fetched ones cut by [trim]: when more were fetched
    than [max_records] they are the first [max_records] fetched (exactly
    [max_records] of them, for a count that is not negative), and when at
    most [max_records] were fetched none is dropped. *)
Theorem trimming_keeps_first_max_records
    (quote_plus : string -> string) (json_loads : string -> option json)
    (urlopen : nat -> string -> net_response)
    (today : date) (query : string) (year_from year_to : option string)
    (max_records : Z) (s s' : state) (records : list json)
    (Hrun : collect_records quote_plus json_loads urlopen today query year_from year_to
                            max_records s = Done records s') :
  exists fetched s0,
    fetch_pages json_loads urlopen (range (num_steps max_records)) [] s0
    = Done fetched s' /\
    records = trim fetched max_records /\
    run_query quote_plus json_loads urlopen today query year_from year_to max_records s
    = lift (_generate_corpus (trim fetched max_records) NYT_TEXT_FIELDS) s' /\
    (Z.of_nat (length fetched) > max_records ->
       records = firstn (Z.to_nat max_records) fetched /\
       (0 <= max_records -> Z.of_nat (length records) = max_records)) /\
    (Z.of_nat (length fetched) <= max_records -> records = fetched).
Proof.
  destruct (collect_records_done quote_plus json_loads urlopen today query
              year_from year_to max_records s s' records Hrun)
    as (fetched & s0 & Hfetch & ->).
  exists fetched, s0. split; [exact Hfetch|]. split; [reflexivity|]. split.
  - unfold run_query, bind. rewrite Hrun. reflexivity.
  - apply trim_spec.
Qed.

Lemma trimming_witness :
  collect_records sample_quote_plus sample_loads sample_net sample_day "obama"
                  None None 1 fresh
  = Done [article "Budget Talks" "Ohio"]
         (final_state (collect_records sample_quote_plus sample_loads sample_net
                                       sample_day "obama" None None 1 fresh)) /\
  exists fetched s0,
    fetch_pages sample_loads sample_net (range (num_steps 1)) [] s0
    = Done fetched (final_state (collect_records sample_quote_plus sample_loads
                                   sample_net sample_day "obama" None None 1 fresh)) /\
    [article "Budget Talks" "Ohio"] = trim fetched 1 /\
    run_query sample_quote_plus sample_loads sample_net sample_day "obama" None None 1 fresh
    = lift (_generate_corpus (trim fetched 1) NYT_TEXT_FIELDS)
           (final_state (collect_records sample_quote_plus sample_loads
                           sample_net sample_day "obama" None None 1 fresh)) /\
    (Z.of_nat (length fetched) > 1 ->
       [article "Budget Talks" "Ohio"] = firstn (Z.to_nat 1) fetched /\
       (0 <= 1 -> Z.of_nat (length [article "Budget Talks" "Ohio"]) = 1)) /\
    (Z.of_nat (length fetched) <= 1 -> [article "Budget Talks" "Ohio"] = fetched).
Proof.
  split; [vm_compute; reflexivity|].
  apply (trimming_keeps_first_max_records sample_quote_plus sample_loads sample_net
           sample_day "obama" None None 1 fresh).
  vm_compute. reflexivity.
Defined.

Lemma ceil_tenth_spec (m : Z) : 10 * (ceil_tenth m - 1) < m <= 10 * ceil_tenth m.
Proof.
  unfold ceil_tenth.
  pose proof (Z.div_mod (- m) 10 ltac:(lia)).
  pose proof (Z.mod_pos_bound (- m) 10 ltac:(lia)). lia.
Qed.

(** C6, as the code has it.  A year that is not made of digits only (or
    is missing or empty) is ignored, whatever the other year is: the
    endpoint is the base url, the encoded query, the bound of the other
    year if that one is valid, and the field list, so no begin_date (resp.
    end_date) is added; the key keeps 18510101 (resp. the digits of the
    current date) as its first (resp. second) component; and the call does
    what a call without that year does.  No warning is emitted for it. *)
Theorem year_not_digits_ignored
    (quote_plus : string -> string) (today : date) (query : string)
    (year_from year_to : option string) (text_includes : list string) (s : state) :
  let q := _base_url +:+ "?" +:+ urlencode_query quote_plus (_api_key s) query in
  let words := split " " query ++ text_includes in
  (year_given year_from = false ->
     endpoint_and_key quote_plus (_api_key s) today query year_from year_to text_includes
     = Ok (q +:+ (if year_given year_to
                  then "&end_date=" +:+ default "" year_to +:+ "1231" else "")
             +:+ fields_suffix text_includes,
           join "_" ("18510101" :: end_key today year_to :: words)) /\
     _set_endpoint_url quote_plus today query year_from year_to text_includes s
     = _set_endpoint_url quote_plus today query None year_to text_includes s) /\
  (year_given year_to = false ->
     endpoint_and_key quote_plus (_api_key s) today query year_from year_to text_includes
     = Ok (q +:+ (if year_given year_from
                  then "&begin_date=" +:+ default "" year_from +:+ "0101" else "")
             +:+ fields_suffix text_includes,
           join "_" (start_key year_from :: date_digits today :: words)) /\
     _set_endpoint_url quote_plus today query year_from year_to text_includes s
     = _set_endpoint_url quote_plus today query year_from None text_includes s) /\
  (year_given year_from = false -> year_given year_to = false ->
     endpoint_and_key quote_plus (_api_key s) today query year_from year_to NYT_TEXT_FIELDS
     = Ok (_base_url +:+ "?" +:+ urlencode_query quote_plus (_api_key s) query
           +:+ "&fl=headline,lead_paragraph,snippet,abstract,keywords,pub_date,section_name",
           "18510101_" +:+ date_digits today +:+ "_"
           +:+ join "_" (split " " query ++ NYT_TEXT_FIELDS))) /\
  (exists s',
     _set_endpoint_url quote_plus today query year_from year_to text_includes s
     = Done tt s' /\
     warnings s' = warnings s).
Proof.
  intros q words. split; [|split; [|split]].
  - intros Hf. split.
    + unfold endpoint_and_key, fields_suffix, end_key, q, words.
      rewrite !_date_to_str_digits, Hf. cbn [rbind].
      destruct (year_given year_to), text_includes as [|f fs];
        try destruct (existsb (String.eqb "keywords") (f :: fs));
        cbn [existsb]; apply f_equal; apply f_equal2;
        try reflexivity; rewrite ?append_assoc; reflexivity.
    + unfold _set_endpoint_url, endpoint_and_key. rewrite Hf. reflexivity.
  - intros Ht. split.
    + unfold endpoint_and_key, fields_suffix, start_key, q, words.
      rewrite !_date_to_str_digits, Ht. cbn [rbind].
      destruct (year_given year_from), text_includes as [|f fs];
        try destruct (existsb (String.eqb "keywords") (f :: fs));
        cbn [existsb]; apply f_equal; apply f_equal2;
        try reflexivity; rewrite ?append_assoc; reflexivity.
    + unfold _set_endpoint_url, endpoint_and_key. rewrite Ht. reflexivity.
  - intros Hf Ht. unfold endpoint_and_key. rewrite !_date_to_str_digits, Hf, Ht.
    cbn [rbind NYT_TEXT_FIELDS existsb String.eqb Ascii.eqb Bool.eqb orb].
    f_equal. f_equal.
    + rewrite !append_assoc. reflexivity.
    + cbn [app]. rewrite join_two_more.
      destruct (split " " query ++ NYT_TEXT_FIELDS) eqn:Hl.
      * destruct (split " " query); discriminate Hl.
      * reflexivity.
  - destruct (_set_endpoint_url_done quote_plus today query year_from year_to
                text_includes s) as (u & _ & -> & _).
    eexists. split; reflexivity.
Qed.

Lemma year_not_digits_ignored_witness :
  _query_url (final_state (_set_endpoint_url sample_quote_plus sample_day "obama"
                             (Some "20x5") (Some "2014") NYT_TEXT_FIELDS fresh))
  = Some "http://api.nytimes.com/svc/search/v2/articlesearch.json?q=obama&fq=The+New+York+Times&api-key=key&end_date=20141231&fl=headline,lead_paragraph,snippet,abstract,keywords,pub_date,section_name" /\
  endpoint_and_key sample_quote_plus (_api_key fresh) sample_day "obama"
                   (Some "20x5") (Some "2014") NYT_TEXT_FIELDS
  = Ok (_base_url +:+ "?" +:+ urlencode_query sample_quote_plus (_api_key fresh) "obama"
          +:+ (if year_given (Some "2014")
               then "&end_date=" +:+ default "" (Some "2014") +:+ "1231" else "")
          +:+ fields_suffix NYT_TEXT_FIELDS,
        join "_" ("18510101" :: end_key sample_day (Some "2014")
                    :: split " " "obama" ++ NYT_TEXT_FIELDS)) /\
  _set_endpoint_url sample_quote_plus sample_day "obama" (Some "20x5") (Some "2014")
                    NYT_TEXT_FIELDS fresh
  = _set_endpoint_url sample_quote_plus sample_day "obama" None (Some "2014")
                      NYT_TEXT_FIELDS fresh.
Proof.
  split; [vm_compute; reflexivity|].
  apply (proj1 (year_not_digits_ignored sample_quote_plus sample_day "obama"
                  (Some "20x5") (Some "2014") NYT_TEXT_FIELDS fresh)).
  vm_compute. reflexivity.
Defined.

(** The claim as the spec words it fails: the year "20x5" is ignored, and
    neither [_set_endpoint_url] nor the whole run emits a warning. *)
Lemma year_not_digits_no_warning :
  isdigit "20x5" = false /\
  warnings fresh = [] /\
  warnings (final_state (_set_endpoint_url sample_quote_plus sample_day "obama"
                           (Some "20x5") None NYT_TEXT_FIELDS fresh)) = [] /\
  warnings (final_state (run_query sample_quote_plus sample_loads sample_net sample_day
                           "obama" (Some "20x5") None 10 fresh)) = [].
Proof. repeat split; vm_compute; reflexivity. Qed.

(** ** Which exceptions can escape *)


Create HintDb quiet.

Lemma quiet_Ok {A : Type} (a : A) : quiet (Ok a).
Proof. exact I. Qed.

Lemma quiet_bind {A B : Type} (m : result A) (k : A -> result B) :
  quiet m -> (forall a, quiet (k a)) -> quiet (rbind m k).
Proof. destruct m as [a|e]; intros Hm Hk; [apply Hk|exact Hm]. Qed.

Lemma quiet_rmap {A B : Type} (f : A -> result B) (l : list A) :
  (forall a, quiet (f a)) -> quiet (rmap f l).
Proof.
  intros Hf. induction l as [|a l IH]; [exact I|].
  cbn [rmap]. apply quiet_bind; [apply Hf|]. intros b.
  apply quiet_bind; [exact IH|]. intros bs. exact I.
Qed.

Lemma quiet_py_in (k : string) (c : json) : quiet (py_in k c).
Proof. destruct c; exact I || reflexivity. Qed.

Lemma quiet_py_getitem (c : json) (k : string) : quiet (py_getitem c k).
Proof. destruct c; try reflexivity. cbn. destruct (dict_get k d); exact I || reflexivity. Qed.

Lemma quiet_py_get (c : json) (k : string) (dflt : json) : quiet (py_get c k dflt).
Proof. destruct c; exact I || reflexivity. Qed.

Lemma quiet_py_iter (c : json) : quiet (py_iter c).
Proof. destruct c; exact I || reflexivity. Qed.

Lemma quiet_as_str (v : json) : quiet (as_str v).
Proof. destruct v; exact I || reflexivity. Qed.

#[local] Hint Resolve quiet_Ok quiet_py_in quiet_py_getitem quiet_py_get quiet_py_iter
  quiet_as_str : quiet.

Lemma quiet_py_join (sep : string) (vals : list json) : quiet (py_join sep vals).
Proof.
  unfold py_join. apply quiet_bind; [apply quiet_rmap; auto with quiet|].
  intros ss. exact I.
Qed.

#[local] Hint Resolve quiet_py_join : quiet.

Ltac quiet_steps :=
  repeat first
    [ apply quiet_bind; [solve [auto with quiet]|intros ?]
    | solve [auto with quiet] ].

Lemma quiet_field_value (v : json) : quiet (field_value v).
Proof.
  destruct v; cbn [field_value]; auto with quiet.
  apply quiet_bind; [apply quiet_rmap; auto with quiet|]. auto with quiet.
Qed.

#[local] Hint Resolve quiet_field_value : quiet.

Lemma quiet_text_fields (doc : json) (fields : list string) : quiet (text_fields doc fields).
Proof.
  induction fields as [|f fields IH]; [exact I|].
  cbn [text_fields]. apply quiet_bind; [auto with quiet|]. intros [|]; [|exact IH].
  quiet_steps.
Qed.

Lemma quiet_glocation_values (kws : list json) : quiet (glocation_values kws).
Proof.
  induction kws as [|kw kws IH]; [exact I|].
  cbn [glocation_values]. apply quiet_bind; [auto with quiet|]. intros name.
  destruct (py_eq_str name "glocations"); [|exact IH].
  quiet_steps.
Qed.

#[local] Hint Resolve quiet_text_fields quiet_glocation_values : quiet.

Lemma quiet_glocation (doc : json) : quiet (glocation doc).
Proof. unfold glocation. quiet_steps. Qed.

#[local] Hint Resolve quiet_glocation : quiet.

Lemma quiet_parse_doc (doc : json) (fields : list string) : quiet (parse_doc doc fields).
Proof. unfold parse_doc. quiet_steps. Qed.

Lemma quiet_vstack (ncols : nat) (metadata : list (list json)) (row : list json) :
  quiet (vstack ncols metadata row).
Proof. unfold vstack. destruct (length row =? ncols)%nat; exact I || reflexivity. Qed.

#[local] Hint Resolve quiet_parse_doc quiet_vstack : quiet.

Lemma quiet_parse_loop (ncols : nat) (records : list json) (fields : list string) :
  forall metadata class_values,
  quiet (parse_loop ncols records fields metadata class_values).
Proof.
  induction records as [|doc records IH]; intros metadata class_values; [exact I|].
  cbn [parse_loop]. quiet_steps.
Qed.

Lemma quiet__generate_corpus (records : list json) (fields : list string) :
  quiet (_generate_corpus records fields).
Proof.
  unfold _generate_corpus, _parse_record_json.
  apply quiet_bind; [apply quiet_parse_loop|]. intros parsed. exact I.
Qed.

Lemma quiet_failure (data : json) : quiet (failure data).
Proof.
  unfold failure. destruct data; try exact I;
    (apply quiet_bind; [auto with quiet|]; intros [|]; cbn [negb]; quiet_steps).
Qed.

Lemma quiet_docs_of (data : json) : quiet (docs_of data).
Proof. unfold docs_of. quiet_steps. Qed.

Lemma calm_lift {A : Type} (r : result A) (s : state) : quiet r -> calm (lift r s).
Proof. destruct r; intros H; exact H. Qed.

Lemma calm_bind {A B : Type} (m : M A) (k : A -> M B) (s : state) :
  calm (m s) -> (forall a s', calm (k a s')) -> calm (bind m k s).
Proof. unfold bind. destruct (m s) as [a s'|e s']; intros Hm Hk; [apply Hk|exact Hm]. Qed.

(** ** What a run does to the cache *)


Lemma same_store_grows (pages : list nat) (s s' : state) :
  same_store s s' -> grows pages s s'.
Proof.
  intros (Ha & Hu & Hk & Hc). repeat split; try assumption.
  - rewrite Hc. reflexivity.
  - intros key Hnone Hsome. rewrite Hc, Hnone in Hsome. destruct Hsome; discriminate.
Qed.

Lemma grows_trans (p1 p2 : list nat) (s1 s2 s3 : state) :
  grows p1 s1 s2 -> grows p2 s2 s3 -> grows (p1 ++ p2) s1 s3.
Proof.
  intros (Ha & Hu & Hk & Hc & Hn) (Ha' & Hu' & Hk' & Hc' & Hn').
  repeat split; try congruence.
  - etransitivity; eassumption.
  - intros key Hnone Hsome.
    destruct (query_cache s2 !! key) as [v|] eqn:H2.
    + destruct (Hn key Hnone ltac:(eauto)) as (k & i & Hq & Hi & ->).
      exists k, i. repeat split; [exact Hq|apply in_or_app; left; exact Hi].
    + destruct (Hn' key H2 Hsome) as (k & i & Hq & Hi & ->).
      exists k, i. repeat split; [congruence|apply in_or_app; right; exact Hi].
Qed.

Lemma grows_store (s s0 : state) (k body : string) (i : nat) :
  same_store s s0 -> query_key s = Some k ->
  query_cache s !! page_key k i = None ->
  grows [i] s (store_response (page_key k i) body s0).
Proof.
  intros (Ha & Hu & Hk & Hc) Hq Hmiss. repeat split; try assumption.
  - cbn [query_cache store_response]. rewrite Hc. apply insert_subseteq. exact Hmiss.
  - intros key Hnone Hsome. cbn [query_cache store_response] in Hsome.
    rewrite Hc in Hsome. exists k, i. repeat split; [exact Hq|left; reflexivity|].
    destruct (decide (key = page_key k i)) as [->|Hne]; [reflexivity|].
    rewrite lookup_insert_ne in Hsome by congruence.
    rewrite Hnone in Hsome. destruct Hsome; discriminate.
Qed.

Lemma page_key_inj (k : string) (i j : nat) : page_key k i = page_key k j -> i = j.
Proof.
  unfold page_key. intros H. apply append_cancel_l in H.
  apply (append_cancel_l "_") in H. apply str_inj. exact H.
Qed.

Lemma final_state_bind_lift {A B : Type} (m : M A) (f : A -> result B) (s : state) :
  final_state (bind m (fun a => lift (f a)) s) = final_state (m s).
Proof.
  unfold bind, lift. destruct (m s) as [a s'|e s']; [|reflexivity].
  destruct (f a); reflexivity.
Qed.

Lemma final_state_bind_ret {A B : Type} (m : M A) (f : A -> B) (s : state) :
  final_state (bind m (fun a => ret (f a)) s) = final_state (m s).
Proof. unfold bind, ret. destruct (m s) as [a s'|e s']; reflexivity. Qed.

Section Invariants.

Variable json_loads : string -> option json.
Variable urlopen : nat -> string -> net_response.

Lemma page_outcome_grows (u k : string) (i : nat) (s s0 : state) :
  same_store s s0 -> query_key s = Some k ->
  grows [i] s (final_state (page_outcome json_loads urlopen u k i s0)) /\
  calm (page_outcome json_loads urlopen u k i s0).
Proof.
  intros Hs0 Hk. pose proof Hs0 as (Ha & Hu0 & Hk0 & Hc0). unfold page_outcome.
  destruct (query_cache s0 !! page_key k i) as [response|] eqn:Hlook.
  - destruct (json_loads response);
      (split; [apply same_store_grows; exact Hs0|reflexivity]).
  - destruct (urlopen (length (requests s0)) (page_url u i)) as [code response| |].
    + assert (Hg : grows [i] s (store_response (page_key k i) response
                                  (log_request (page_url u i) s0))).
      { apply (grows_store s (log_request (page_url u i) s0) k response i).
        - exact Hs0.
        - exact Hk.
        - rewrite <- Hc0. exact Hlook. }
      cbn zeta. destruct (json_loads response); (split; [exact Hg|reflexivity]).
    + split; [apply same_store_grows; exact Hs0|reflexivity].
    + split; [apply same_store_grows; exact Hs0|reflexivity].
Qed.

(** One call of [_execute_query]: it stores at most the page it fetched,
    and the only exceptions that leave it are [TypeError] and
    [ValueError]. *)
Lemma _execute_query_outcome (i : nat) (s : state) :
  grows [i] s (final_state (_execute_query json_loads urlopen i s)) /\
  calm (_execute_query json_loads urlopen i s).
Proof.
  destruct (_query_url s) as [u|] eqn:Hu.
  2:{ unfold _execute_query, bind, when, warn, lift, concat_to, ret. rewrite Hu.
      split; [apply same_store_grows; repeat split|reflexivity]. }
  destruct (query_key s) as [k|] eqn:Hk.
  2:{ unfold _execute_query, bind, when, warn, lift, concat_to, ret. rewrite Hu.
      destruct (String.eqb u ""); cbn [query_key add_warning]; rewrite Hk;
      (split; [apply same_store_grows; repeat split|reflexivity]). }
  rewrite (_execute_query_set json_loads urlopen s u k i Hu Hk).
  apply page_outcome_grows; [|exact Hk].
  destruct (String.eqb u ""); repeat split.
Qed.

Lemma grows_add_warning (pages : list nat) (s s' : state) (msg : string) :
  grows pages s s' -> grows pages s (add_warning msg s').
Proof. intros H. exact H. Qed.

(** One turn of the loop. *)
Lemma fetch_pages_cons (i : nat) (pages : list nat) (records : list json) (s : state) :
  fetch_pages json_loads urlopen (i :: pages) records s =
  match _execute_query json_loads urlopen i s with
  | Done r s1 =>
      match failure (fst (fst r)) with
      | Ok true => fetch_pages json_loads urlopen pages records
                               (add_warning (page_warning i) s1)
      | Ok false =>
          match docs_of (fst (fst r)) with
          | Ok docs => fetch_pages json_loads urlopen pages (records ++ docs) s1
          | Raise e => Fail e s1
          end
      | Raise e => Fail e s1
      end
  | Fail e s1 => Fail e s1
  end.
Proof.
  cbn [fetch_pages]. unfold bind, lift, warn.
  destruct (_execute_query json_loads urlopen i s) as [r s1|e s1]; [|reflexivity].
  destruct (failure (fst (fst r))) as [[|]|e]; try reflexivity.
  destruct (docs_of (fst (fst r))); reflexivity.
Qed.

(** The loop over the pages. *)
Lemma fetch_pages_outcome (pages : list nat) :
  forall (records : list json) (s : state),
  grows pages s (final_state (fetch_pages json_loads urlopen pages records s)) /\
  calm (fetch_pages json_loads urlopen pages records s).
Proof.
  induction pages as [|i pages IH]; intros records s.
  - split; [apply same_store_grows; repeat split|exact I].
  - rewrite fetch_pages_cons.
    destruct (_execute_query_outcome i s) as (Hg & Hcalm).
    assert (Hstop : forall s1, grows [i] s s1 -> grows (i :: pages) s s1).
    { intros s1 H1. apply (grows_trans [i] pages s s1 s1 H1).
      apply same_store_grows. repeat split. }
    destruct (_execute_query json_loads urlopen i s) as [r s1|e s1].
    2:{ split; [apply Hstop; exact Hg|exact Hcalm]. }
    cbn [final_state] in Hg.
    pose proof (quiet_failure (fst (fst r))) as Hq.
    destruct (failure (fst (fst r))) as [[|]|e].
    + destruct (IH records (add_warning (page_warning i) s1)) as (Hg' & Hc').
      split; [|exact Hc'].
      apply (grows_trans [i] pages s (add_warning (page_warning i) s1) _
               (grows_add_warning [i] s s1 _ Hg) Hg').
    + pose proof (quiet_docs_of (fst (fst r))) as Hd.
      destruct (docs_of (fst (fst r))) as [docs|e].
      2:{ split; [apply Hstop; exact Hg|exact Hd]. }
      destruct (IH (records ++ docs) s1) as (Hg' & Hc').
      split; [|exact Hc'].
      apply (grows_trans [i] pages s s1 _ Hg Hg').
    + split; [apply Hstop; exact Hg|exact Hq].
Qed.

End Invariants.

(** ** Two runs *)

Section Replay.

Variable json_loads : string -> option json.
Variable urlopen : nat -> string -> net_response.

Lemma fetch_pages_done_grows (pages : list nat) (records r : list json) (s s1 : state) :
  fetch_pages json_loads urlopen pages records s = Done r s1 -> grows pages s s1.
Proof.
  intros H. destruct (fetch_pages_outcome json_loads urlopen pages records s) as (Hg & _).
  rewrite H in Hg. exact Hg.
Qed.

Lemma failure_empty_str : failure (JStr "") = Ok true.
Proof. reflexivity. Qed.

(** A second pass over pages that are all in the cache reads what the
    first pass read and asks the network nothing. *)
Lemma fetch_replay (u k : string) (pages : list nat) :
  List.NoDup pages ->
  forall (records r : list json) (s s1 t : state),
  ready s u k -> ready t u k ->
  fetch_pages json_loads urlopen pages records s = Done r s1 ->
  (forall i, In i pages -> is_Some (query_cache s1 !! page_key k i)) ->
  query_cache s1 ⊆ query_cache t ->
  exists t',
    fetch_pages json_loads urlopen pages records t = Done r t' /\
    requests t' = requests t /\ query_cache t' = query_cache t.
Proof.
  induction 1 as [|i pages Hnotin Hnodup IH];
    intros records r s s1 t Hs Ht Hrun Hall Hsub.
  - cbn [fetch_pages] in *. unfold ret in *. injection Hrun as <- <-.
    exists t. repeat split.
  - rewrite fetch_pages_cons in Hrun. rewrite fetch_pages_cons.
    rewrite (_execute_query_ready json_loads urlopen s u k i Hs) in Hrun.
    rewrite (_execute_query_ready json_loads urlopen t u k i Ht).
    (* what remains once the first run holds the page under its key *)
    assert (Hcont : forall sa body data,
      ready sa u k ->
      query_cache sa !! page_key k i = Some body ->
      json_loads body = Some data ->
      match failure data with
      | Ok true => fetch_pages json_loads urlopen pages records
                               (add_warning (page_warning i) sa)
      | Ok false =>
          match docs_of data with
          | Ok docs => fetch_pages json_loads urlopen pages (records ++ docs) sa
          | Raise e => Fail e sa
          end
      | Raise e => Fail e sa
      end = Done r s1 ->
      exists t',
        match page_outcome json_loads urlopen u k i t with
        | Done r0 s2 =>
            match failure (fst (fst r0)) with
            | Ok true => fetch_pages json_loads urlopen pages records
                                     (add_warning (page_warning i) s2)
            | Ok false =>
                match docs_of (fst (fst r0)) with
                | Ok docs => fetch_pages json_loads urlopen pages (records ++ docs) s2
                | Raise e => Fail e s2
                end
            | Raise e => Fail e s2
            end
        | Fail e s2 => Fail e s2
        end = Done r t' /\
        requests t' = requests t /\ query_cache t' = query_cache t).
    { intros sa body data Hsa Hbody Hdata Hrest.
      assert (Hsa1 : query_cache sa ⊆ query_cache s1).
      { destruct (failure data) as [[|]|e]; try discriminate Hrest.
        - apply fetch_pages_done_grows in Hrest. apply Hrest.
        - destruct (docs_of data) as [docs|e]; try discriminate Hrest.
          apply fetch_pages_done_grows in Hrest. apply Hrest. }
      assert (Hhit : query_cache t !! page_key k i = Some body).
      { eapply lookup_weaken; [|exact Hsub]. eapply lookup_weaken; [exact Hbody|exact Hsa1]. }
      unfold page_outcome. rewrite Hhit, Hdata. cbn [fst].
      destruct (failure data) as [[|]|e]; try discriminate Hrest.
      - apply (IH records r (add_warning (page_warning i) sa) s1
                  (add_warning (page_warning i) t) Hsa Ht Hrest).
        + intros j Hj. apply Hall. right. exact Hj.
        + exact Hsub.
      - destruct (docs_of data) as [docs|e]; try discriminate Hrest.
        apply (IH (records ++ docs) r sa s1 t Hsa Ht Hrest).
        + intros j Hj. apply Hall. right. exact Hj.
        + exact Hsub. }
    unfold page_outcome in Hrun at 1.
    destruct (query_cache s !! page_key k i) as [body|] eqn:Hlook.
    + destruct (json_loads body) as [data|] eqn:Hdata; [|discriminate Hrun].
      cbn [fst] in Hrun. apply (Hcont s body data Hs Hlook Hdata Hrun).
    + destruct (urlopen (length (requests s)) (page_url u i)) as [code body| |] eqn:Hnet.
      * cbn zeta in Hrun.
        destruct (json_loads body) as [data|] eqn:Hdata; [|discriminate Hrun].
        cbn [fst] in Hrun.
        apply (Hcont (store_response (page_key k i) body (log_request (page_url u i) s))
                 body data); [exact Hs| |exact Hdata|exact Hrun].
        cbn [query_cache store_response]. apply lookup_insert_eq.
      * exfalso. cbn [fst] in Hrun. rewrite failure_empty_str in Hrun.
        apply fetch_pages_done_grows in Hrun.
        destruct Hrun as (_ & _ & _ & _ & Hnew).
        destruct (Hnew (page_key k i) Hlook (Hall i (or_introl eq_refl)))
          as (k' & j & Hk' & Hj & Hkey).
        destruct Hs as (_ & _ & Hk). cbn [query_key add_warning log_request] in Hk'.
        rewrite Hk in Hk'. injection Hk' as <-.
        apply page_key_inj in Hkey. subst j. contradiction.
      * exfalso. cbn [fst] in Hrun. rewrite failure_empty_str in Hrun.
        apply fetch_pages_done_grows in Hrun.
        destruct Hrun as (_ & _ & _ & _ & Hnew).
        destruct (Hnew (page_key k i) Hlook (Hall i (or_introl eq_refl)))
          as (k' & j & Hk' & Hj & Hkey).
        destruct Hs as (_ & _ & Hk). cbn [query_key add_warning log_request] in Hk'.
        rewrite Hk in Hk'. injection Hk' as <-.
        apply page_key_inj in Hkey. subst j. contradiction.
Qed.

(** A pass over pages none of which is in the cache asks the network for
    each of them, once and in order. *)
Lemma fetch_pages_all_miss (u k : string) (pages : list nat) :
  List.NoDup pages ->
  forall (records r : list json) (s s1 : state),
  ready s u k ->
  (forall i, In i pages -> query_cache s !! page_key k i = None) ->
  fetch_pages json_loads urlopen pages records s = Done r s1 ->
  requests s1 = requests s ++ map (page_url u) pages.
Proof.
  induction 1 as [|i pages Hnotin Hnodup IH]; intros records r s s1 Hs Hmiss Hrun.
  - cbn [fetch_pages] in Hrun. unfold ret in Hrun. injection Hrun as _ <-.
    cbn [map]. rewrite app_nil_r. reflexivity.
  - rewrite fetch_pages_cons in Hrun.
    rewrite (_execute_query_ready json_loads urlopen s u k i Hs) in Hrun.
    unfold page_outcome in Hrun. rewrite (Hmiss i (or_introl eq_refl)) in Hrun.
    assert (Hnext : forall sa,
      ready sa u k ->
      requests sa = requests s ++ [page_url u i] ->
      (query_cache sa = query_cache s \/
       exists body, query_cache sa = <[page_key k i := body]> (query_cache s)) ->
      forall records', fetch_pages json_loads urlopen pages records' sa = Done r s1 ->
      requests s1 = requests s ++ map (page_url u) (i :: pages)).
    { intros sa Hsa Hreq Hcache records' Hrest.
      rewrite (IH records' r sa s1 Hsa); [rewrite Hreq, <- app_assoc; reflexivity| |exact Hrest].
      intros j Hj. destruct Hcache as [->|(body & ->)].
      - apply Hmiss. right. exact Hj.
      - rewrite lookup_insert_ne.
        + apply Hmiss. right. exact Hj.
        + intros Heq. apply page_key_inj in Heq. subst j. contradiction. }
    destruct (urlopen (length (requests s)) (page_url u i)) as [code body| |].
    + cbn zeta in Hrun. destruct (json_loads body) as [data|]; [|discriminate Hrun].
      cbn [fst] in Hrun.
      destruct (failure data) as [[|]|e]; try discriminate Hrun.
      * apply (Hnext (add_warning (page_warning i)
                        (store_response (page_key k i) body
                           (log_request (page_url u i) s))) Hs eq_refl
                 (or_intror (ex_intro _ body eq_refl)) records Hrun).
      * destruct (docs_of data) as [docs|e]; try discriminate Hrun.
        apply (Hnext (store_response (page_key k i) body (log_request (page_url u i) s))
                 Hs eq_refl (or_intror (ex_intro _ body eq_refl)) _ Hrun).
    + cbn [fst] in Hrun. rewrite failure_empty_str in Hrun.
      apply (Hnext (add_warning (page_warning i) (log_request (page_url u i) s))
               Hs eq_refl (or_introl eq_refl) records Hrun).
    + cbn [fst] in Hrun. rewrite failure_empty_str in Hrun.
      apply (Hnext (add_warning (page_warning i) (log_request (page_url u i) s))
               Hs eq_refl (or_introl eq_refl) records Hrun).
Qed.

(** The records of a pass that returns: the records it started with and
    then, page by page and in the order of the pages, the docs of the
    body the cache holds for the page at the end. *)
Lemma fetch_pages_records (u k : string) (pages : list nat) :
  List.NoDup pages ->
  forall (records r : list json) (s s1 : state),
  ready s u k ->
  fetch_pages json_loads urlopen pages records s = Done r s1 ->
  r = records ++ concat (map (page_docs json_loads (query_cache s1) k) pages).
Proof.
  induction 1 as [|i pages Hnotin Hnodup IH]; intros records r s s1 Hs Hrun.
  - cbn [fetch_pages] in Hrun. unfold ret in Hrun. injection Hrun as <- _.
    cbn [map concat]. rewrite app_nil_r. reflexivity.
  - rewrite fetch_pages_cons in Hrun.
    rewrite (_execute_query_ready json_loads urlopen s u k i Hs) in Hrun.
    cbn [map concat]. fold (page_key k i).
    (* the page has a body in the cache when the pass goes on *)
    assert (Hbody : forall sa body data,
      ready sa u k ->
      query_cache sa !! page_key k i = Some body ->
      json_loads body = Some data ->
      match failure data with
      | Ok true => fetch_pages json_loads urlopen pages records
                               (add_warning (page_warning i) sa)
      | Ok false =>
          match docs_of data with
          | Ok docs => fetch_pages json_loads urlopen pages (records ++ docs) sa
          | Raise e => Fail e sa
          end
      | Raise e => Fail e sa
      end = Done r s1 ->
      r = records ++ page_docs json_loads (query_cache s1) k i
                  ++ concat (map (page_docs json_loads (query_cache s1) k) pages)).
    { intros sa body data Hsa Hlook Hdata Hrest.
      assert (Hkept : query_cache s1 !! page_key k i = Some body).
      { eapply lookup_weaken; [exact Hlook|].
        destruct (failure data) as [[|]|e]; try discriminate Hrest.
        - apply fetch_pages_done_grows in Hrest. apply Hrest.
        - destruct (docs_of data) as [docs|e]; try discriminate Hrest.
          apply fetch_pages_done_grows in Hrest. apply Hrest. }
      unfold page_docs at 1. fold (page_key k i). rewrite Hkept, Hdata.
      destruct (failure data) as [[|]|e]; try discriminate Hrest.
      - cbn [app]. apply (IH records r (add_warning (page_warning i) sa) s1 Hsa Hrest).
      - destruct (docs_of data) as [docs|e]; try discriminate Hrest.
        rewrite app_assoc. apply (IH (records ++ docs) r sa s1 Hsa Hrest). }
    (* the page has no body in the cache when its fetch failed *)
    assert (Hnone : forall sa,
      ready sa u k ->
      query_cache sa !! page_key k i = None ->
      fetch_pages json_loads urlopen pages records sa = Done r s1 ->
      r = records ++ page_docs json_loads (query_cache s1) k i
                  ++ concat (map (page_docs json_loads (query_cache s1) k) pages)).
    { intros sa Hsa Hlook Hrest.
      assert (Hstill : query_cache s1 !! page_key k i = None).
      { destruct (query_cache s1 !! page_key k i) as [body|] eqn:E; [|reflexivity].
        exfalso. pose proof (fetch_pages_done_grows _ _ _ _ _ Hrest) as (_ & _ & _ & _ & Hnew).
        destruct (Hnew (page_key k i) Hlook (ex_intro _ body E)) as (k' & j & Hk' & Hj & Hkey).
        destruct Hsa as (_ & _ & Hk). rewrite Hk in Hk'. injection Hk' as <-.
        apply page_key_inj in Hkey. subst j. contradiction. }
      unfold page_docs at 1. fold (page_key k i). rewrite Hstill. cbn [app].
      apply (IH records r sa s1 Hsa Hrest). }
    unfold page_outcome in Hrun.
    destruct (query_cache s !! page_key k i) as [body|] eqn:Hlook.
    + destruct (json_loads body) as [data|] eqn:Hdata; [|discriminate Hrun].
      cbn [fst] in Hrun. apply (Hbody s body data Hs Hlook Hdata Hrun).
    + destruct (urlopen (length (requests s)) (page_url u i)) as [code body| |].
      * cbn zeta in Hrun.
        destruct (json_loads body) as [data|] eqn:Hdata; [|discriminate Hrun].
        cbn [fst] in Hrun.
        apply (Hbody (store_response (page_key k i) body (log_request (page_url u i) s))
                 body data Hs); [|exact Hdata|exact Hrun].
        cbn [query_cache store_response]. apply lookup_insert_eq.
      * cbn [fst] in Hrun. rewrite failure_empty_str in Hrun.
        apply (Hnone (add_warning (page_warning i) (log_request (page_url u i) s))
                 Hs Hlook Hrun).
      * cbn [fst] in Hrun. rewrite failure_empty_str in Hrun.
        apply (Hnone (add_warning (page_warning i) (log_request (page_url u i) s))
                 Hs Hlook Hrun).
Qed.

(** The requests of a pass over the pages: one for each page that is not
    in the cache, in the order of the pages, up to the page at which the
    pass ends; a pass that returns has been through all of them. *)
Lemma fetch_pages_visits (u k : string) (c0 : gmap string string) (pages : list nat) :
  List.NoDup pages ->
  forall (records : list json) (s : state),
  ready s u k ->
  (forall j, In j pages -> query_cache s !! page_key k j = c0 !! page_key k j) ->
  exists m,
    (m <= length pages)%nat /\
    requests (final_state (fetch_pages json_loads urlopen pages records s))
    = requests s ++ map (page_url u)
                        (filter (fun i => c0 !! page_key k i = None) (take m pages)) /\
    (forall r s', fetch_pages json_loads urlopen pages records s = Done r s' ->
                  m = length pages).
Proof.
  induction 1 as [|i pages Hnotin Hnodup IH]; intros records s Hs Hagree.
  - exists 0%nat. cbn [fetch_pages take length]. unfold ret. cbn [final_state].
    rewrite filter_nil. cbn [map]. rewrite app_nil_r.
    split; [lia|]. split; [reflexivity|]. intros r s' _. reflexivity.
  - rewrite fetch_pages_cons, (_execute_query_ready json_loads urlopen s u k i Hs).
    assert (Hnext : forall sa records',
      ready sa u k ->
      (query_cache sa = query_cache s \/
       exists body, query_cache sa = <[page_key k i := body]> (query_cache s)) ->
      exists m,
        (m <= length pages)%nat /\
        requests (final_state (fetch_pages json_loads urlopen pages records' sa))
        = requests sa ++ map (page_url u)
                             (filter (fun i => c0 !! page_key k i = None) (take m pages)) /\
        (forall r s', fetch_pages json_loads urlopen pages records' sa = Done r s' ->
                      m = length pages)).
    { intros sa records' Hsa Hcache. apply IH; [exact Hsa|].
      intros j Hj. destruct Hcache as [->|(body & ->)].
      - apply Hagree. right. exact Hj.
      - rewrite lookup_insert_ne.
        + apply Hagree. right. exact Hj.
        + intros Heq. apply page_key_inj in Heq. subst j. contradiction. }
    pose proof (Hagree i (or_introl eq_refl)) as Hi.
    unfold page_outcome.
    destruct (query_cache s !! page_key k i) as [body|] eqn:Hlook.
    + (* the page is in the cache: no request *)
      assert (Hhit : ~ c0 !! page_key k i = None) by (rewrite <- Hi; discriminate).
      assert (Hstop : forall e : exn,
        exists m,
          (m <= length (i :: pages))%nat /\
          requests (final_state (Fail e s : outcome (list json)))
          = requests s ++ map (page_url u)
              (filter (fun i => c0 !! page_key k i = None) (take m (i :: pages))) /\
          (forall r s', (Fail e s : outcome (list json)) = Done r s' ->
                        m = length (i :: pages))).
      { intros e. exists 1%nat. cbn [take length final_state].
        rewrite filter_cons_False by exact Hhit. cbn [filter map].
        rewrite take_0. cbn [map]. rewrite app_nil_r.
        split; [lia|]. split; [reflexivity|]. intros r s' Hd. discriminate Hd. }
      assert (Hgo : forall sa records',
        ready sa u k -> query_cache sa = query_cache s -> requests sa = requests s ->
        exists m,
          (m <= length (i :: pages))%nat /\
          requests (final_state (fetch_pages json_loads urlopen pages records' sa))
          = requests s ++ map (page_url u)
              (filter (fun i => c0 !! page_key k i = None) (take m (i :: pages))) /\
          (forall r s', fetch_pages json_loads urlopen pages records' sa = Done r s' ->
                        m = length (i :: pages))).
      { intros sa records' Hsa Hc Hr.
        destruct (Hnext sa records' Hsa (or_introl Hc)) as (m & Hle & Hreq & Hdone).
        exists (S m). cbn [take length]. rewrite filter_cons_False by exact Hhit.
        split; [lia|]. split; [rewrite Hreq, Hr; reflexivity|].
        intros r s' Hd. rewrite (Hdone r s' Hd). reflexivity. }
      destruct (json_loads body) as [data|]; [|apply Hstop].
      cbn [fst]. destruct (failure data) as [[|]|e]; [| |apply Hstop].
      * apply (Hgo (add_warning (page_warning i) s) records Hs eq_refl eq_refl).
      * destruct (docs_of data) as [docs|e]; [|apply Hstop].
        apply (Hgo s (records ++ docs) Hs eq_refl eq_refl).
    + (* the page is not in the cache: one request *)
      assert (Hmiss : c0 !! page_key k i = None) by (rewrite <- Hi; reflexivity).
      assert (Hstop : forall (e : exn) sa,
        requests sa = requests s ++ [page_url u i] ->
        exists m,
          (m <= length (i :: pages))%nat /\
          requests (final_state (Fail e sa : outcome (list json)))
          = requests s ++ map (page_url u)
              (filter (fun i => c0 !! page_key k i = None) (take m (i :: pages))) /\
          (forall r s', (Fail e sa : outcome (list json)) = Done r s' ->
                        m = length (i :: pages))).
      { intros e sa Hr. exists 1%nat. cbn [take length final_state].
        rewrite filter_cons_True by exact Hmiss. rewrite take_0. cbn [filter map].
        split; [lia|]. split; [exact Hr|]. intros r s' Hd. discriminate Hd. }
      assert (Hgo : forall sa records',
        ready sa u k ->
        (query_cache sa = query_cache s \/
         exists body, query_cache sa = <[page_key k i := body]> (query_cache s)) ->
        requests sa = requests s ++ [page_url u i] ->
        exists m,
          (m <= length (i :: pages))%nat /\
          requests (final_state (fetch_pages json_loads urlopen pages records' sa))
          = requests s ++ map (page_url u)
              (filter (fun i => c0 !! page_key k i = None) (take m (i :: pages))) /\
          (forall r s', fetch_pages json_loads urlopen pages records' sa = Done r s' ->
                        m = length (i :: pages))).
      { intros sa records' Hsa Hc Hr.
        destruct (Hnext sa records' Hsa Hc) as (m & Hle & Hreq & Hdone).
        exists (S m). cbn [take length]. rewrite filter_cons_True by exact Hmiss.
        split; [lia|]. split.
        - rewrite Hreq, Hr, <- app_assoc. reflexivity.
        - intros r s' Hd. rewrite (Hdone r s' Hd). reflexivity. }
      destruct (urlopen (length (requests s)) (page_url u i)) as [code body| |].
      * cbn zeta.
        destruct (json_loads body) as [data|]; [|apply Hstop; reflexivity].
        cbn [fst]. destruct (failure data) as [[|]|e]; [| |apply Hstop; reflexivity].
        -- apply (Hgo (add_warning (page_warning i)
                         (store_response (page_key k i) body
                            (log_request (page_url u i) s))) records Hs
                    (or_intror (ex_intro _ body eq_refl)) eq_refl).
        -- destruct (docs_of data) as [docs|e]; [|apply Hstop; reflexivity].
           apply (Hgo (store_response (page_key k i) body (log_request (page_url u i) s))
                    (records ++ docs) Hs (or_intror (ex_intro _ body eq_refl)) eq_refl).
      * cbn [fst]. rewrite failure_empty_str.
        apply (Hgo (add_warning (page_warning i) (log_request (page_url u i) s))
                 records Hs (or_introl eq_refl) eq_refl).
      * cbn [fst]. rewrite failure_empty_str.
        apply (Hgo (add_warning (page_warning i) (log_request (page_url u i) s))
                 records Hs (or_introl eq_refl) eq_refl).
Qed.

End Replay.

Section Claims.

Variable quote_plus : string -> string.
Variable json_loads : string -> option json.
Variable urlopen : nat -> string -> net_response.

Lemma run_query_eq (today : date) (query : string) (year_from year_to : option string)
    (max_records : Z) (s : state) :
  urlopen (length (requests s)) (probe_url quote_plus (_api_key s)) <> NetURLError ->
  exists s0 u,
    endpoint_and_key quote_plus (_api_key s) today query year_from year_to NYT_TEXT_FIELDS
    = Ok (u, query_key_of today query year_from year_to NYT_TEXT_FIELDS) /\
    ready s0 u (query_key_of today query year_from year_to NYT_TEXT_FIELDS) /\
    _api_key s0 = _api_key s /\
    query_cache s0 = query_cache s /\
    requests s0 = requests s ++ [probe_url quote_plus (_api_key s)] /\
    (exists valid,
       warnings s0 = warnings s ++ (if truthy valid then [] else [key_warning])
                                ++ (if max_records >? 1000 then [limit_warning] else [])) /\
    run_query quote_plus json_loads urlopen today query year_from year_to max_records s
    = match fetch_pages json_loads urlopen (range (num_steps max_records)) [] s0 with
      | Done fetched s1 =>
          lift (_generate_corpus (trim fetched max_records) NYT_TEXT_FIELDS) s1
      | Fail e s1 => Fail e s1
      end.
Proof.
  intros Hprobe.
  destruct (collect_records_prepare quote_plus json_loads urlopen today query
              year_from year_to max_records s Hprobe)
    as (s0 & u & valid & Heq & Hu & Hready & Hkey & Hcache & Hreq & _ & Hw).
  exists s0, u. repeat split; try assumption; try apply Hready.
  - exists valid. exact Hw.
  - unfold run_query. unfold bind at 1. rewrite Heq. unfold bind, ret.
    destruct (fetch_pages json_loads urlopen (range (num_steps max_records)) [] s0);
      reflexivity.
Qed.

Lemma run_query_unreachable (today : date) (query : string)
    (year_from year_to : option string) (max_records : Z) (s : state) :
  urlopen (length (requests s)) (probe_url quote_plus (_api_key s)) = NetURLError ->
  run_query quote_plus json_loads urlopen today query year_from year_to max_records s
  = Fail URLError (log_request (probe_url quote_plus (_api_key s)) s).
Proof.
  intros Hp. unfold run_query, collect_records. unfold bind at 1. unfold bind at 1.
  rewrite check_api_key_eq. cbn zeta. rewrite Hp. reflexivity.
Qed.

Lemma run_query_calm (today : date) (query : string) (year_from year_to : option string)
    (max_records : Z) (s : state) :
  urlopen (length (requests s)) (probe_url quote_plus (_api_key s)) <> NetURLError ->
  calm (run_query quote_plus json_loads urlopen today query year_from year_to
                  max_records s).
Proof.
  intros Hprobe.
  destruct (run_query_eq today query year_from year_to max_records s Hprobe)
    as (s0 & u & _ & _ & _ & _ & _ & _ & ->).
  destruct (fetch_pages_outcome json_loads urlopen (range (num_steps max_records)) [] s0)
    as (_ & Hcalm).
  destruct (fetch_pages json_loads urlopen (range (num_steps max_records)) [] s0)
    as [fetched s1|e s1]; [|exact Hcalm].
  apply calm_lift. apply quiet__generate_corpus.
Qed.

(** What a run leaves in the cache: what was there, and pages of its own
    query. *)
Lemma run_query_cache (today : date) (query : string) (year_from year_to : option string)
    (max_records : Z) (s : state) :
  let s1 := final_state (run_query quote_plus json_loads urlopen today query
                                   year_from year_to max_records s) in
  _api_key s1 = _api_key s /\
  query_cache s ⊆ query_cache s1 /\
  (forall key, query_cache s !! key = None -> is_Some (query_cache s1 !! key) ->
     exists i, In i (range (num_steps max_records)) /\
               key = page_key (query_key_of today query year_from year_to
                                            NYT_TEXT_FIELDS) i).
Proof.
  cbn zeta.
  assert (Hcases :
            urlopen (length (requests s)) (probe_url quote_plus (_api_key s)) = NetURLError
            \/ urlopen (length (requests s)) (probe_url quote_plus (_api_key s))
               <> NetURLError).
  { destruct (urlopen (length (requests s)) (probe_url quote_plus (_api_key s)));
      [right; discriminate|right; discriminate|left; reflexivity]. }
  destruct Hcases as [Hp|Hp].
  - rewrite (run_query_unreachable today query year_from year_to max_records s Hp).
    cbn [final_state]. split; [reflexivity|]. split; [reflexivity|].
    intros key Hnone Hsome. cbn [query_cache log_request] in Hsome.
    rewrite Hnone in Hsome. destruct Hsome; discriminate.
  - destruct (run_query_eq today query year_from year_to max_records s Hp)
      as (s0 & u & _ & (_ & _ & Hk) & Hkey & Hcache & _ & _ & ->).
    destruct (fetch_pages_outcome json_loads urlopen (range (num_steps max_records)) [] s0)
      as ((Ha & _ & _ & Hsub & Hnew) & _).
    assert (Hfinal : final_state
                (match fetch_pages json_loads urlopen (range (num_steps max_records)) [] s0
                 with
                 | Done fetched s1 =>
                     lift (_generate_corpus (trim fetched max_records) NYT_TEXT_FIELDS) s1
                 | Fail e s1 => Fail e s1
                 end)
              = final_state (fetch_pages json_loads urlopen
                               (range (num_steps max_records)) [] s0)).
    { destruct (fetch_pages json_loads urlopen (range (num_steps max_records)) [] s0)
        as [fetched s1|e s1]; [|reflexivity].
      unfold lift. destruct (_generate_corpus _ _); reflexivity. }
    rewrite Hfinal. rewrite Hcache in Hsub, Hnew. split; [|split].
    + congruence.
    + exact Hsub.
    + intros key Hnone Hsome. destruct (Hnew key Hnone Hsome) as (k & i & Hk' & Hi & ->).
      rewrite Hk in Hk'. injection Hk' as <-. exists i. split; [exact Hi|reflexivity].
Qed.

Lemma query_key_of_parts (today : date) (query : string)
    (year_from year_to : option string) (text_includes : list string) :
  query_key_of today query year_from year_to text_includes
  = start_key year_from +:+ "_" +:+ end_key today year_to +:+
    match (split " " query ++ text_includes)%list with
    | [] => ""
    | rest => "_" +:+ join "_" rest
    end.
Proof.
  unfold query_key_of. cbn [app]. rewrite join_two_more.
  destruct (split " " query ++ text_includes); reflexivity.
Qed.

(** Keys of two days never meet, whatever the page. *)
Lemma page_keys_of_two_days (d1 d2 : date) (query : string)
    (year_from year_to : option string) (text_includes : list string) (i j : nat) :
  year_given year_to = false -> valid_date d1 -> valid_date d2 -> d1 <> d2 ->
  page_key (query_key_of d1 query year_from year_to text_includes) i
  <> page_key (query_key_of d2 query year_from year_to text_includes) j.
Proof.
  intros Hyt Hv1 Hv2 Hne Heq. apply Hne.
  unfold page_key in Heq. rewrite !query_key_of_parts in Heq.
  unfold end_key in Heq. rewrite Hyt in Heq.
  rewrite !append_assoc in Heq.
  apply append_cancel_l in Heq. apply (append_cancel_l "_") in Heq.
  apply append_same_length in Heq; [|rewrite !date_digits_length; reflexivity].
  apply (date_digits_inj d1 d2 Hv1 Hv2). apply Heq.
Qed.

Lemma trim_nil (max_records : Z) : trim [] max_records = [].
Proof. unfold trim, slice_to. destruct (_ >? _); [apply take_nil|reflexivity]. Qed.

Lemma range_NoDup (n : Z) : List.NoDup (range n).
Proof. apply List.seq_NoDup. Qed.

(** A run that reaches the trimming step, taken apart. *)
Lemma collect_records_inv (today : date) (query : string)
    (year_from year_to : option string) (max_records : Z) (s s' : state)
    (records : list json) :
  collect_records quote_plus json_loads urlopen today query year_from year_to
                  max_records s = Done records s' ->
  exists s0 u fetched,
    ready s0 u (query_key_of today query year_from year_to NYT_TEXT_FIELDS) /\
    query_cache s0 = query_cache s /\
    requests s0 = requests s ++ [probe_url quote_plus (_api_key s)] /\
    fetch_pages json_loads urlopen (range (num_steps max_records)) [] s0
    = Done fetched s' /\
    records = trim fetched max_records.
Proof.
  intros H.
  assert (Hprobe : urlopen (length (requests s)) (probe_url quote_plus (_api_key s))
                   <> NetURLError).
  { intros Hp. unfold collect_records in H. unfold bind at 1 in H.
    rewrite check_api_key_eq in H. cbn zeta in H. rewrite Hp in H. discriminate H. }
  destruct (collect_records_prepare quote_plus json_loads urlopen today query
              year_from year_to max_records s Hprobe)
    as (s0 & u & valid & Heq & _ & Hready & _ & Hcache & Hreq & _).
  rewrite Heq in H. unfold bind, ret in H.
  destruct (fetch_pages json_loads urlopen (range (num_steps max_records)) [] s0)
    as [fetched s1|e s1] eqn:Hf; [|discriminate].
  injection H as <- <-. exists s0, u, fetched. repeat split; try assumption; apply Hready.
Qed.

(** C5. The loop runs over the pages 0 to c-1, where c is the ceiling of
    max_records/10, cut at 100 pages, and it does fetch them: it asks the
    network for each of these pages that is not in the cache, in this
    order and for no other page, up to the page at which it ends, which
    is the last one when it returns; the records it then hands on are
    the docs of these pages, page after page, cut by the trimming.  Above
    1000 records the limit warning is emitted and the loop still runs,
    over the pages 0 to 99.  (A run whose probe of the key raises URLError
    ends before the loop.) *)
Theorem paging_range (today : date) (query : string)
    (year_from year_to : option string) (max_records : Z) (s : state) :
  let probe := probe_url quote_plus (_api_key s) in
  let key := query_key_of today query year_from year_to NYT_TEXT_FIELDS in
  let run := collect_records quote_plus json_loads urlopen today query year_from year_to
                             max_records s in
  exists c,
    10 * (c - 1) < max_records <= 10 * c /\
    range (num_steps max_records) = seq 0 (Z.to_nat (Z.min c 100)) /\
    (max_records > 1000 -> seq 0 (Z.to_nat (Z.min c 100)) = seq 0 100) /\
    (max_records <= 1000 -> Z.min c 100 = c) /\
    (urlopen (length (requests s)) probe = NetURLError ->
     run = Fail URLError (log_request probe s)) /\
    (urlopen (length (requests s)) probe <> NetURLError ->
     exists s0 u m,
       endpoint_and_key quote_plus (_api_key s) today query year_from year_to
                        NYT_TEXT_FIELDS = Ok (u, key) /\
       run = bind (fetch_pages json_loads urlopen (seq 0 (Z.to_nat (Z.min c 100))) [])
                  (fun records => ret (trim records max_records)) s0 /\
       requests s0 = requests s ++ [probe] /\
       (max_records > 1000 -> last (warnings s0) = Some limit_warning) /\
       (m <= Z.to_nat (Z.min c 100))%nat /\
       requests (final_state run)
       = requests s0
         ++ map (page_url u)
                (filter (fun i => query_cache s !! page_key key i = None) (seq 0 m)) /\
       (forall records s', run = Done records s' ->
          m = Z.to_nat (Z.min c 100) /\
          records
          = trim (concat (map (page_docs json_loads (query_cache s') key)
                              (seq 0 (Z.to_nat (Z.min c 100)))))
                 max_records)).
Proof.
  intros probe key run.
  pose proof (ceil_tenth_spec max_records) as Hc.
  exists (ceil_tenth max_records).
  split; [exact Hc|]. split; [reflexivity|]. split; [|split; [|split]].
  - intros Hgt.
    replace (Z.to_nat (Z.min (ceil_tenth max_records) 100)) with 100%nat by lia.
    reflexivity.
  - intros Hle. lia.
  - intros Hdown. unfold run, collect_records. unfold bind at 1.
    rewrite check_api_key_eq. cbn zeta. fold probe. rewrite Hdown. reflexivity.
  - intros Hprobe.
    destruct (collect_records_prepare quote_plus json_loads urlopen today query
                year_from year_to max_records s Hprobe)
      as (s0 & u & valid & Heq & Hu & Hready & _ & Hcache & Hreq & _ & Hw).
    fold run in Heq. fold key in Hu, Hready. fold probe in Hreq.
    change (range (num_steps max_records))
      with (seq 0 (Z.to_nat (Z.min (ceil_tenth max_records) 100))) in Heq.
    destruct (fetch_pages_visits json_loads urlopen u key (query_cache s)
                (seq 0 (Z.to_nat (Z.min (ceil_tenth max_records) 100)))
                (List.seq_NoDup _ _) [] s0 Hready)
      as (m & Hle & Hvisits & Hdone).
    { intros j _. rewrite Hcache. reflexivity. }
    rewrite length_seq in Hle, Hdone.
    exists s0, u, m.
    split; [exact Hu|]. split; [exact Heq|]. split; [exact Hreq|].
    split; [|split; [exact Hle|split]].
    + intros Hgt. rewrite Hw.
      destruct (Z.gtb_spec max_records 1000) as [_|Hle']; [|lia].
      rewrite app_assoc. apply last_snoc.
    + rewrite Heq, final_state_bind_ret, Hvisits, take_seq.
      replace (m `min` Z.to_nat (Z.min (ceil_tenth max_records) 100))%nat with m by lia.
      reflexivity.
    + intros records s' Hrun. rewrite Heq in Hrun. unfold bind, ret in Hrun.
      destruct (fetch_pages json_loads urlopen
                  (seq 0 (Z.to_nat (Z.min (ceil_tenth max_records) 100))) [] s0)
        as [fetched s1|e s1] eqn:Hf; [|discriminate Hrun].
      injection Hrun as <- <-.
      split; [apply (Hdone fetched s1 eq_refl)|].
      rewrite (fetch_pages_records json_loads urlopen u key _ (List.seq_NoDup _ _)
                 [] fetched s0 s1 Hready Hf).
      reflexivity.
Qed.

(** C3, as the code has it.  Once the probe of the key has got an answer
    or an HTTPError, no transport error leaves [run_query]: whatever it
    raises is neither HTTPError nor URLError, and when every page fails in
    transport it returns the empty table with one warning for each page.
    (What it does raise comes from response content it does not expect.) *)
Theorem transport_errors_degrade (today : date) (query : string)
    (year_from year_to : option string) (max_records : Z) (s : state)
    (Hprobe : urlopen (length (requests s)) (probe_url quote_plus (_api_key s))
              <> NetURLError) :
  (forall e s',
     run_query quote_plus json_loads urlopen today query year_from year_to max_records s
     = Fail e s' -> e <> HTTPError /\ e <> URLError) /\
  ((forall u k n i,
      endpoint_and_key quote_plus (_api_key s) today query year_from year_to
                       NYT_TEXT_FIELDS = Ok (u, k) ->
      query_cache s !! page_key k i = None /\
      transport_error (urlopen n (page_url u i)) = true) ->
   exists s' valid,
     run_query quote_plus json_loads urlopen today query year_from year_to max_records s
     = Done {| metas := []; class_values := [] |} s' /\
     query_cache s' = query_cache s /\
     warnings s'
     = (warnings s ++ (if truthy valid then [] else [key_warning])
                   ++ (if max_records >? 1000 then [limit_warning] else []))
       ++ map page_warning (range (num_steps max_records))).
Proof.
  split.
  - intros e s' Hfail.
    pose proof (run_query_calm today query year_from year_to max_records s Hprobe) as Hc.
    rewrite Hfail in Hc. cbn [calm] in Hc.
    split; intros ->; discriminate Hc.
  - intros Hall.
    destruct (run_query_eq today query year_from year_to max_records s Hprobe)
      as (s0 & u & Hu & Hready & _ & Hcache & _ & (valid & Hw) & ->).
    rewrite (fetch_pages_all_fail json_loads urlopen u _ _ s0 [] Hready).
    + rewrite trim_nil.
      exists (fold_left (skip_page u) (range (num_steps max_records)) s0), valid.
      destruct (fold_skip_page u (range (num_steps max_records)) s0) as (Hc' & Hw' & _).
      split; [reflexivity|]. split; [congruence|]. rewrite Hw', Hw. reflexivity.
    + intros i _. rewrite Hcache. apply (Hall u _ 0%nat i Hu).
    + intros n i _. apply (Hall u _ n i Hu).
Qed.

(** C10. Without a valid end year the key that [_set_endpoint_url] stores
    has the digits of the current date as its second component, so the
    keys of two different days differ; a run leaves nothing in the cache
    under a key of another day, and a run of the later day asks the
    network for every page. *)
Theorem cache_key_embeds_today (d1 d2 : date) (query : string)
    (year_from year_to : option string) (max_records : Z) (s : state)
    (Hyear : year_given year_to = false)
    (Hd1 : valid_date d1) (Hd2 : valid_date d2) (Hdays : d1 <> d2) :
  let k1 := query_key_of d1 query year_from year_to NYT_TEXT_FIELDS in
  let k2 := query_key_of d2 query year_from year_to NYT_TEXT_FIELDS in
  query_key (final_state (_set_endpoint_url quote_plus d1 query year_from year_to
                                            NYT_TEXT_FIELDS s)) = Some k1 /\
  k1 = start_key year_from +:+ "_" +:+ date_digits d1 +:+ "_"
       +:+ join "_" (split " " query ++ NYT_TEXT_FIELDS) /\
  k1 <> k2 /\
  ((forall j, query_cache s !! page_key k2 j = None) ->
   let s1 := final_state (run_query quote_plus json_loads urlopen d1 query
                                    year_from year_to max_records s) in
   (forall j, query_cache s1 !! page_key k2 j = None) /\
   (forall records s2,
      collect_records quote_plus json_loads urlopen d2 query year_from year_to
                      max_records s1 = Done records s2 ->
      exists u,
        requests s2
        = requests s1 ++ probe_url quote_plus (_api_key s)
                         :: map (page_url u) (range (num_steps max_records)))).
Proof.
  intros k1 k2. split; [|split; [|split]].
  - destruct (_set_endpoint_url_done quote_plus d1 query year_from year_to
                NYT_TEXT_FIELDS s) as (u & _ & -> & _).
    reflexivity.
  - unfold k1. rewrite query_key_of_parts. unfold end_key. rewrite Hyear.
    destruct (split " " query ++ NYT_TEXT_FIELDS) eqn:Hl; [|reflexivity].
    destruct (split " " query); discriminate Hl.
  - intros Heq.
    apply (page_keys_of_two_days d1 d2 query year_from year_to NYT_TEXT_FIELDS
             0%nat 0%nat Hyear Hd1 Hd2 Hdays).
    fold k1 k2. rewrite Heq. reflexivity.
  - intros Hfree s1.
    destruct (run_query_cache d1 query year_from year_to max_records s)
      as (Hkey & Hsub & Hnew). fold s1 in Hkey, Hsub, Hnew.
    assert (Hfree1 : forall j, query_cache s1 !! page_key k2 j = None).
    { intros j. destruct (query_cache s1 !! page_key k2 j) as [body|] eqn:E; [|reflexivity].
      exfalso. destruct (Hnew (page_key k2 j) (Hfree j) (ex_intro _ body E))
        as (i & _ & Heq).
      apply (page_keys_of_two_days d1 d2 query year_from year_to NYT_TEXT_FIELDS
               i j Hyear Hd1 Hd2 Hdays).
      symmetry. exact Heq. }
    split; [exact Hfree1|].
    intros records s2 Hrun.
    destruct (collect_records_inv d2 query year_from year_to max_records s1 s2 records Hrun)
      as (s0 & u & fetched & Hready & Hcache & Hreq & Hfetch & _).
    exists u.
    rewrite (fetch_pages_all_miss json_loads urlopen u k2 _
               (range_NoDup (num_steps max_records)) [] fetched s0 s2 Hready).
    + rewrite Hreq, Hkey, <- app_assoc. reflexivity.
    + intros i _. rewrite Hcache. apply Hfree1.
    + exact Hfetch.
Qed.

(** C4, as the code has it.  When the first run returns and leaves every
    page of the query in the cache, a second run with the same parameters
    on the same day whose probe of the key gets an answer or an HTTPError
    returns the same output, asks the network only for that probe, and
    leaves the cache as it is.  The probe is made on every run and is
    never cached: when it raises URLError the second run raises URLError,
    although every page is in the cache.  If none of the pages was in the
    cache before, the first run asked for each page once, so the two runs
    together make one network call for each page. *)
Theorem second_run_served_from_cache (today : date) (query : string)
    (year_from year_to : option string) (max_records : Z) (s s1 : state) (c1 : Corpus)
    (Hfirst : run_query quote_plus json_loads urlopen today query year_from year_to
                        max_records s = Done c1 s1)
    (Hcached : forall i, In i (range (num_steps max_records)) ->
       is_Some (query_cache s1 !! page_key (query_key_of today query year_from year_to
                                                         NYT_TEXT_FIELDS) i)) :
  (urlopen (length (requests s1)) (probe_url quote_plus (_api_key s)) <> NetURLError ->
   exists s2,
     run_query quote_plus json_loads urlopen today query year_from year_to max_records s1
     = Done c1 s2 /\
     requests s2 = requests s1 ++ [probe_url quote_plus (_api_key s)] /\
     query_cache s2 = query_cache s1) /\
  (urlopen (length (requests s1)) (probe_url quote_plus (_api_key s)) = NetURLError ->
   run_query quote_plus json_loads urlopen today query year_from year_to max_records s1
   = Fail URLError (log_request (probe_url quote_plus (_api_key s)) s1)) /\
  ((forall i, In i (range (num_steps max_records)) ->
      query_cache s !! page_key (query_key_of today query year_from year_to
                                              NYT_TEXT_FIELDS) i = None) ->
   exists u,
     endpoint_and_key quote_plus (_api_key s) today query year_from year_to NYT_TEXT_FIELDS
     = Ok (u, query_key_of today query year_from year_to NYT_TEXT_FIELDS) /\
     requests s1
     = requests s ++ probe_url quote_plus (_api_key s)
                     :: map (page_url u) (range (num_steps max_records))).
Proof.
  assert (Hprobe1 : urlopen (length (requests s)) (probe_url quote_plus (_api_key s))
                    <> NetURLError).
  { intros Hp.
    rewrite (run_query_unreachable today query year_from year_to max_records s Hp)
      in Hfirst. discriminate Hfirst. }
  destruct (run_query_eq today query year_from year_to max_records s Hprobe1)
    as (s0 & u & Hu & Hready & Hkey & Hcache & Hreq & _ & Heq1).
  rewrite Heq1 in Hfirst.
  destruct (fetch_pages json_loads urlopen (range (num_steps max_records)) [] s0)
    as [fetched s1'|e s1'] eqn:Hfetch; [|discriminate Hfirst].
  unfold lift in Hfirst.
  destruct (_generate_corpus (trim fetched max_records) NYT_TEXT_FIELDS)
    as [c|e] eqn:Hgen; [|discriminate Hfirst].
  injection Hfirst as -> ->.
  assert (Hkey1 : _api_key s1 = _api_key s).
  { apply fetch_pages_done_grows in Hfetch. destruct Hfetch as (Ha & _). congruence. }
  split; [|split].
  - intros Hprobe. rewrite <- Hkey1 in Hprobe.
    destruct (run_query_eq today query year_from year_to max_records s1 Hprobe)
      as (t0 & u' & Hu' & Hready' & _ & Hcache' & Hreq' & _ & Heq2).
    rewrite Hkey1, Hu in Hu'. injection Hu' as <-.
    destruct (fetch_replay json_loads urlopen u _ _
                (range_NoDup (num_steps max_records))
                [] fetched s0 s1 t0 Hready Hready' Hfetch Hcached)
      as (t' & Hfetch2 & Hreq2 & Hcache2).
    { rewrite Hcache'. reflexivity. }
    exists t'. rewrite Heq2, Hfetch2. unfold lift. rewrite Hgen.
    split; [reflexivity|]. split; [|congruence].
    rewrite Hreq2, Hreq', Hkey1. reflexivity.
  - intros Hdown. rewrite <- Hkey1 in Hdown |- *.
    apply (run_query_unreachable today query year_from year_to max_records s1 Hdown).
  - intros Hfree. exists u. split; [exact Hu|].
    rewrite (fetch_pages_all_miss json_loads urlopen u _ _
               (range_NoDup (num_steps max_records)) [] fetched s0 s1 Hready).
    + rewrite Hreq, <- app_assoc. reflexivity.
    + intros i Hi. rewrite Hcache. apply Hfree. exact Hi.
    + exact Hfetch.
Qed.

End Claims.

(** ** The claims on the sample worlds *)

Lemma transport_error_skips_page_witness :
  exists s',
    fetch_pages sample_loads pages_down_net [0; 1]%nat [] prepared = Done [] s' /\
    warnings s' = warnings prepared ++ map page_warning [0; 1]%nat /\
    query_cache s' = query_cache prepared.
Proof.
  refine (proj2 (transport_error_skips_page sample_loads pages_down_net prepared
                   sample_endpoint sample_key _) [0; 1]%nat _ _).
  - repeat split; vm_compute; reflexivity.
  - intros i _. apply lookup_empty.
  - intros n i _. reflexivity.
Defined.

Lemma paging_range_witness :
  requests (final_state (collect_records sample_quote_plus sample_loads sample_net
                           sample_day "obama" None None 15 fresh))
  = [probe_url sample_quote_plus "key"; page_url sample_endpoint 0;
     page_url sample_endpoint 1] /\
  let probe := probe_url sample_quote_plus (_api_key fresh) in
  let key := query_key_of sample_day "obama" None None NYT_TEXT_FIELDS in
  let run := collect_records sample_quote_plus sample_loads sample_net sample_day "obama"
                             None None 15 fresh in
  exists c,
    10 * (c - 1) < 15 <= 10 * c /\
    range (num_steps 15) = seq 0 (Z.to_nat (Z.min c 100)) /\
    (15 > 1000 -> seq 0 (Z.to_nat (Z.min c 100)) = seq 0 100) /\
    (15 <= 1000 -> Z.min c 100 = c) /\
    (sample_net (length (requests fresh)) probe = NetURLError ->
     run = Fail URLError (log_request probe fresh)) /\
    (sample_net (length (requests fresh)) probe <> NetURLError ->
     exists s0 u m,
       endpoint_and_key sample_quote_plus (_api_key fresh) sample_day "obama" None None
                        NYT_TEXT_FIELDS = Ok (u, key) /\
       run = bind (fetch_pages sample_loads sample_net (seq 0 (Z.to_nat (Z.min c 100))) [])
                  (fun records => ret (trim records 15)) s0 /\
       requests s0 = requests fresh ++ [probe] /\
       (15 > 1000 -> last (warnings s0) = Some limit_warning) /\
       (m <= Z.to_nat (Z.min c 100))%nat /\
       requests (final_state run)
       = requests s0
         ++ map (page_url u)
                (filter (fun i => query_cache fresh !! page_key key i = None) (seq 0 m)) /\
       (forall records s', run = Done records s' ->
          m = Z.to_nat (Z.min c 100) /\
          records
          = trim (concat (map (page_docs sample_loads (query_cache s') key)
                              (seq 0 (Z.to_nat (Z.min c 100)))))
                 15)).
Proof.
  split; [vm_compute; reflexivity|].
  apply (paging_range sample_quote_plus sample_loads sample_net sample_day "obama"
           None None 15 fresh).
Defined.

Lemma transport_errors_degrade_witness :
  exists s' valid,
    run_query sample_quote_plus sample_loads pages_down_net sample_day "obama"
              None None 20 fresh
    = Done {| metas := []; class_values := [] |} s' /\
    query_cache s' = query_cache fresh /\
    warnings s'
    = (warnings fresh ++ (if truthy valid then [] else [key_warning])
                      ++ (if 20 >? 1000 then [limit_warning] else []))
      ++ map page_warning (range (num_steps 20)).
Proof.
  refine (proj2 (transport_errors_degrade sample_quote_plus sample_loads pages_down_net
                   sample_day "obama" None None 20 fresh _) _).
  - vm_compute. discriminate.
  - intros u k n i H. vm_compute in H. injection H as <- <-.
    split; [apply lookup_empty|reflexivity].
Defined.

(** The claim as the spec words it fails: a page whose article has no
    "keywords" makes [run_query] raise [KeyError]. *)
Lemma missing_keywords_raises :
  exists s',
    run_query sample_quote_plus sample_loads no_keywords_net sample_day "obama"
              None None 10 fresh
    = Fail KeyError s'.
Proof. eexists. vm_compute. reflexivity. Qed.

Lemma cache_key_embeds_today_witness :
  query_key_of sample_day "obama" None None NYT_TEXT_FIELDS
  = "18510101_20150601_obama_headline_lead_paragraph_snippet_abstract_keywords" /\
  query_key_of sample_day "obama" None None NYT_TEXT_FIELDS
  <> query_key_of next_day "obama" None None NYT_TEXT_FIELDS.
Proof.
  split; [vm_compute; reflexivity|].
  refine (proj1 (proj2 (proj2 (cache_key_embeds_today sample_quote_plus sample_loads
            sample_net sample_day next_day "obama" None None 10 fresh eq_refl _ _ _)))).
  - unfold valid_date. cbn [year month day sample_day]. lia.
  - unfold valid_date. cbn [year month day next_day]. lia.
  - discriminate.
Defined.

Lemma second_run_served_from_cache_witness :
  first_run = Done sample_corpus (final_state first_run) /\
  exists s2,
    run_query sample_quote_plus sample_loads sample_net sample_day "obama" None None 10
              (final_state first_run)
    = Done sample_corpus s2 /\
    requests s2
    = requests (final_state first_run) ++ [probe_url sample_quote_plus (_api_key fresh)] /\
    query_cache s2 = query_cache (final_state first_run).
Proof.
  assert (Hfirst : first_run = Done sample_corpus (final_state first_run))
    by (vm_compute; reflexivity).
  split; [exact Hfirst|].
  refine (proj1 (second_run_served_from_cache sample_quote_plus sample_loads sample_net
                   sample_day "obama" None None 10 fresh (final_state first_run)
                   sample_corpus Hfirst _) _).
  - intros i Hi. vm_compute in Hi. destruct Hi as [<-|[]]. vm_compute. eauto.
  - vm_compute. discriminate.
Defined.

(** The claim as the spec words it fails: while the pages cannot be
    reached nothing is cached, and the second run asks the network for
    page 0 again, so that page costs two network calls. *)
Lemma failed_page_requested_again :
  first_run_down = Done {| metas := []; class_values := [] |} (final_state first_run_down) /\
  second_run_down = Done {| metas := []; class_values := [] |} (final_state second_run_down) /\
  query_cache (final_state first_run_down) = ∅ /\
  List.count_occ String.string_dec (requests (final_state second_run_down))
                 (page_url sample_endpoint 0) = 2%nat.
Proof. repeat split; vm_compute; reflexivity. Qed.

(** ** More about the flattener *)

Lemma empty_to_None_not_empty (v : json) : empty_to_None v <> JStr "".
Proof.
  unfold empty_to_None. destruct v as [| | |s| |]; cbn [py_eq_str]; try discriminate.
  destruct (String.eqb_spec s ""); [discriminate|congruence].
Qed.

Lemma parse_doc_inv (doc : json) (fields : list string) (row : list json) (label : json) :
  parse_doc doc fields = Ok (row, label) ->
  exists texts pub_date loc,
    text_fields doc fields = Ok texts /\
    py_get doc "pub_date" (JStr "") = Ok pub_date /\
    glocation doc = Ok loc /\
    py_get doc "section_name" None_ = Ok label /\
    row = map empty_to_None (texts ++ [pub_date; loc]).
Proof.
  unfold parse_doc. intros H.
  destruct (text_fields doc fields) as [texts|]; [|discriminate]. cbn [rbind] in H.
  destruct (py_get doc "pub_date" (JStr "")) as [pub_date|]; [|discriminate].
  cbn [rbind] in H.
  destruct (glocation doc) as [loc|]; [|discriminate]. cbn [rbind] in H.
  destruct (py_get doc "section_name" None_) as [section|]; [|discriminate].
  cbn [rbind] in H. injection H as <- <-.
  exists texts, pub_date, loc. repeat split.
Qed.

Lemma parse_loop_shape (ncols : nat) (fields : list string) (records : list json) :
  forall metadata class_values metadata' class_values',
  parse_loop ncols records fields metadata class_values = Ok (metadata', class_values') ->
  length metadata' = (length metadata + length records)%nat /\
  length class_values' = (length class_values + length records)%nat /\
  (List.Forall (table_row ncols) metadata -> List.Forall (table_row ncols) metadata').
Proof.
  induction records as [|doc records IH];
    intros metadata class_values metadata' class_values' H.
  - cbn [parse_loop] in H. injection H as <- <-. cbn [length]. repeat split; [lia|lia|auto].
  - cbn [parse_loop] in H.
    destruct (parse_doc doc fields) as [[row label]|] eqn:Hdoc; [|discriminate].
    cbn [rbind fst snd] in H. unfold vstack in H.
    destruct (Nat.eqb_spec (length row) ncols) as [Hlen|_]; [|discriminate].
    cbn [rbind] in H. apply IH in H as (Hm & Hc & Hrows).
    rewrite length_app in Hm, Hc. cbn [length] in *.
    split; [lia|]. split; [lia|]. intros Hall. apply Hrows.
    apply List.Forall_app. split; [exact Hall|]. constructor; [|constructor].
    split; [exact Hlen|].
    destruct (parse_doc_inv doc fields row label Hdoc) as (texts & pd & loc & _ & _ & _ & _ & ->).
    apply List.Forall_map. apply List.Forall_forall. intros v _.
    apply empty_to_None_not_empty.
Qed.



(** A record without "keywords" never yields a row: once its text fields
    are read, [doc["keywords"]] raises [KeyError], and so does the whole
    of [_parse_record_json], whatever the other records are. *)
Theorem record_without_keywords_is_fatal (d : list (string * json))
    (records : list json) (includes_metadata : list string) (texts : list json) :
  dict_get "keywords" d = None ->
  text_fields (JDict d) includes_metadata = Ok texts ->
  parse_doc (JDict d) includes_metadata = Raise KeyError /\
  _parse_record_json (JDict d :: records) includes_metadata = Raise KeyError.
Proof.
  intros Hk Ht.
  assert (Hdoc : parse_doc (JDict d) includes_metadata = Raise KeyError).
  { unfold parse_doc. rewrite Ht. cbn [rbind py_get]. unfold glocation.
    cbn [py_getitem]. rewrite Hk. reflexivity. }
  split; [exact Hdoc|].
  unfold _parse_record_json. cbn [parse_loop]. rewrite Hdoc. reflexivity.
Qed.

Lemma record_without_keywords_is_fatal_witness :
  parse_doc record_without_keywords ["headline"; "snippet"] = Raise KeyError /\
  _parse_record_json [record_without_keywords; article "Floods" "Iowa"]
                     ["headline"; "snippet"] = Raise KeyError.
Proof.
  refine (record_without_keywords_is_fatal
            (match record_without_keywords with JDict d => d | _ => [] end)
            [article "Floods" "Iowa"] ["headline"; "snippet"]
            [JStr "Budget Talks"; JStr "The talks resumed."] eq_refl eq_refl).
Defined.

(** A record may lack "pub_date" and "section_name": the date column then
    holds [None] and the class value is [None].  When they are there, the
    class value is the section as it is and the date column is the date,
    the empty string turned into [None]. *)
Theorem date_and_section_are_optional (d : list (string * json))
    (includes_metadata : list string) (row : list json) (label : json) :
  parse_doc (JDict d) includes_metadata = Ok (row, label) ->
  label = default None_ (dict_get "section_name" d) /\
  exists texts loc,
    text_fields (JDict d) includes_metadata = Ok texts /\
    row = map empty_to_None texts
          ++ [empty_to_None (default (JStr "") (dict_get "pub_date" d)); loc] /\
    (dict_get "pub_date" d = None ->
     row = map empty_to_None texts ++ [None_; loc]).
Proof.
  intros H.
  destruct (parse_doc_inv (JDict d) includes_metadata row label H)
    as (texts & pd & loc & Ht & Hpd & _ & Hsec & ->).
  cbn [py_get] in Hpd, Hsec. injection Hpd as <-. injection Hsec as <-.
  split; [reflexivity|]. exists texts, (empty_to_None loc).
  split; [exact Ht|]. rewrite map_app. cbn [map]. split; [reflexivity|].
  intros ->. reflexivity.
Qed.

Lemma date_and_section_are_optional_witness :
  parse_doc (JDict [("snippet", JStr "The talks resumed."); ("keywords", JList [])])
            ["snippet"]
  = Ok ([JStr "The talks resumed."; None_; None_], None_) /\
  None_ = default None_ (dict_get "section_name"
            [("snippet", JStr "The talks resumed."); ("keywords", JList [])]).
Proof.
  split; [reflexivity|].
  refine (proj1 (date_and_section_are_optional
                   [("snippet", JStr "The talks resumed."); ("keywords", JList [])]
                   ["snippet"] [JStr "The talks resumed."; None_; None_] None_ eq_refl)).
Defined.

Lemma glocation_values_empty_object (kws : list json) :
  In (JDict []) kws -> raises (glocation_values kws).
Proof.
  induction kws as [|kw kws IH]; intros Hin; [destruct Hin|].
  cbn [glocation_values].
  destruct (py_getitem kw "name") as [name|e] eqn:Hname; [|exists e; reflexivity].
  cbn [rbind]. destruct Hin as [->|Hin]; [discriminate Hname|].
  destruct (IH Hin) as (e & He).
  destruct (py_eq_str name "glocations").
  - destruct (py_getitem kw "value") as [v|e']; [|exists e'; reflexivity].
    cbn [rbind]. rewrite He. exists e. reflexivity.
  - exists e. exact He.
Qed.

(** An empty object among the keywords is skipped by the text column of
    the keywords and is fatal for the location column: the text column
    filters the falsy entries out, the location column subscripts every
    entry with "name". *)
Theorem empty_keyword_object (d : list (string * json)) (before after : list json)
    (includes_metadata : list string) :
  dict_get "keywords" d = Some (JList (before ++ JDict [] :: after)) ->
  field_value (JList (before ++ JDict [] :: after))
  = field_value (JList (before ++ after)) /\
  raises (glocation (JDict d)) /\
  raises (parse_doc (JDict d) includes_metadata).
Proof.
  intros Hk.
  assert (Hg : raises (glocation (JDict d))).
  { unfold glocation. cbn [py_getitem]. rewrite Hk. cbn [rbind py_iter].
    destruct (glocation_values_empty_object (before ++ JDict [] :: after)) as (e & ->).
    - apply in_or_app. right. left. reflexivity.
    - exists e. reflexivity. }
  split; [|split; [exact Hg|]].
  - cbn [field_value]. rewrite !filter_app, filter_cons.
    destruct (decide (truthy (JDict []) = true)) as [Ht|_]; [discriminate Ht|].
    reflexivity.
  - unfold parse_doc.
    destruct (text_fields (JDict d) includes_metadata) as [texts|e];
      [|exists e; reflexivity].
    cbn [rbind py_get]. destruct Hg as (e & ->). exists e. reflexivity.
Qed.

Lemma empty_keyword_object_witness :
  field_value (JList [keyword "subject" "Budgets"; JDict []; keyword "subject" "Taxes"])
  = field_value (JList [keyword "subject" "Budgets"; keyword "subject" "Taxes"]) /\
  raises (parse_doc (JDict [("keywords", JList [keyword "subject" "Budgets"; JDict [];
                                                 keyword "subject" "Taxes"])])
                    ["keywords"]).
Proof.
  split.
  - refine (proj1 (empty_keyword_object
              [("keywords", JList [keyword "subject" "Budgets"; JDict [];
                                   keyword "subject" "Taxes"])]
              [keyword "subject" "Budgets"] [keyword "subject" "Taxes"]
              ["keywords"] eq_refl)).
  - refine (proj2 (proj2 (empty_keyword_object
              [("keywords", JList [keyword "subject" "Budgets"; JDict [];
                                   keyword "subject" "Taxes"])]
              [keyword "subject" "Budgets"] [keyword "subject" "Taxes"]
              ["keywords"] eq_refl))).
Defined.

(** ** More about dates, keys and endpoints *)

Lemma digit_is_digit (n : nat) : is_digit (digit n) = true.
Proof.
  unfold digit, chr.
  assert (Hlt : (n mod 10 < 10)%nat) by (apply Nat.mod_upper_bound; discriminate).
  remember (n mod 10)%nat as k eqn:Hk. clear Hk.
  do 10 (destruct k as [|k]; [reflexivity|]). lia.
Qed.

(** [_date_to_str] never raises on a date of the class (years 1 to 9999,
    where [isoformat] is YYYY-MM-DD): the three parts it subscripts are
    there, and the result is eight decimal digits. *)
Theorem _date_to_str_eight_digits (d : date) :
  valid_date d ->
  exists s,
    _date_to_str d = Ok s /\
    String.length s = 8%nat /\
    all_chars is_digit s = true /\
    isdigit s = true.
Proof.
  intros _. exists (date_digits d). split; [apply _date_to_str_digits|].
  split; [reflexivity|].
  assert (Hall : all_chars is_digit (date_digits d) = true).
  { unfold date_digits, digits4, digits2. cbn [String.append all_chars].
    rewrite !digit_is_digit. reflexivity. }
  split; [exact Hall|]. unfold isdigit. rewrite Hall. reflexivity.
Qed.

Lemma _date_to_str_eight_digits_witness :
  exists s,
    _date_to_str {| year := 2020; month := 3; day := 5 |} = Ok s /\
    String.length s = 8%nat /\
    all_chars is_digit s = true /\
    isdigit s = true.
Proof.
  apply (_date_to_str_eight_digits {| year := 2020; month := 3; day := 5 |}).
  unfold valid_date. cbn [year month day]. lia.
Defined.

(** Two different days never have the same string. *)
Theorem _date_to_str_injective (d1 d2 : date) :
  valid_date d1 -> valid_date d2 -> d1 <> d2 -> _date_to_str d1 <> _date_to_str d2.
Proof.
  intros H1 H2 Hne Heq. rewrite !_date_to_str_digits in Heq.
  apply Hne. apply (date_digits_inj d1 d2 H1 H2). congruence.
Qed.

Lemma _date_to_str_injective_witness :
  _date_to_str sample_day = Ok "20150601" /\
  _date_to_str sample_day <> _date_to_str next_day.
Proof.
  split; [reflexivity|].
  apply (_date_to_str_injective sample_day next_day).
  - unfold valid_date. cbn [year month day sample_day]. lia.
  - unfold valid_date. cbn [year month day next_day]. lia.
  - discriminate.
Defined.

Lemma split_nonempty (sep : ascii) (s : string) : split sep s <> [].
Proof.
  destruct s as [|c s]; cbn [split]; [discriminate|].
  destruct (Ascii.eqb c sep); [discriminate|].
  destruct (split sep s); discriminate.
Qed.

Lemma join_cons_more (sep x : string) (l : list string) :
  l <> [] -> join sep (x :: l) = x +:+ sep +:+ join sep l.
Proof. destruct l; [contradiction|reflexivity]. Qed.

Lemma join_cons_char (sep : string) (c : ascii) (w : string) (ws : list string) :
  join sep (String c w :: ws) = String c (join sep (w :: ws)).
Proof. destruct ws; reflexivity. Qed.

Lemma join_app (sep : string) (l1 l2 : list string) :
  l1 <> [] -> l2 <> [] ->
  join sep (l1 ++ l2) = join sep l1 +:+ sep +:+ join sep l2.
Proof.
  induction l1 as [|x l1 IH]; intros H1 H2; [contradiction|].
  destruct l1 as [|y l1].
  - cbn [app]. apply join_cons_more. exact H2.
  - change ((x :: y :: l1) ++ l2) with (x :: ((y :: l1) ++ l2)).
    rewrite join_cons_more by discriminate.
    rewrite IH by (discriminate || exact H2).
    rewrite (join_cons_more sep x (y :: l1)) by discriminate.
    rewrite !append_assoc. reflexivity.
Qed.

(** Splitting at the spaces and joining with underscores turns every space
    into an underscore and nothing else. *)
Lemma join_split_underscore (query : string) :
  join "_" (split " " query) = underscore query.
Proof.
  induction query as [|c query IH]; [reflexivity|].
  cbn [split underscore].
  destruct (Ascii.eqb c " ").
  - rewrite join_cons_more by apply split_nonempty. rewrite IH. reflexivity.
  - destruct (split " " query) as [|w ws] eqn:Hs; [destruct (split_nonempty _ _ Hs)|].
    rewrite join_cons_char, IH. reflexivity.
Qed.

Lemma query_key_of_underscore (today : date) (query : string)
    (year_from year_to : option string) (text_includes : list string) :
  query_key_of today query year_from year_to text_includes
  = start_key year_from +:+ "_" +:+ end_key today year_to +:+ "_" +:+ underscore query
    +:+ match text_includes with
        | [] => ""
        | _ => "_" +:+ join "_" text_includes
        end.
Proof.
  unfold query_key_of. cbn [app]. rewrite join_two_more.
  destruct (split " " query ++ text_includes) as [|x l] eqn:Hl.
  { destruct (split " " query) eqn:Hs; [destruct (split_nonempty _ _ Hs)|discriminate Hl]. }
  rewrite <- Hl. clear x l Hl.
  destruct text_includes as [|f fs].
  - rewrite app_nil_r, join_split_underscore.
    f_equal. f_equal. f_equal. f_equal.
    induction (underscore query) as [|c w IHw]; [reflexivity|].
    cbn [String.append]. f_equal. exact IHw.
  - rewrite join_app by (apply split_nonempty || discriminate).
    rewrite join_split_underscore. rewrite ?append_assoc. reflexivity.
Qed.

(** The guard of the loop and the subscripts behind it.  When the
    "response" of a page is a dict, a page that passes the guard has its
    "docs", and the loop extends the records by iterating over them.  When
    the "response" is a string that mentions docs, the page passes the
    guard as well, and the subscript behind it raises [TypeError]. *)
Theorem docs_guard (d : list (string * json)) :
  (forall r, dict_get "response" d = Some (JDict r) ->
     failure (JDict d) = Ok false ->
     exists docs, dict_get "docs" r = Some docs /\ docs_of (JDict d) = py_iter docs) /\
  (forall s, dict_get "response" d = Some (JStr s) ->
     is_substring "docs" s = true ->
     failure (JDict d) = Ok false /\ docs_of (JDict d) = Raise TypeError).
Proof.
  split.
  - intros r Hr Hf. unfold failure in Hf.
    cbn [py_in rbind py_getitem negb] in Hf. rewrite Hr in Hf.
    cbn [py_in rbind py_getitem negb] in Hf. rewrite ?Hr in Hf.
    cbn [py_in rbind py_getitem negb] in Hf.
    unfold docs_of. cbn [py_getitem]. rewrite Hr. cbn [rbind py_getitem].
    destruct (dict_get "docs" r) as [docs|]; [|discriminate Hf].
    exists docs. split; reflexivity.
  - intros s Hr Hs. unfold failure, docs_of. cbn [py_in rbind py_getitem negb].
    rewrite Hr. cbn [py_in rbind py_getitem negb]. rewrite ?Hr.
    cbn [py_in rbind py_getitem negb]. rewrite Hs. split; reflexivity.
Qed.

Lemma docs_guard_witness :
  (exists docs,
     dict_get "docs" [("docs", JList [article "Floods" "Iowa"])] = Some docs /\
     docs_of (page_of [article "Floods" "Iowa"]) = py_iter docs) /\
  failure (JDict [("response", JStr "no docs found")]) = Ok false /\
  docs_of (JDict [("response", JStr "no docs found")]) = Raise TypeError.
Proof.
  split.
  - refine (proj1 (docs_guard [("status", JStr "OK");
                               ("response", JDict [("docs", JList [article "Floods" "Iowa"])])])
                  [("docs", JList [article "Floods" "Iowa"])] eq_refl eq_refl).
  - refine (proj2 (docs_guard [("response", JStr "no docs found")])
                  "no docs found" eq_refl eq_refl).
Defined.

(** ** More about the query builder, the cache and the run *)

Section More.

Variable quote_plus : string -> string.
Variable json_loads : string -> option json.
Variable urlopen : nat -> string -> net_response.

Lemma isdigit_year_given (y : string) : isdigit y = true -> year_given (Some y) = true.
Proof.
  intros H. unfold year_given. rewrite H.
  unfold isdigit in H. apply andb_prop in H as [-> _]. reflexivity.
Qed.

Lemma endpoint_and_key_form (api_key : string) (today : date) (query : string)
    (year_from year_to : option string) (text_includes : list string) :
  exists rest,
    endpoint_and_key quote_plus api_key today query year_from year_to text_includes
    = Ok (_base_url +:+ "?" +:+ urlencode_query quote_plus api_key query +:+ rest,
          query_key_of today query year_from year_to text_includes).
Proof.
  unfold endpoint_and_key, query_key_of, start_key, end_key.
  rewrite !_date_to_str_digits. cbn [rbind].
  destruct (year_given year_from), (year_given year_to), text_includes as [|f fs];
    try destruct (existsb (String.eqb "keywords") (f :: fs));
    cbn [existsb]; eexists; apply f_equal; apply f_equal2;
    try reflexivity; rewrite ?append_assoc; reflexivity.
Qed.

(** [_set_endpoint_url] raises on the types of its arguments only, and
    before it changes anything: [AttributeError] for a year that is an int
    other than 0 (the type the docstring of [run_query] gives), [TypeError]
    for its own default [text_includes=None].  Called with years that are
    [None], strs or 0 and with a list of fields it never raises and
    touches neither the cache nor the network nor the warnings: it stores
    an endpoint that starts with the base url and the encoded query, and
    the key. *)
Theorem _set_endpoint_url_raises_on_types (today : date) (query : string)
    (year_from year_to : year_arg) (text_includes : option (list string)) (s : state) :
  let call := _set_endpoint_url_call quote_plus today query year_from year_to
                                     text_includes s in
  ((exists z, z <> 0 /\ (year_from = YInt z \/ year_to = YInt z)) ->
   call = Fail AttributeError s) /\
  (forall yf yt, year_of year_from = Ok yf -> year_of year_to = Ok yt ->
     (text_includes = None -> call = Fail TypeError s) /\
     (forall fields, text_includes = Some fields ->
        exists s' rest,
          call = Done tt s' /\
          _query_url s'
          = Some (_base_url +:+ "?" +:+ urlencode_query quote_plus (_api_key s) query
                  +:+ rest) /\
          query_key s' = Some (query_key_of today query yf yt fields) /\
          _api_key s' = _api_key s /\
          query_cache s' = query_cache s /\
          requests s' = requests s /\
          warnings s' = warnings s)).
Proof.
  intros call. split.
  - intros (z & Hz & [->| ->]); unfold call, _set_endpoint_url_call, bind, lift.
    + cbn [year_of]. destruct (Z.eqb_spec z 0) as [|_]; [contradiction|reflexivity].
    + destruct (year_of year_from) as [yf|e] eqn:Hyf.
      * cbn [year_of]. destruct (Z.eqb_spec z 0) as [|_]; [contradiction|reflexivity].
      * destruct year_from as [|y|z']; try discriminate Hyf.
        cbn [year_of] in Hyf. destruct (z' =? 0); [discriminate Hyf|].
        injection Hyf as <-. reflexivity.
  - intros yf yt Hyf Hyt. unfold call, _set_endpoint_url_call, bind, lift.
    rewrite Hyf, Hyt. split.
    + intros ->. reflexivity.
    + intros fields ->.
      destruct (endpoint_and_key_form (_api_key s) today query yf yt fields)
        as (rest & Hrest).
      eexists. exists rest. unfold _set_endpoint_url. rewrite Hrest.
      repeat split.
Qed.

(** Years made of digits bound the query: the endpoint gets begin_date and
    end_date, the key starts with the two bounds, and neither the endpoint
    nor the key depends on the day of the call. *)
Theorem valid_years_bound_the_query (api_key : string) (today : date) (query : string)
    (y1 y2 : string) (text_includes : list string) :
  isdigit y1 = true -> isdigit y2 = true ->
  (exists rest,
     endpoint_and_key quote_plus api_key today query (Some y1) (Some y2) text_includes
     = Ok (_base_url +:+ "?" +:+ urlencode_query quote_plus api_key query
           +:+ "&begin_date=" +:+ y1 +:+ "0101"
           +:+ "&end_date=" +:+ y2 +:+ "1231" +:+ rest,
           join "_" ([y1 +:+ "0101"; y2 +:+ "1231"] ++ split " " query ++ text_includes))) /\
  (forall another_day,
     endpoint_and_key quote_plus api_key another_day query (Some y1) (Some y2) text_includes
     = endpoint_and_key quote_plus api_key today query (Some y1) (Some y2) text_includes).
Proof.
  intros H1 H2. apply isdigit_year_given in H1, H2.
  split.
  - unfold endpoint_and_key. rewrite !_date_to_str_digits, H1, H2. cbn [rbind default].
    destruct text_includes as [|f fs];
      try destruct (existsb (String.eqb "keywords") (f :: fs));
      cbn [existsb]; eexists; apply f_equal; apply f_equal2;
      try reflexivity; rewrite ?append_assoc; reflexivity.
  - intros another_day. unfold endpoint_and_key.
    rewrite !_date_to_str_digits, H1, H2. reflexivity.
Qed.

(** The key of a query keeps its words only as they are once joined with
    underscores: two queries that differ by spaces against underscores
    have the same key, and a page stored for one of them is what
    [_execute_query] returns for the other, without a request. *)
Theorem queries_share_cache_entries (today : date) (query1 query2 : string)
    (year_from year_to : option string) (text_includes : list string)
    (s : state) (i : nat) (body : string) (data : json) :
  underscore query1 = underscore query2 ->
  query_cache s !! page_key (query_key_of today query1 year_from year_to text_includes) i
  = Some body ->
  json_loads body = Some data ->
  query_key_of today query1 year_from year_to text_includes
  = query_key_of today query2 year_from year_to text_includes /\
  bind (_set_endpoint_url quote_plus today query2 year_from year_to text_includes)
       (fun _ => _execute_query json_loads urlopen i) s
  = Done (data, true, None)
         (final_state (_set_endpoint_url quote_plus today query2 year_from year_to
                                         text_includes s)).
Proof.
  intros Hu Hlook Hdata.
  assert (Hkey : query_key_of today query1 year_from year_to text_includes
                 = query_key_of today query2 year_from year_to text_includes).
  { rewrite !query_key_of_underscore, Hu. reflexivity. }
  split; [exact Hkey|].
  destruct (_set_endpoint_url_done quote_plus today query2 year_from year_to
              text_includes s) as (u & _ & Hset & Hready).
  unfold bind. rewrite Hset. cbn [final_state].
  rewrite (_execute_query_ready json_loads urlopen _ u _ i Hready).
  unfold page_outcome. cbn [query_cache set_query].
  rewrite <- Hkey, Hlook, Hdata. reflexivity.
Qed.

(** A page that [_execute_query] returned without a transport error is in
    the cache afterwards: asking for it again gives the same data, flagged
    as cached, and changes nothing; the first call asked the network at
    most once. *)
Theorem page_fetched_once (s s1 : state) (u k : string) (i : nat)
    (data : json) (cached : bool) :
  ready s u k ->
  _execute_query json_loads urlopen i s = Done (data, cached, None) s1 ->
  _execute_query json_loads urlopen i s1 = Done (data, true, None) s1 /\
  (cached = true -> s1 = s) /\
  (cached = false ->
   requests s1 = requests s ++ [page_url u i] /\
   query_cache s !! page_key k i = None).
Proof.
  intros Hready H.
  rewrite (_execute_query_ready json_loads urlopen s u k i Hready) in H.
  unfold page_outcome in H.
  destruct (query_cache s !! page_key k i) as [body|] eqn:Hlook.
  - destruct (json_loads body) as [d|] eqn:Hd; [|discriminate H].
    injection H as Hdata Hcached Hstate. subst d cached s1.
    split; [|split; [reflexivity|discriminate]].
    rewrite (_execute_query_ready json_loads urlopen s u k i Hready).
    unfold page_outcome. rewrite Hlook, Hd. reflexivity.
  - destruct (urlopen (length (requests s)) (page_url u i)) as [code body| |];
      [|discriminate H|discriminate H].
    cbn zeta in H. destruct (json_loads body) as [d|] eqn:Hd; [|discriminate H].
    injection H as Hdata Hcached Hstate. subst d cached s1.
    split; [|split; [discriminate|intros _; split; reflexivity]].
    rewrite (_execute_query_ready json_loads urlopen
               (store_response (page_key k i) body (log_request (page_url u i) s))
               u k i Hready).
    unfold page_outcome. cbn [query_cache store_response].
    rewrite lookup_insert_eq, Hd. reflexivity.
Qed.

(** A body is stored before it is parsed.  When the network answers with a
    body that is not JSON, [_execute_query] raises [ValueError] and the
    body stays in the cache: from then on every call for that page, and
    every loop that reaches it, raises [ValueError] again without asking
    the network. *)
Theorem non_json_body_is_cached (s : state) (u k : string) (i : nat)
    (code : Z) (body : string) :
  ready s u k ->
  query_cache s !! page_key k i = None ->
  urlopen (length (requests s)) (page_url u i) = NetOk code body ->
  json_loads body = None ->
  exists s1,
    _execute_query json_loads urlopen i s = Fail ValueError s1 /\
    query_cache s1 !! page_key k i = Some body /\
    forall t u' pages records,
      ready t u' k -> query_cache s1 ⊆ query_cache t ->
      _execute_query json_loads urlopen i t = Fail ValueError t /\
      fetch_pages json_loads urlopen (i :: pages) records t = Fail ValueError t.
Proof.
  intros Hready Hmiss Hnet Hjson.
  exists (store_response (page_key k i) body (log_request (page_url u i) s)).
  split; [|split].
  - rewrite (_execute_query_ready json_loads urlopen s u k i Hready).
    unfold page_outcome. rewrite Hmiss, Hnet. cbn zeta. rewrite Hjson. reflexivity.
  - cbn [query_cache store_response]. apply lookup_insert_eq.
  - intros t u' pages records Ht Hsub.
    assert (Hhit : query_cache t !! page_key k i = Some body).
    { eapply lookup_weaken; [|exact Hsub].
      cbn [query_cache store_response]. apply lookup_insert_eq. }
    assert (Hexec : _execute_query json_loads urlopen i t = Fail ValueError t).
    { rewrite (_execute_query_ready json_loads urlopen t u' k i Ht).
      unfold page_outcome. rewrite Hhit, Hjson. reflexivity. }
    split; [exact Hexec|].
    rewrite fetch_pages_cons, Hexec. reflexivity.
Qed.

(** The same holds for a body that is JSON but fails the check of the
    loop (no "response", no "docs"): the page is skipped with a warning,
    its body is cached, and every later loop skips it with the same
    warning without asking the network. *)
Theorem page_without_docs_is_cached (s : state) (u k : string) (i : nat)
    (code : Z) (body : string) (data : json) (pages : list nat) (records : list json) :
  ready s u k ->
  query_cache s !! page_key k i = None ->
  urlopen (length (requests s)) (page_url u i) = NetOk code body ->
  json_loads body = Some data ->
  failure data = Ok true ->
  let s1 := add_warning (page_warning i)
              (store_response (page_key k i) body (log_request (page_url u i) s)) in
  fetch_pages json_loads urlopen (i :: pages) records s
  = fetch_pages json_loads urlopen pages records s1 /\
  forall t u' pages' records',
    ready t u' k -> query_cache s1 ⊆ query_cache t ->
    fetch_pages json_loads urlopen (i :: pages') records' t
    = fetch_pages json_loads urlopen pages' records' (add_warning (page_warning i) t).
Proof.
  intros Hready Hmiss Hnet Hjson Hfail s1. split.
  - rewrite fetch_pages_cons.
    rewrite (_execute_query_ready json_loads urlopen s u k i Hready).
    unfold page_outcome. rewrite Hmiss, Hnet. cbn zeta. rewrite Hjson.
    cbn [fst]. rewrite Hfail. reflexivity.
  - intros t u' pages' records' Ht Hsub.
    assert (Hhit : query_cache t !! page_key k i = Some body).
    { eapply lookup_weaken; [|exact Hsub].
      cbn [s1 query_cache store_response add_warning]. apply lookup_insert_eq. }
    rewrite fetch_pages_cons.
    rewrite (_execute_query_ready json_loads urlopen t u' k i Ht).
    unfold page_outcome. rewrite Hhit, Hjson. cbn [fst]. rewrite Hfail. reflexivity.
Qed.

(** Without a network [run_query] raises [URLError] at the probe of the
    key, before it looks at the cache: nothing that is cached is served. *)
Theorem unreachable_network_is_fatal (today : date) (query : string)
    (year_from year_to : option string) (max_records : Z) (s : state) :
  urlopen (length (requests s)) (probe_url quote_plus (_api_key s)) = NetURLError ->
  exists s',
    run_query quote_plus json_loads urlopen today query year_from year_to max_records s
    = Fail URLError s' /\
    requests s' = requests s ++ [probe_url quote_plus (_api_key s)] /\
    query_cache s' = query_cache s /\
    warnings s' = warnings s.
Proof.
  intros Hp. exists (log_request (probe_url quote_plus (_api_key s)) s).
  split; [|repeat split].
  apply (run_query_unreachable quote_plus json_loads urlopen today query
           year_from year_to max_records s Hp).
Qed.

(** A key that the probe does not confirm (an [HTTPError], or a status
    other than 200) costs a warning and nothing else: the run goes on to
    the loop over the pages.  A status of 200 costs no warning. *)
Theorem invalid_key_is_only_warned (today : date) (query : string)
    (year_from year_to : option string) (max_records : Z) (s : state) :
  let answer := urlopen (length (requests s)) (probe_url quote_plus (_api_key s)) in
  answer <> NetURLError ->
  exists s0,
    collect_records quote_plus json_loads urlopen today query year_from year_to
                    max_records s
    = bind (fetch_pages json_loads urlopen (range (num_steps max_records)) [])
           (fun records => ret (trim records max_records)) s0 /\
    query_cache s0 = query_cache s /\
    warnings s0
    = warnings s
      ++ match answer with
         | NetOk 200 _ => []
         | _ => [key_warning]
         end
      ++ (if max_records >? 1000 then [limit_warning] else []).
Proof.
  intros answer Hprobe.
  destruct (collect_records_prepare quote_plus json_loads urlopen today query
              year_from year_to max_records s Hprobe)
    as (s0 & u & valid & Heq & _ & _ & _ & Hcache & _ & Hcheck & Hw).
  exists s0. split; [exact Heq|]. split; [exact Hcache|].
  rewrite Hw. f_equal. f_equal.
  rewrite check_api_key_eq in Hcheck. cbn zeta in Hcheck. fold answer in Hcheck.
  destruct answer as [code body| |].
  - injection Hcheck as <-.
    destruct (Z.eqb_spec code 200) as [->|Hne]; [reflexivity|].
    destruct code as [|p|p]; try reflexivity.
    do 8 (destruct p as [p|p|]; try reflexivity). contradiction Hne. reflexivity.
  - injection Hcheck as <-. reflexivity.
  - discriminate Hcheck.
Qed.

End More.

Section Bounds.

Variable quote_plus : string -> string.
Variable json_loads : string -> option json.
Variable urlopen : nat -> string -> net_response.

Lemma probe_cases (s : state) :
  urlopen (length (requests s)) (probe_url quote_plus (_api_key s)) = NetURLError \/
  urlopen (length (requests s)) (probe_url quote_plus (_api_key s)) <> NetURLError.
Proof.
  destruct (urlopen (length (requests s)) (probe_url quote_plus (_api_key s)));
    [right; discriminate|right; discriminate|left; reflexivity].
Qed.



(** A count of zero or less fetches no page: after the probe of the key
    the run returns the empty table, with the cache as it was. *)
Theorem no_pages_for_nonpositive_max (today : date) (query : string)
    (year_from year_to : option string) (max_records : Z) (s : state) :
  max_records <= 0 ->
  urlopen (length (requests s)) (probe_url quote_plus (_api_key s)) <> NetURLError ->
  exists s',
    run_query quote_plus json_loads urlopen today query year_from year_to max_records s
    = Done {| metas := []; class_values := [] |} s' /\
    requests s' = requests s ++ [probe_url quote_plus (_api_key s)] /\
    query_cache s' = query_cache s.
Proof.
  intros Hm Hp.
  destruct (run_query_eq quote_plus json_loads urlopen today query year_from year_to
              max_records s Hp) as (s0 & u & _ & _ & _ & Hcache & Hreq & _ & Heq).
  exists s0. rewrite Heq.
  assert (Hnone : range (num_steps max_records) = []).
  { unfold range, num_steps. pose proof (ceil_tenth_spec max_records).
    replace (Z.to_nat (Z.min (ceil_tenth max_records) 100)) with 0%nat by lia.
    reflexivity. }
  rewrite Hnone. cbn [fetch_pages]. unfold ret. rewrite trim_nil.
  split; [reflexivity|]. split; assumption.
Qed.

(** The cache is append-only under [run_query]: whatever the run does, and
    whether it returns or raises, an entry that was in the cache is still
    there with the same body. *)
Theorem cache_is_append_only (today : date) (query : string)
    (year_from year_to : option string) (max_records : Z) (s : state)
    (key body : string) :
  query_cache s !! key = Some body ->
  query_cache (final_state (run_query quote_plus json_loads urlopen today query
                                      year_from year_to max_records s)) !! key
  = Some body.
Proof.
  intros Hlook.
  destruct (run_query_cache quote_plus json_loads urlopen today query year_from year_to
              max_records s) as (_ & Hsub & _).
  eapply lookup_weaken; [exact Hlook|exact Hsub].
Qed.

Lemma page_outcome_requests (u k : string) (i : nat) (s : state) :
  (length (requests (final_state (page_outcome json_loads urlopen u k i s)))
   <= length (requests s) + 1)%nat.
Proof.
  unfold page_outcome.
  destruct (query_cache s !! page_key k i) as [body|].
  - destruct (json_loads body); cbn [final_state]; lia.
  - destruct (urlopen (length (requests s)) (page_url u i)) as [code body| |];
      cbn zeta; try destruct (json_loads body);
      cbn [final_state requests store_response log_request];
      rewrite length_app; cbn [length]; lia.
Qed.

Lemma _execute_query_requests (i : nat) (s : state) :
  (length (requests (final_state (_execute_query json_loads urlopen i s)))
   <= length (requests s) + 1)%nat.
Proof.
  destruct (_query_url s) as [u|] eqn:Hu.
  2:{ unfold _execute_query, bind, when, warn, lift, concat_to, ret. rewrite Hu.
      cbn [final_state requests add_warning]. lia. }
  destruct (query_key s) as [k|] eqn:Hk.
  2:{ unfold _execute_query, bind, when, warn, lift, concat_to, ret. rewrite Hu.
      destruct (String.eqb u ""); cbn [query_key add_warning]; rewrite Hk;
        cbn [final_state requests add_warning]; lia. }
  rewrite (_execute_query_set json_loads urlopen s u k i Hu Hk).
  destruct (String.eqb u "").
  - apply (page_outcome_requests u k i
             (add_warning "Could not find any specified queries." s)).
  - apply page_outcome_requests.
Qed.

Lemma fetch_pages_requests (pages : list nat) :
  forall (records : list json) (s : state),
  (length (requests (final_state (fetch_pages json_loads urlopen pages records s)))
   <= length (requests s) + length pages)%nat.
Proof.
  induction pages as [|i pages IH]; intros records s.
  - cbn [fetch_pages final_state ret length]. unfold ret. cbn [final_state]. lia.
  - rewrite fetch_pages_cons. pose proof (_execute_query_requests i s) as Hone.
    destruct (_execute_query json_loads urlopen i s) as [r s1|e s1];
      cbn [final_state length] in *; [|lia].
    destruct (failure (fst (fst r))) as [[|]|e]; cbn [final_state]; [| |lia].
    + pose proof (IH records (add_warning (page_warning i) s1)) as Hrest.
      cbn [requests add_warning] in Hrest. lia.
    + destruct (docs_of (fst (fst r))) as [docs|e]; cbn [final_state]; [|lia].
      pose proof (IH (records ++ docs) s1). lia.
Qed.

Lemma range_length (max_records : Z) :
  (length (range (num_steps max_records)) <= 100)%nat.
Proof. unfold range, num_steps. rewrite length_seq. lia. Qed.

(** A run asks the network at most 101 times: once for the key and at
    most once for each of at most 100 pages, whether it returns or
    raises. *)
Theorem at_most_101_requests (today : date) (query : string)
    (year_from year_to : option string) (max_records : Z) (s : state) :
  (length (requests (final_state
      (run_query quote_plus json_loads urlopen today query year_from year_to
                 max_records s)))
   <= length (requests s) + 1 + Z.to_nat (Z.min (Z.max (ceil_tenth max_records) 0) 100))%nat
  /\
  (length (requests (final_state
      (run_query quote_plus json_loads urlopen today query year_from year_to
                 max_records s)))
   <= length (requests s) + 101)%nat.
Proof.
  assert (Hfirst :
    (length (requests (final_state
        (run_query quote_plus json_loads urlopen today query year_from year_to
                   max_records s)))
     <= length (requests s) + 1 + length (range (num_steps max_records)))%nat).
  { destruct (probe_cases s) as [Hp|Hp].
    - rewrite (run_query_unreachable quote_plus json_loads urlopen today query
                 year_from year_to max_records s Hp).
      cbn [final_state requests log_request]. rewrite length_app. cbn [length]. lia.
    - destruct (run_query_eq quote_plus json_loads urlopen today query year_from year_to
                  max_records s Hp) as (s0 & u & _ & _ & _ & _ & Hreq & _ & ->).
      pose proof (fetch_pages_requests (range (num_steps max_records)) [] s0) as Hloop.
      rewrite Hreq, length_app in Hloop. cbn [length] in Hloop.
      destruct (fetch_pages json_loads urlopen (range (num_steps max_records)) [] s0)
        as [fetched s1|e s1]; cbn [final_state] in *; [|lia].
      unfold lift. destruct (_generate_corpus _ _); cbn [final_state]; lia. }
  pose proof (range_length max_records) as Hlen.
  assert (Hexact : length (range (num_steps max_records))
                   = Z.to_nat (Z.min (Z.max (ceil_tenth max_records) 0) 100)).
  { unfold range, num_steps. rewrite length_seq. lia. }
  split; [rewrite <- Hexact; exact Hfirst|lia].
Qed.

(** The loop only appends: what it returns is the records it was started
    with followed by what the pages hold, and neither the state it ends in
    nor an exception it raises depends on the records it was started
    with. *)
Theorem fetch_pages_appends (pages : list nat) (records : list json) (s : state) :
  fetch_pages json_loads urlopen pages records s
  = match fetch_pages json_loads urlopen pages [] s with
    | Done more s' => Done (records ++ more) s'
    | Fail e s' => Fail e s'
    end.
Proof.
  revert records s. induction pages as [|i pages IH]; intros records s.
  - cbn [fetch_pages]. unfold ret. rewrite app_nil_r. reflexivity.
  - rewrite !fetch_pages_cons.
    destruct (_execute_query json_loads urlopen i s) as [r s1|e s1]; [|reflexivity].
    destruct (failure (fst (fst r))) as [[|]|e]; [| |reflexivity].
    + apply IH.
    + destruct (docs_of (fst (fst r))) as [docs|e]; [|reflexivity].
      rewrite (IH (records ++ docs) s1), (IH ([] ++ docs) s1).
      destruct (fetch_pages json_loads urlopen pages [] s1) as [more s2|e s2];
        [|reflexivity].
      cbn [app]. rewrite <- app_assoc. reflexivity.
Qed.

(** The loop over a list of pages is the loop over a first part followed
    by the loop over the rest. *)
Lemma fetch_pages_app (pages1 pages2 : list nat) (records : list json) (s : state) :
  fetch_pages json_loads urlopen (pages1 ++ pages2) records s
  = bind (fetch_pages json_loads urlopen pages1 records)
         (fun collected => fetch_pages json_loads urlopen pages2 collected) s.
Proof.
  revert records s. induction pages1 as [|i pages1 IH]; intros records s.
  - reflexivity.
  - cbn [app]. unfold bind. rewrite !fetch_pages_cons.
    destruct (_execute_query json_loads urlopen i s) as [r s1|e s1]; [|reflexivity].
    destruct (failure (fst (fst r))) as [[|]|e]; [| |reflexivity].
    + apply IH.
    + destruct (docs_of (fst (fst r))) as [docs|e]; [|reflexivity].
      apply IH.
Qed.

End Bounds.

(** ** The further properties on the sample worlds *)

Lemma _set_endpoint_url_raises_on_types_witness :
  _set_endpoint_url_call sample_quote_plus sample_day "obama" (YInt 2014) YNone
                         (Some NYT_TEXT_FIELDS) fresh
  = Fail AttributeError fresh /\
  _set_endpoint_url_call sample_quote_plus sample_day "obama" YNone YNone None fresh
  = Fail TypeError fresh.
Proof.
  split.
  - apply (proj1 (_set_endpoint_url_raises_on_types sample_quote_plus sample_day "obama"
                    (YInt 2014) YNone (Some NYT_TEXT_FIELDS) fresh)).
    exists 2014. split; [lia|left; reflexivity].
  - apply (proj1 (proj2 (_set_endpoint_url_raises_on_types sample_quote_plus sample_day
                           "obama" YNone YNone None fresh) None None eq_refl eq_refl)).
    reflexivity.
Defined.

Lemma valid_years_bound_the_query_witness :
  endpoint_and_key sample_quote_plus "key" next_day "obama" (Some "2010") (Some "2012")
                   NYT_TEXT_FIELDS
  = endpoint_and_key sample_quote_plus "key" sample_day "obama" (Some "2010") (Some "2012")
                     NYT_TEXT_FIELDS /\
  exists rest,
    endpoint_and_key sample_quote_plus "key" sample_day "obama" (Some "2010") (Some "2012")
                     NYT_TEXT_FIELDS
    = Ok (_base_url +:+ "?" +:+ urlencode_query sample_quote_plus "key" "obama"
          +:+ "&begin_date=" +:+ "2010" +:+ "0101"
          +:+ "&end_date=" +:+ "2012" +:+ "1231" +:+ rest,
          join "_" (["2010" +:+ "0101"; "2012" +:+ "1231"]
                    ++ split " " "obama" ++ NYT_TEXT_FIELDS)).
Proof.
  split.
  - apply (proj2 (valid_years_bound_the_query sample_quote_plus "key" sample_day "obama"
                    "2010" "2012" NYT_TEXT_FIELDS eq_refl eq_refl)).
  - apply (proj1 (valid_years_bound_the_query sample_quote_plus "key" sample_day "obama"
                    "2010" "2012" NYT_TEXT_FIELDS eq_refl eq_refl)).
Defined.

Lemma queries_share_cache_entries_witness :
  query_key_of sample_day "new york" None None NYT_TEXT_FIELDS
  = query_key_of sample_day "new_york" None None NYT_TEXT_FIELDS /\
  bind (_set_endpoint_url sample_quote_plus sample_day "new_york" None None NYT_TEXT_FIELDS)
       (fun _ => _execute_query sample_loads unreachable_net 0) york_state
  = Done (page_of [article "Budget Talks" "Ohio"; article "Floods" "Iowa"], true, None)
         (final_state (_set_endpoint_url sample_quote_plus sample_day "new_york" None None
                                         NYT_TEXT_FIELDS york_state)).
Proof.
  apply (queries_share_cache_entries sample_quote_plus sample_loads unreachable_net
           sample_day "new york" "new_york" None None NYT_TEXT_FIELDS york_state 0%nat
           "two articles").
  - reflexivity.
  - apply lookup_singleton_eq.
  - reflexivity.
Defined.

Lemma page_fetched_once_witness :
  let s1 := final_state (_execute_query sample_loads sample_net 0 prepared) in
  _execute_query sample_loads sample_net 0 s1
  = Done (page_of [article "Budget Talks" "Ohio"; article "Floods" "Iowa"], true, None) s1 /\
  requests s1 = requests prepared ++ [page_url sample_endpoint 0].
Proof.
  cbn zeta.
  assert (Hready : ready prepared sample_endpoint sample_key)
    by (repeat split; vm_compute; reflexivity).
  assert (Hfirst : _execute_query sample_loads sample_net 0 prepared
                   = Done (page_of [article "Budget Talks" "Ohio"; article "Floods" "Iowa"],
                           false, None)
                          (final_state (_execute_query sample_loads sample_net 0 prepared)))
    by (vm_compute; reflexivity).
  destruct (page_fetched_once sample_loads sample_net prepared _ sample_endpoint sample_key
              0%nat _ false Hready Hfirst) as (Hagain & _ & Hmiss).
  split; [exact Hagain|]. apply (Hmiss eq_refl).
Defined.

Lemma non_json_body_is_cached_witness :
  exists s1,
    _execute_query sample_loads html_net 0 prepared = Fail ValueError s1 /\
    query_cache s1 !! page_key sample_key 0 = Some "<html>Service Unavailable</html>" /\
    forall t u' pages records,
      ready t u' sample_key -> query_cache s1 ⊆ query_cache t ->
      _execute_query sample_loads html_net 0 t = Fail ValueError t /\
      fetch_pages sample_loads html_net (0%nat :: pages) records t = Fail ValueError t.
Proof.
  apply (non_json_body_is_cached sample_loads html_net prepared sample_endpoint sample_key
           0%nat 200 "<html>Service Unavailable</html>").
  - repeat split; vm_compute; reflexivity.
  - apply lookup_empty.
  - reflexivity.
  - reflexivity.
Defined.

Lemma page_without_docs_is_cached_witness :
  fetch_pages fault_loads fault_net [0; 1]%nat [] prepared
  = fetch_pages fault_loads fault_net [1]%nat []
      (add_warning (page_warning 0)
         (store_response (page_key sample_key 0) "a fault message"
            (log_request (page_url sample_endpoint 0) prepared))).
Proof.
  refine (proj1 (page_without_docs_is_cached fault_loads fault_net prepared
                   sample_endpoint sample_key 0%nat 200 "a fault message"
                   (JDict [("message", JStr "API rate limit exceeded")])
                   [1]%nat [] _ _ eq_refl eq_refl eq_refl)).
  - repeat split; vm_compute; reflexivity.
  - apply lookup_empty.
Defined.

Lemma unreachable_network_is_fatal_witness :
  query_cache (final_state first_run) !! page_key sample_key 0 = Some "two articles" /\
  exists s',
    run_query sample_quote_plus sample_loads unreachable_net sample_day "obama"
              None None 10 (final_state first_run)
    = Fail URLError s' /\
    requests s' = requests (final_state first_run)
                  ++ [probe_url sample_quote_plus (_api_key (final_state first_run))] /\
    query_cache s' = query_cache (final_state first_run) /\
    warnings s' = warnings (final_state first_run).
Proof.
  split; [vm_compute; reflexivity|].
  apply (unreachable_network_is_fatal sample_quote_plus sample_loads unreachable_net
           sample_day "obama" None None 10 (final_state first_run)).
  reflexivity.
Defined.

Lemma invalid_key_is_only_warned_witness :
  exists s0,
    collect_records sample_quote_plus sample_loads denied_net sample_day "obama"
                    None None 10 fresh
    = bind (fetch_pages sample_loads denied_net (range (num_steps 10)) [])
           (fun records => ret (trim records 10)) s0 /\
    query_cache s0 = query_cache fresh /\
    warnings s0 = warnings fresh ++ [key_warning] ++ [].
Proof.
  apply (invalid_key_is_only_warned sample_quote_plus sample_loads denied_net sample_day
           "obama" None None 10 fresh).
  vm_compute. discriminate.
Defined.


Lemma no_pages_for_nonpositive_max_witness :
  exists s',
    run_query sample_quote_plus sample_loads sample_net sample_day "obama" None None 0 fresh
    = Done {| metas := []; class_values := [] |} s' /\
    requests s' = requests fresh ++ [probe_url sample_quote_plus (_api_key fresh)] /\
    query_cache s' = query_cache fresh.
Proof.
  apply (no_pages_for_nonpositive_max sample_quote_plus sample_loads sample_net sample_day
           "obama" None None 0 fresh).
  - lia.
  - vm_compute. discriminate.
Defined.

Lemma cache_is_append_only_witness :
  query_cache (final_state first_run) !! page_key sample_key 0 = Some "two articles" /\
  query_cache (final_state
                 (run_query sample_quote_plus sample_loads html_net next_day "floods"
                            None None 30 (final_state first_run)))
  !! page_key sample_key 0 = Some "two articles".
Proof.
  assert (Hthere : query_cache (final_state first_run) !! page_key sample_key 0
                   = Some "two articles") by (vm_compute; reflexivity).
  split; [exact Hthere|].
  apply (cache_is_append_only sample_quote_plus sample_loads html_net next_day "floods"
           None None 30 (final_state first_run) _ _ Hthere).
Defined.

(** ** Well-formed records *)

Lemma rmap_as_str_filter (vals : list json) :
  List.Forall (fun val => truthy val = true -> exists t, val = JStr t) vals ->
  exists ss, rmap as_str (filter (fun val => truthy val = true) vals) = Ok ss.
Proof.
  induction 1 as [|val vals Hval _ (ss & IH)]; [exists []; reflexivity|].
  rewrite filter_cons. destruct (decide (truthy val = true)) as [Ht|_].
  - destruct (Hval Ht) as (t & ->). cbn [rmap as_str rbind]. rewrite IH.
    exists (t :: ss). reflexivity.
  - exists ss. exact IH.
Qed.

Lemma field_value_flat_text (v : json) :
  flat_text v -> exists fv, field_value v = Ok fv.
Proof.
  intros [Hs|[(dv & -> & Hdv)|(l & vs & -> & Hl)]].
  - destruct v; try discriminate Hs; eexists; reflexivity.
  - cbn [field_value]. unfold py_join.
    destruct (rmap_as_str_filter _ Hdv) as (ss & ->). eexists. reflexivity.
  - cbn [field_value]. rewrite (keyword_values l vs Hl). cbn [rbind].
    rewrite py_join_strs. eexists. reflexivity.
Qed.

Lemma text_fields_well_formed (d : list (string * json)) (fields : list string) :
  (forall f, In f fields -> exists v, dict_get f d = Some v /\ flat_text v) ->
  exists texts, text_fields (JDict d) fields = Ok texts /\ length texts = length fields.
Proof.
  induction fields as [|f fields IH]; intros Hall; [exists []; split; reflexivity|].
  destruct (Hall f (or_introl eq_refl)) as (v & Hv & Hflat).
  destruct (field_value_flat_text v Hflat) as (fv & Hfv).
  destruct IH as (texts & Ht & Hlen).
  { intros g Hg. apply Hall. right. exact Hg. }
  exists (fv :: texts). cbn [text_fields py_in py_getitem rbind].
  rewrite Hv. cbn [rbind]. rewrite Hfv. cbn [rbind]. rewrite Ht. cbn [rbind length].
  split; [reflexivity|]. rewrite Hlen. reflexivity.
Qed.

Lemma parse_doc_well_formed (fields : list string) (doc : json) :
  well_formed fields doc ->
  exists row label, parse_doc doc fields = Ok (row, label) /\
                    length row = (length fields + 2)%nat.
Proof.
  intros (d & kws & entries & -> & Hall & Hk & Hentries).
  destruct (text_fields_well_formed d fields Hall) as (texts & Ht & Hlen).
  unfold parse_doc. rewrite Ht. cbn [rbind py_get].
  unfold glocation. cbn [py_getitem]. rewrite Hk. cbn [rbind py_iter].
  rewrite (glocation_values_keywords kws entries Hentries). cbn [rbind].
  rewrite py_join_strs. cbn [rbind].
  eexists. eexists. split; [reflexivity|].
  rewrite length_map, length_app, Hlen. reflexivity.
Qed.

Lemma parse_loop_well_formed (fields : list string) (records : list json) :
  List.Forall (well_formed fields) records ->
  forall metadata class_values,
  exists metadata' class_values',
    parse_loop (length fields + 2) records fields metadata class_values
    = Ok (metadata', class_values').
Proof.
  induction 1 as [|doc records Hdoc _ IH]; intros metadata class_values.
  - eexists. eexists. reflexivity.
  - destruct (parse_doc_well_formed fields doc Hdoc) as (row & label & Hp & Hlen).
    cbn [parse_loop]. rewrite Hp. cbn [rbind fst snd]. unfold vstack.
    rewrite Hlen, Nat.eqb_refl. cbn [rbind]. apply IH.
Qed.

(** Records that have every configured field as a scalar, a dict of
    strings or a list of keyword objects, and a list of keyword objects
    under "keywords", always make a table: [_parse_record_json] returns,
    with one row for each record. *)
Theorem well_formed_records_parse (records : list json) (includes_metadata : list string) :
  List.Forall (well_formed includes_metadata) records ->
  exists metadata class_values,
    _parse_record_json records includes_metadata = Ok (metadata, class_values) /\
    length metadata = length records.
Proof.
  intros Hall.
  destruct (parse_loop_well_formed includes_metadata records Hall [] [])
    as (metadata & class_values & H).
  exists metadata, class_values. split; [exact H|].
  apply parse_loop_shape in H as (Hm & _). cbn [length] in Hm. lia.
Qed.

Lemma article_well_formed (headline place : string) :
  well_formed NYT_TEXT_FIELDS (article headline place).
Proof.
  eexists. exists [keyword "glocations" place; keyword "subject" "Budgets"].
  exists [("glocations", place); ("subject", "Budgets")].
  split; [reflexivity|]. split; [|split; [reflexivity|]].
  - intros f Hf. cbn [NYT_TEXT_FIELDS In] in Hf.
    destruct Hf as [<-|[<-|[<-|[<-|[<-|[]]]]]]; eexists; (split; [reflexivity|]).
    + right. left. eexists. split; [reflexivity|].
      repeat constructor; intros Ht; try discriminate Ht. eexists. reflexivity.
    + left. reflexivity.
    + left. reflexivity.
    + left. reflexivity.
    + right. right. eexists. exists [place; "Budgets"]. split; [reflexivity|].
      repeat constructor; eexists; (split; reflexivity).
  - repeat constructor; eexists; (split; [reflexivity|split; reflexivity]).
Qed.

Lemma well_formed_records_parse_witness :
  exists metadata class_values,
    _parse_record_json [article "Budget Talks" "Ohio"; article "Floods" "Iowa"]
                       NYT_TEXT_FIELDS = Ok (metadata, class_values) /\
    length metadata = length [article "Budget Talks" "Ohio"; article "Floods" "Iowa"].
Proof.
  apply (well_formed_records_parse
           [article "Budget Talks" "Ohio"; article "Floods" "Iowa"] NYT_TEXT_FIELDS).
  repeat constructor; apply article_well_formed.
Defined.

Lemma parse_loop_rows (ncols : nat) (fields : list string) (records : list json) :
  forall metadata class_values metadata' class_values',
  parse_loop ncols records fields metadata class_values = Ok (metadata', class_values') ->
  exists parsed,
    rmap (fun doc => parse_doc doc fields) records = Ok parsed /\
    metadata' = metadata ++ map fst parsed /\
    class_values' = class_values ++ map snd parsed.
Proof.
  induction records as [|doc records IH];
    intros metadata class_values metadata' class_values' H.
  - cbn [parse_loop] in H. injection H as <- <-. exists [].
    cbn [rmap map]. rewrite !app_nil_r. repeat split.
  - cbn [parse_loop] in H.
    destruct (parse_doc doc fields) as [rc|] eqn:Hdoc; [|discriminate].
    cbn [rbind] in H. unfold vstack in H.
    destruct (length (fst rc) =? ncols)%nat; [|discriminate].
    cbn [rbind] in H. apply IH in H as (parsed & Hp & -> & ->).
    exists (rc :: parsed). cbn [rmap rbind map]. rewrite Hdoc. cbn [rbind].
    rewrite Hp. cbn [rbind]. rewrite <- !app_assoc. repeat split.
Qed.

Lemma rmap_lookup {A B : Type} (f : A -> result B) (l : list A) (bs : list B)
    (i : nat) (a : A) :
  rmap f l = Ok bs -> l !! i = Some a -> exists b, bs !! i = Some b /\ f a = Ok b.
Proof.
  revert bs i. induction l as [|x l IH]; intros bs i H Hi; [discriminate Hi|].
  cbn [rmap] in H. destruct (f x) as [b|] eqn:Hx; [|discriminate H].
  cbn [rbind] in H. destruct (rmap f l) as [bs'|]; [|discriminate H].
  cbn [rbind] in H. injection H as <-.
  destruct i as [|i]; cbn in Hi |- *.
  - injection Hi as <-. exists b. split; [reflexivity|exact Hx].
  - apply (IH bs' i eq_refl Hi).
Qed.

(** C9. For a record whose "keywords" is a list of keyword objects, the
    location column is the comma-joined values of the entries named
    "glocations", in list order, and of no other entry: this is what
    line 45 computes, what ends the row of the record, and what the table
    that [_parse_record_json] returns holds in its last column in the row
    of the record.  As everywhere in the row, an empty result is stored as
    [None]. *)
Theorem glocation_column (d : list (string * json)) (kws : list json)
    (entries : list (string * string)) (fields : list string)
    (Hkws : dict_get "keywords" d = Some (JList kws))
    (Hentries : Forall2 has_keyword kws entries) :
  let places := join "," (glocations_of entries) in
  glocation (JDict d) = Ok (JStr places) /\
  (forall row label, parse_doc (JDict d) fields = Ok (row, label) ->
     last row = Some (empty_to_None (JStr places))) /\
  (forall records metadata class_values i,
     _parse_record_json records fields = Ok (metadata, class_values) ->
     records !! i = Some (JDict d) ->
     exists row,
       metadata !! i = Some row /\
       length row = (length fields + 2)%nat /\
       row !! (length fields + 1)%nat = Some (empty_to_None (JStr places))) /\
  (places <> "" -> empty_to_None (JStr places) = JStr places).
Proof.
  intros places.
  assert (Hg : glocation (JDict d) = Ok (JStr places)).
  { unfold glocation. cbn [py_getitem rbind]. rewrite Hkws. cbn [rbind py_iter].
    rewrite (glocation_values_keywords kws entries Hentries). cbn [rbind].
    apply py_join_strs. }
  assert (Hlast : forall row label, parse_doc (JDict d) fields = Ok (row, label) ->
                    last row = Some (empty_to_None (JStr places))).
  { intros row label Hp. unfold parse_doc in Hp.
    destruct (text_fields (JDict d) fields) as [texts|]; [|discriminate].
    cbn [rbind] in Hp. rewrite Hg in Hp.
    cbn [py_get rbind] in Hp. injection Hp as <- _.
    rewrite map_app, last_app. reflexivity. }
  split; [exact Hg|]. split; [exact Hlast|]. split.
  - intros records metadata class_values i Hparse Hi.
    unfold _parse_record_json in Hparse.
    pose proof (parse_loop_shape _ _ _ _ _ _ _ Hparse) as (_ & _ & Hrows).
    specialize (Hrows (List.Forall_nil _)).
    apply parse_loop_rows in Hparse as (parsed & Hp & -> & _). cbn [app] in *.
    destruct (rmap_lookup _ _ _ i _ Hp Hi) as ([row label] & Hrow & Hdoc).
    exists row. rewrite list_lookup_fmap, Hrow. split; [reflexivity|].
    assert (Hlen : length row = (length fields + 2)%nat).
    { rewrite List.Forall_forall in Hrows.
      apply (Hrows row). apply (proj1 (list_elem_of_In _ _)).
      apply (list_elem_of_lookup_2 _ i). rewrite list_lookup_fmap, Hrow. reflexivity. }
    split; [exact Hlen|].
    rewrite <- (Hlast row label Hdoc), last_lookup, Hlen.
    f_equal. lia.
  - intros Hne. apply empty_to_None_spec. congruence.
Qed.

Lemma glocation_column_witness :
  _parse_record_json [article "Budget Talks" "Ohio"; two_places] NYT_TEXT_FIELDS
  = Ok ([[JStr "Budget Talks"; JStr "The talks resumed."; JStr "The talks resumed.";
          None_; JStr "Ohio Budgets"; JStr "2015-06-01T00:00:00Z"; JStr "Ohio"];
         [JStr "Floods"; JStr "The river rose."; JStr "The river rose.";
          JStr "Floods in two states."; JStr "Iowa Floods Ohio Smith";
          JStr "2015-06-01T00:00:00Z"; JStr "Iowa,Ohio"]],
        [JStr "U.S."; JStr "U.S."]) /\
  exists row,
    [[JStr "Budget Talks"; JStr "The talks resumed."; JStr "The talks resumed.";
      None_; JStr "Ohio Budgets"; JStr "2015-06-01T00:00:00Z"; JStr "Ohio"];
     [JStr "Floods"; JStr "The river rose."; JStr "The river rose.";
      JStr "Floods in two states."; JStr "Iowa Floods Ohio Smith";
      JStr "2015-06-01T00:00:00Z"; JStr "Iowa,Ohio"]] !! 1%nat = Some row /\
    length row = (length NYT_TEXT_FIELDS + 2)%nat /\
    row !! (length NYT_TEXT_FIELDS + 1)%nat
    = Some (empty_to_None (JStr (join "," (glocations_of
              [("glocations", "Iowa"); ("subject", "Floods");
               ("glocations", "Ohio"); ("persons", "Smith")])))).
Proof.
  split; [reflexivity|].
  refine (proj1 (proj2 (proj2 (glocation_column
            (match two_places with JDict d => d | _ => [] end)
            [keyword "glocations" "Iowa"; keyword "subject" "Floods";
             keyword "glocations" "Ohio"; keyword "persons" "Smith"]
            [("glocations", "Iowa"); ("subject", "Floods");
             ("glocations", "Ohio"); ("persons", "Smith")]
            NYT_TEXT_FIELDS eq_refl _)))
          [article "Budget Talks" "Ohio"; two_places] _ [JStr "U.S."; JStr "U.S."]
          1%nat eq_refl eq_refl).
  repeat constructor; eexists; (split; [reflexivity|split; reflexivity]).
Defined.

(** The rows and the class values follow the records.  The i-th class
    value is that of the i-th record, read on its own, and there is one
    row for each record; the i-th row is the row of the i-th record
    wherever that row holds only entries that numpy keeps as they are
    ([None] and strs without a NUL at their end). *)
Theorem rows_follow_records (records : list json) (includes_metadata : list string)
    (metadata : list (list json)) (class_values : list json) :
  _parse_record_json records includes_metadata = Ok (metadata, class_values) ->
  exists parsed,
    rmap (fun doc => parse_doc doc includes_metadata) records = Ok parsed /\
    class_values = map snd parsed /\
    length metadata = length records /\
    (forall i doc, records !! i = Some doc ->
       exists row label,
         parse_doc doc includes_metadata = Ok (row, label) /\
         class_values !! i = Some label /\
         (List.Forall kept_entry row -> metadata !! i = Some row)).
Proof.
  unfold _parse_record_json. intros H.
  pose proof (parse_loop_shape _ _ _ _ _ _ _ H) as (Hlen & _ & _).
  apply parse_loop_rows in H as (parsed & Hp & -> & ->). cbn [app length] in *.
  exists parsed. split; [exact Hp|]. split; [reflexivity|]. split; [exact Hlen|].
  intros i doc Hi.
  destruct (rmap_lookup _ _ _ i _ Hp Hi) as ([row label] & Hrow & Hdoc).
  exists row, label. split; [exact Hdoc|].
  split; [rewrite list_lookup_fmap, Hrow; reflexivity|].
  intros _. rewrite list_lookup_fmap, Hrow. reflexivity.
Qed.

Lemma rows_follow_records_witness :
  exists parsed,
    rmap (fun doc => parse_doc doc NYT_TEXT_FIELDS)
         [article "Budget Talks" "Ohio"; article "Floods" "Iowa"] = Ok parsed /\
    class_values sample_corpus = map snd parsed /\
    length (metas sample_corpus)
    = length [article "Budget Talks" "Ohio"; article "Floods" "Iowa"] /\
    (forall i doc,
       [article "Budget Talks" "Ohio"; article "Floods" "Iowa"] !! i = Some doc ->
       exists row label,
         parse_doc doc NYT_TEXT_FIELDS = Ok (row, label) /\
         class_values sample_corpus !! i = Some label /\
         (List.Forall kept_entry row -> metas sample_corpus !! i = Some row)).
Proof.
  apply (rows_follow_records [article "Budget Talks" "Ohio"; article "Floods" "Iowa"]
           NYT_TEXT_FIELDS).
  reflexivity.
Defined.

(** ** Runs over good pages *)

Lemma good_page_cases (data : json) :
  good_page data ->
  failure data = Ok true \/
  exists docs, failure data = Ok false /\ docs_of data = Ok docs /\
               List.Forall (well_formed NYT_TEXT_FIELDS) docs.
Proof.
  intros [->|(d & -> & [Hr|(r & Hr & [Hd|(docs & Hd & Hdocs)])])].
  - left. reflexivity.
  - left. unfold failure. cbn [py_in]. rewrite Hr. reflexivity.
  - left. unfold failure. cbn [py_in rbind negb py_getitem]. rewrite Hr.
    cbn [py_in rbind negb py_getitem]. rewrite ?Hr. cbn [py_in rbind negb py_getitem].
    rewrite Hd. reflexivity.
  - right. exists docs. unfold failure, docs_of. cbn [py_in rbind negb py_getitem].
    rewrite Hr. cbn [py_in rbind negb py_getitem]. rewrite ?Hr.
    cbn [py_in rbind negb py_getitem]. rewrite Hd.
    split; [reflexivity|]. split; [reflexivity|exact Hdocs].
Qed.

Lemma trim_Forall (P : json -> Prop) (records : list json) (max_records : Z) :
  List.Forall P records -> List.Forall P (trim records max_records).
Proof.
  intros H. unfold trim, slice_to. destruct (_ >? _); [|exact H].
  apply Forall_take. exact H.
Qed.

Section GoodPages.

Variable quote_plus : string -> string.
Variable json_loads : string -> option json.
Variable urlopen : nat -> string -> net_response.

Hypothesis served_good :
  forall n url code body, urlopen n url = NetOk code body -> good_body json_loads body.

Lemma fetch_pages_good (u k : string) (pages : list nat) :
  forall (records : list json) (s : state),
  ready s u k ->
  (forall key body, query_cache s !! key = Some body -> good_body json_loads body) ->
  List.Forall (well_formed NYT_TEXT_FIELDS) records ->
  exists fetched s',
    fetch_pages json_loads urlopen pages records s = Done fetched s' /\
    List.Forall (well_formed NYT_TEXT_FIELDS) fetched.
Proof.
  induction pages as [|i pages IH]; intros records s Hready Hcache Hrecords.
  - exists records, s. split; [reflexivity|exact Hrecords].
  - rewrite fetch_pages_cons.
    rewrite (_execute_query_ready json_loads urlopen s u k i Hready).
    assert (Hgo : forall sa body data,
      ready sa u k ->
      (forall key b, query_cache sa !! key = Some b -> good_body json_loads b) ->
      json_loads body = Some data -> good_page data ->
      exists fetched s',
        match failure data with
        | Ok true => fetch_pages json_loads urlopen pages records
                                 (add_warning (page_warning i) sa)
        | Ok false =>
            match docs_of data with
            | Ok docs => fetch_pages json_loads urlopen pages (records ++ docs) sa
            | Raise e => Fail e sa
            end
        | Raise e => Fail e sa
        end = Done fetched s' /\
        List.Forall (well_formed NYT_TEXT_FIELDS) fetched).
    { intros sa body data Hsa Hca Hdata Hgood.
      destruct (good_page_cases data Hgood) as [->|(docs & -> & -> & Hdocs)].
      - apply (IH records (add_warning (page_warning i) sa) Hsa Hca Hrecords).
      - apply (IH (records ++ docs) sa Hsa Hca).
        apply List.Forall_app. split; assumption. }
    unfold page_outcome.
    destruct (query_cache s !! page_key k i) as [body|] eqn:Hlook.
    + destruct (Hcache _ _ Hlook) as (data & Hdata & Hgood).
      rewrite Hdata. cbn [fst]. apply (Hgo s body data Hready Hcache Hdata Hgood).
    + destruct (urlopen (length (requests s)) (page_url u i)) as [code body| |] eqn:Hnet.
      * destruct (served_good _ _ _ _ Hnet) as (data & Hdata & Hgood).
        cbn zeta. rewrite Hdata. cbn [fst].
        apply (Hgo (store_response (page_key k i) body (log_request (page_url u i) s))
                 body data Hready); [|exact Hdata|exact Hgood].
        intros key b Hb. cbn [query_cache store_response log_request] in Hb.
        destruct (decide (key = page_key k i)) as [->|Hne].
        -- rewrite lookup_insert_eq in Hb. injection Hb as <-.
           exists data. split; assumption.
        -- rewrite lookup_insert_ne in Hb by congruence. apply (Hcache key b Hb).
      * cbn [fst]. rewrite failure_empty_str.
        apply (IH records (add_warning (page_warning i) (log_request (page_url u i) s))
                 Hready Hcache Hrecords).
      * cbn [fst]. rewrite failure_empty_str.
        apply (IH records (add_warning (page_warning i) (log_request (page_url u i) s))
                 Hready Hcache Hrecords).
Qed.

(** When the probe of the key gets through and every body, in the cache or
    from the network, is a good page, a run gets as far as the table of
    [_parse_record_json] without raising: the loop returns, skipping the
    pages that fail in transport or carry no records, the records it hands
    on are well formed, and [_parse_record_json] makes a row and a class
    value of each.  (Lines 78-90, where numpy and Orange build the corpus
    from the rows, are not part of the statement.) *)
Theorem good_pages_reach_the_table (today : date) (query : string)
    (year_from year_to : option string) (max_records : Z) (s : state) :
  urlopen (length (requests s)) (probe_url quote_plus (_api_key s)) <> NetURLError ->
  (forall key body, query_cache s !! key = Some body -> good_body json_loads body) ->
  exists records s' metadata labels,
    collect_records quote_plus json_loads urlopen today query year_from year_to
                    max_records s = Done records s' /\
    List.Forall (well_formed NYT_TEXT_FIELDS) records /\
    _parse_record_json records NYT_TEXT_FIELDS = Ok (metadata, labels) /\
    length metadata = length records /\
    length labels = length records.
Proof.
  intros Hp Hcache.
  destruct (collect_records_prepare quote_plus json_loads urlopen today query
              year_from year_to max_records s Hp)
    as (s0 & u & valid & -> & _ & Hready & _ & Hc0 & _).
  destruct (fetch_pages_good u _ (range (num_steps max_records)) [] s0 Hready)
    as (fetched & s1 & Hfetch & Hwf).
  { rewrite Hc0. exact Hcache. }
  { constructor. }
  apply (trim_Forall _ _ max_records) in Hwf.
  destruct (parse_loop_well_formed NYT_TEXT_FIELDS _ Hwf [] [])
    as (metadata & labels & Hparse).
  exists (trim fetched max_records), s1, metadata, labels.
  split; [unfold bind, ret; rewrite Hfetch; reflexivity|].
  split; [exact Hwf|]. split; [exact Hparse|].
  apply parse_loop_shape in Hparse as (Hm & Hcv & _).
  cbn [length] in *. lia.
Qed.

End GoodPages.

Lemma sample_net_serves_good_pages (n : nat) (url : string) (code : Z) (body : string) :
  sample_net n url = NetOk code body -> good_body sample_loads body.
Proof.
  intros H. injection H as _ <-.
  exists (page_of [article "Budget Talks" "Ohio"; article "Floods" "Iowa"]).
  split; [reflexivity|]. right. eexists. split; [reflexivity|].
  right. eexists. split; [reflexivity|]. right. eexists. split; [reflexivity|].
  repeat constructor; apply article_well_formed.
Qed.

Lemma good_pages_reach_the_table_witness :
  exists records s' metadata labels,
    collect_records sample_quote_plus sample_loads sample_net sample_day "obama"
                    None None 25 fresh = Done records s' /\
    List.Forall (well_formed NYT_TEXT_FIELDS) records /\
    _parse_record_json records NYT_TEXT_FIELDS = Ok (metadata, labels) /\
    length metadata = length records /\
    length labels = length records.
Proof.
  apply (good_pages_reach_the_table sample_quote_plus sample_loads sample_net
           sample_net_serves_good_pages sample_day "obama" None None 25 fresh).
  - vm_compute. discriminate.
  - intros key body H. change (query_cache fresh) with (∅ : gmap string string) in H.
    rewrite lookup_empty in H. discriminate H.
Defined.
